(** * Testability scorer: scoring, aggregation and recommendations

    A shallow embedding of the scoring code of the repository
    (comprehensive-testability-analyzer.js, ai-testability-scorer.js, the
    quick scorer, the TestabilityScorer of tests/testability-principles.spec.js,
    the summary helpers of the complete-analysis suite, processResults of
    html-report-generator.js and smartInteract of ai-test-utils.js), with the
    properties the specification states about it and further properties of
    the code.

    Conventions.
    - A JavaScript number is an exact rational ([Q]); a DOM count is an
      integer ([Z]) injected into [Q] where the code does arithmetic on it.
      Binary floating point rounding is not modelled in the scoring rules.
      Where means are taken over the fractional scores of several results
      (the summary helpers of the suite), the sum and the quotient go
      through parameters that stand for the double-precision operations.
    - An awaited browser call is a value of [attempt]: it resolves to a value
      or rejects with a message.  A [try { ... } catch] is [try_catch].
    - A JavaScript object used as an ordered map is an association list of
      its own properties in insertion order ([obj]).  A read under a key
      that need not be an own property sees what an object literal inherits
      from [Object.prototype] ([lookup_or]). *)

From Stdlib Require Import ZArith QArith Qround Qminmax Lqa Lia.
From Stdlib Require Import List String Ascii Bool Permutation Sorted.
From Stdlib Require Import DecimalString.
Import ListNotations.

Local Open Scope Z_scope.
Local Open Scope Q_scope.

(** ** JavaScript numbers *)

Module JS.

Definition number := Q.

Definition num (z : Z) : number := inject_Z z.

(** [Math.floor] *)
Definition Math_floor (x : number) : Z := Qfloor x.

(** [Math.round]: nearest integer, a tie goes to the larger one. *)
Definition Math_round (x : number) : Z := Qfloor (x + (1 # 2)).

Definition Math_min (a b : number) : number := Qmin a b.
Definition Math_max (a b : number) : number := Qmax a b.

(** [a > b], [a < b], [a >= b] on numbers, as booleans. *)
Definition gt (a b : number) : bool := negb (Qle_bool a b).
Definition lt (a b : number) : bool := negb (Qle_bool b a).
Definition ge (a b : number) : bool := Qle_bool b a.

(** [a / b > c] for integer counts [a], [b]: a zero divisor gives
    [Infinity], [-Infinity] or [NaN] in JavaScript, and only [Infinity]
    compares greater than [c]. *)
Definition div_gt (a b : Z) (c : number) : bool :=
  if (b =? 0)%Z then (0 <? a)%Z else gt (num a / num b) c.

(** [arr.reduce((sum, x) => sum + x, 0)] *)
Definition reduce_sum (xs : list number) : number :=
  fold_left Qplus xs 0.

(** *** Awaited calls and exceptions *)

Inductive attempt (A : Type) : Type :=
| Resolved (a : A)
| Rejected (message : string).
Arguments Resolved {A} a.
Arguments Rejected {A} message.

Definition bind {A B} (c : attempt A) (k : A -> attempt B) : attempt B :=
  match c with
  | Resolved a => k a
  | Rejected m => Rejected m
  end.

(** [try { body } catch (error) { handler }] *)
Definition try_catch {A} (body : attempt A) (handler : string -> A) : A :=
  match body with
  | Resolved a => a
  | Rejected m => handler m
  end.

(** [promise.catch(() => v)] *)
Definition or_else {A} (c : attempt A) (v : A) : A :=
  try_catch c (fun _ => v).

(** A count that, if it resolves, is not negative. *)
Definition nonneg (c : attempt Z) : Prop :=
  match c with
  | Resolved z => (0 <= z)%Z
  | Rejected _ => True
  end.

(** [c] rejects. *)
Definition rejects {A} (c : attempt A) : Prop :=
  exists message, c = Rejected message.

(** Truthiness of an optional string: [undefined] and [''] are falsy. *)
Definition truthy (x : option string) : bool :=
  match x with
  | Some (String _ _) => true
  | Some EmptyString | None => false
  end.

End JS.

Import JS.

Notation "x <- c ;; k" := (bind c (fun x => k))
  (at level 61, c at next level, right associativity).
Notation "c ;;; k" := (bind c (fun _ => k))
  (at level 61, right associativity).

(** ** JavaScript objects as ordered maps *)

Definition obj (V : Type) := list (string * V).

Definition Object_keys {V} (o : obj V) : list string := map fst o.
Definition Object_values {V} (o : obj V) : list V := map snd o.
Definition Object_entries {V} (o : obj V) : list (string * V) := o.

(** [o[k]] among the own properties of [o] *)
Fixpoint get_field {V} (k : string) (o : obj V) : option V :=
  match o with
  | [] => None
  | (k', v) :: o' => if String.eqb k k' then Some v else get_field k o'
  end.

(** [o[k] = v]: an existing key keeps its position, a new key goes last. *)
Fixpoint set_field {V} (k : string) (v : V) (o : obj V) : obj V :=
  match o with
  | [] => [(k, v)]
  | (k', v') :: o' =>
      if String.eqb k k' then (k', v) :: o' else (k', v') :: set_field k v o'
  end.

(** The names an object literal inherits from [Object.prototype], with the
    accessors of Annex B that Node.js provides.  Each reads as a function,
    [__proto__] as the prototype object: a truthy value that is no
    string. *)
Definition Object_prototype : list string :=
  [ "constructor"; "__defineGetter__"; "__defineSetter__"; "hasOwnProperty";
    "__lookupGetter__"; "__lookupSetter__"; "isPrototypeOf";
    "propertyIsEnumerable"; "toString"; "valueOf"; "__proto__";
    "toLocaleString" ]%string.

(** What [table[k] || fallback] evaluates to on an object literal [table] of
    strings: a text, or the inherited member found under [k]. *)
Inductive looked_up : Type :=
| Text (s : string)
| Inherited (name : string).

Definition looked_up_dec (a b : looked_up) : {a = b} + {a <> b}.
Proof. decide equality; apply string_dec. Defined.

(** [table[k] || fallback]: an own property shadows an inherited one, and
    an empty text is falsy. *)
Definition lookup_or (k : string) (table : obj string) (fallback : string)
  : looked_up :=
  match get_field k table with
  | Some (String c s) => Text (String c s)
  | Some EmptyString => Text fallback
  | None =>
      if existsb (String.eqb k) Object_prototype then Inherited k
      else Text fallback
  end.

(** The entries under key [p] whose value passes [f]. *)
Definition matching {V} (f : V -> bool) (p : string) (e : string * V) : bool :=
  String.eqb (fst e) p && f (snd e).

(** The ten principles, in the order the constructors declare them. *)
Definition principleNames : list string :=
  [ "observability"; "controllability"; "algorithmicSimplicity";
    "algorithmicTransparency"; "algorithmicStability"; "explainability";
    "unbugginess"; "smallness"; "decomposability"; "similarity" ]%string.

(** [{ observability: 0, ..., similarity: 0 }] *)
Definition initial_principles : obj number :=
  map (fun k => (k, 0)) principleNames.

(** A score map is complete when its keys are exactly the ten principles. *)
Definition complete (o : obj number) : Prop :=
  Permutation (Object_keys o) principleNames.

(** ** Priorities *)

Inductive Priority : Type := Critical | High | Medium.

Definition priority_name (p : Priority) : string :=
  match p with
  | Critical => "Critical"
  | High => "High"
  | Medium => "Medium"
  end.

Definition Priority_eqb (a b : Priority) : bool :=
  match a, b with
  | Critical, Critical | High, High | Medium, Medium => true
  | _, _ => false
  end.

Module Comprehensive.

(** [getGrade(score)] of ComprehensiveTestabilityAnalyzer; the quick scorer
    has the same method. *)
Definition getGrade (score : Z) : string :=
  if (90 <=? score)%Z then "A (Excellent)"
  else if (80 <=? score)%Z then "B (Good)"
  else if (70 <=? score)%Z then "C (Average)"
  else if (60 <=? score)%Z then "D (Below Average)"
  else "F (Poor)".

(** *** Recommendations *)

(** The template literal
    [`AI analysis shows ${principle} scoring ${score}/100, indicating need
    for improvement`], kept with its two holes. *)
Record Reasoning : Type := mkReasoning {
  reasoning_principle : string;
  reasoning_score : number
}.

Record Recommendation : Type := mkRecommendation {
  principle : string;
  score : number;
  priority : Priority;
  suggestion : string;
  aiReasoning : Reasoning
}.

(** The [switch (principle)] of generateAIRecommendations. *)
Definition suggestion_for (p : string) : string :=
  if String.eqb p "observability" then
    "Add comprehensive data-test attributes, implement state monitoring, and enhance error visibility"
  else if String.eqb p "controllability" then
    "Improve input validation, add loading states, and enhance interaction feedback"
  else if String.eqb p "algorithmicSimplicity" then
    "Reduce page complexity, simplify workflows, and improve semantic structure"
  else if String.eqb p "algorithmicTransparency" then
    "Add progress indicators, improve feedback messages, and reduce black-box operations"
  else if String.eqb p "algorithmicStability" then
    "Implement consistent data-test patterns and improve element stability"
  else if String.eqb p "explainability" then
    "Add semantic HTML elements, implement ARIA labels, and improve documentation"
  else if String.eqb p "unbugginess" then
    "Fix JavaScript errors, improve error handling, and enhance robustness"
  else if String.eqb p "smallness" then
    "Break down large components, reduce page size, and improve modularity"
  else if String.eqb p "decomposability" then
    "Improve component separation, add isolated test targets, and enhance modularity"
  else if String.eqb p "similarity" then
    "Follow standard UI patterns, implement conventional design, and use familiar technologies"
  else "".

(** [score < 40 ? 'Critical' : score < 50 ? 'High' : 'Medium'] *)
Definition priority_of (s : number) : Priority :=
  if lt s 40 then Critical else if lt s 50 then High else Medium.

(** The body of the [forEach] callback: the recommendations one entry
    pushes. *)
Definition recommend_entry (e : string * number) : list Recommendation :=
  let '(p, s) := e in
  if lt s 60 then
    [ mkRecommendation p s (priority_of s) (suggestion_for p)
        (mkReasoning p s) ]
  else [].

(** [generateAIRecommendations()], as a function of [this.principles]. *)
Definition generateAIRecommendations (principles : obj number)
  : list Recommendation :=
  flat_map recommend_entry (Object_entries principles).

(** *** Aggregation *)

(** [Math.round(Object.values(this.principles).reduce(...) / 10)] *)
Definition overallScore_of (principles : obj number) : Z :=
  Math_round (reduce_sum (Object_values principles) / 10).

(** *** What the analyzers observe

    One field per awaited page query, in the order the analyzer issues
    them.  The per-principle [metrics] objects are log output and are not
    modelled. *)

Record StateData : Type := mkStateData {
  localStorage : Z;
  sessionStorage : Z;
  cookies : bool;
  readyState : string
}.

Record ObservabilityView : Type := mkObservabilityView {
  obs_stateData : attempt StateData;
  obs_dataTestElements : attempt Z;
  obs_errorElements : attempt Z;
  obs_visualElements : attempt Z;
  (** [session.networkRequests.length] of the debug session found under
      [debugSessionId]; [None] when the id is falsy or no session exists. *)
  obs_session : option Z
}.

(** [testField.fill(v)], [testField.inputValue()] compared with [v], and
    [testField.clear()]. *)
Record InputField : Type := mkInputField {
  fill : attempt unit;
  inputValue_is_testValue : attempt bool;
  clear : attempt unit
}.

Record ControllabilityView : Type := mkControllabilityView {
  ctl_inputFields : attempt (list InputField);
  ctl_interactiveElements : attempt Z;
  ctl_url1 : string;
  ctl_reload : attempt unit;
  ctl_url2 : string;
  ctl_buttons : attempt Z;
  ctl_links : attempt Z
}.

Record SimplicityView : Type := mkSimplicityView {
  sim_totalElements : attempt Z;
  sim_forms : attempt Z;
  sim_buttons : attempt Z;
  sim_headings : attempt Z;
  sim_navigation : attempt Z
}.

Record TransparencyView : Type := mkTransparencyView {
  tra_visibleFeedback : attempt Z;
  tra_labels : attempt Z;
  tra_tooltips : attempt Z;
  tra_consoleErrors : attempt Z
}.

Record StabilityView : Type := mkStabilityView {
  sta_initialElementCount : attempt Z;
  sta_reload : attempt unit;
  sta_waitForPageReady : attempt unit;
  sta_reloadElementCount : attempt Z;
  (** the [data-test] attribute of every element the in-page script visits *)
  sta_testIds : attempt (list string);
  sta_consistentElements : attempt Z
}.

Record ExplainabilityView : Type := mkExplainabilityView {
  exp_semanticElements : attempt Z;
  exp_labeledInputs : attempt Z;
  exp_actualLabels : attempt Z;
  exp_altTexts : attempt Z;
  exp_totalImages : attempt Z;
  exp_ariaElements : attempt Z
}.

Record UnbugginessView : Type := mkUnbugginessView {
  unb_jsErrors : attempt Z;
  unb_consoleErrors : attempt Z;
  unb_errorElements : attempt Z;
  unb_brokenImages : attempt Z
}.

Record SmallnessView : Type := mkSmallnessView {
  sma_totalElements : attempt Z;
  sma_testableElements : attempt Z;
  sma_pageContent : attempt string
}.

Record DecomposabilityView : Type := mkDecomposabilityView {
  dec_containers : attempt Z;
  dec_isolatedElements : attempt Z;
  dec_forms : attempt Z;
  dec_modules : attempt Z
}.

Record StandardElements : Type := mkStandardElements {
  std_buttons : Z;
  std_forms : Z;
  std_navigation : Z;
  std_headings : Z
}.

Record FamiliarTech : Type := mkFamiliarTech {
  html5 : bool;
  css : bool;
  javascript : bool;
  tech_forms : bool
}.

Record Conventions : Type := mkConventions {
  header : bool;
  footer : bool;
  main : bool;
  breadcrumbs : bool
}.

Record SimilarityView : Type := mkSimilarityView {
  sml_standardElements : attempt StandardElements;
  sml_familiarTech : attempt FamiliarTech;
  sml_conventions : attempt Conventions
}.

(** [s.includes(c)] for a one-character needle. *)
Fixpoint includes_char (s : string) (c : ascii) : bool :=
  match s with
  | EmptyString => false
  | String c' s' => Ascii.eqb c' c || includes_char s' c
  end.

(** *** The ten analyzers *)

(** [analyzeObservability(page, userType, debugSessionId)] *)
Definition analyzeObservability (v : ObservabilityView) : number :=
  try_catch
    (stateData <- obs_stateData v ;;
     let stateScore :=
       0 + (if (localStorage stateData >? 0)%Z then 8 else 0)
         + (if (sessionStorage stateData >? 0)%Z then 7 else 0)
         + (if cookies stateData then 5 else 0)
         + (if String.eqb (readyState stateData) "complete" then 5 else 0) in
     dataTestElements <- obs_dataTestElements v ;;
     let dataTestScore :=
       Math_min 25 (num (Math_floor (num dataTestElements * 2.5))) in
     errorElements <- obs_errorElements v ;;
     let errorScore := if (errorElements >? 0)%Z then 20 else 10 in
     visualElements <- obs_visualElements v ;;
     let visualScore := Math_min 15 (num visualElements * 2) in
     let networkScore :=
       match obs_session v with
       | Some requests => if (requests >? 0)%Z then 15 else 5
       | None => 5
       end in
     Resolved
       (0 + stateScore + dataTestScore + errorScore + visualScore
          + networkScore))
    (fun _ => 20).

(** The inner [try] of analyzeControllability on [inputFields[0]]. *)
Definition probe_input (testField : InputField) : number :=
  try_catch
    (fill testField ;;;
     same <- inputValue_is_testValue testField ;;
     let inputScore := if same : bool then 30 else 15 in
     clear testField ;;;
     Resolved inputScore)
    (fun _ => 10).

(** [analyzeControllability(page, userType)] *)
Definition analyzeControllability (v : ControllabilityView) : number :=
  try_catch
    (inputFields <- ctl_inputFields v ;;
     let inputScore :=
       match inputFields with
       | testField :: _ => probe_input testField
       | [] => 0
       end in
     interactiveElements <- ctl_interactiveElements v ;;
     let stateScore := Math_min 25 (num interactiveElements * 2) in
     ctl_reload v ;;;
     let determinismScore :=
       if String.eqb (ctl_url1 v) (ctl_url2 v) then 25 else 15 in
     buttons <- ctl_buttons v ;;
     links <- ctl_links v ;;
     let reliabilityScore := Math_min 20 (num (buttons + links) * 1.5) in
     Resolved
       (0 + inputScore + stateScore + determinismScore + reliabilityScore))
    (fun _ => 25).

(** [analyzeAlgorithmicSimplicity(page, userType)] *)
Definition analyzeAlgorithmicSimplicity (v : SimplicityView) : number :=
  try_catch
    (totalElements <- sim_totalElements v ;;
     let clarityScore :=
       if (totalElements >? 1000)%Z then 15
       else if (totalElements >? 500)%Z then 25
       else if (totalElements >? 200)%Z then 30
       else 35 in
     forms <- sim_forms v ;;
     buttons <- sim_buttons v ;;
     let complexity := (forms + buttons)%Z in
     let complexityScore :=
       if (complexity <? 10)%Z then 35
       else if (complexity <? 20)%Z then 25 else 15 in
     headings <- sim_headings v ;;
     navigation <- sim_navigation v ;;
     let predictabilityScore :=
       Math_min 30 (num headings * 3 + num navigation * 10) in
     Resolved (0 + clarityScore + complexityScore + predictabilityScore))
    (fun _ => 30).

(** [analyzeAlgorithmicTransparency(page, userType)] *)
Definition analyzeAlgorithmicTransparency (v : TransparencyView) : number :=
  try_catch
    (visibleFeedback <- tra_visibleFeedback v ;;
     let visibilityScore := Math_min 40 (num visibleFeedback * 8) in
     labels <- tra_labels v ;;
     tooltips <- tra_tooltips v ;;
     let understandingScore :=
       Math_min 35 (num labels * 3 + num tooltips * 2) in
     consoleErrors <- tra_consoleErrors v ;;
     let blackBoxScore :=
       if (consoleErrors =? 0)%Z then 25
       else if (consoleErrors <? 3)%Z then 15 else 5 in
     Resolved (0 + visibilityScore + understandingScore + blackBoxScore))
    (fun _ => 35).

(** The in-page script of analyzeAlgorithmicStability:
    [qualityScore] summed over the elements, then [Math.min(35, ...)]. *)
Definition testId_quality (testId : string) : number :=
  (if includes_char testId "-" || includes_char testId "_" then 2 else 0)
  + (if (5 <? String.length testId)%nat then 1 else 0).

Definition dataTestQuality (testIds : list string) : number :=
  Math_min 35
    (fold_left (fun qualityScore testId =>
                  qualityScore + testId_quality testId) testIds 0).

(** [analyzeAlgorithmicStability(page, userType)] *)
Definition analyzeAlgorithmicStability (v : StabilityView) : number :=
  try_catch
    (initialElementCount <- sta_initialElementCount v ;;
     sta_reload v ;;;
     sta_waitForPageReady v ;;;
     reloadElementCount <- sta_reloadElementCount v ;;
     let resilienceScore :=
       if (initialElementCount =? reloadElementCount)%Z then 35 else 20 in
     testIds <- sta_testIds v ;;
     let quality := dataTestQuality testIds in
     consistentElements <- sta_consistentElements v ;;
     let consistencyScore := Math_min 30 (num consistentElements * 5) in
     Resolved (0 + resilienceScore + quality + consistencyScore))
    (fun _ => 40).

(** [analyzeExplainability(page, userType)] *)
Definition analyzeExplainability (v : ExplainabilityView) : number :=
  try_catch
    (semanticElements <- exp_semanticElements v ;;
     let clarityScore := Math_min 35 (num semanticElements * 5) in
     exp_labeledInputs v ;;;
     actualLabels <- exp_actualLabels v ;;
     altTexts <- exp_altTexts v ;;
     totalImages <- exp_totalImages v ;;
     let docScore :=
       0 + Math_min 20 (num actualLabels * 4)
         + (if (totalImages >? 0)%Z
            then Math_min 15 (num altTexts / num totalImages * 15)
            else 0) in
     ariaElements <- exp_ariaElements v ;;
     let structureScore := Math_min 30 (num ariaElements * 3) in
     Resolved (0 + clarityScore + docScore + structureScore))
    (fun _ => 25).

(** [analyzeUnbugginess(page, userType)] *)
Definition analyzeUnbugginess (v : UnbugginessView) : number :=
  try_catch
    (jsErrors <- unb_jsErrors v ;;
     consoleErrors <- unb_consoleErrors v ;;
     let errorDeduction := Math_min 40 (num (jsErrors + consoleErrors) * 5) in
     let errorScore := 40 - errorDeduction in
     errorElements <- unb_errorElements v ;;
     let handlingScore := if (errorElements >? 0)%Z then 35 else 20 in
     brokenImages <- unb_brokenImages v ;;
     let robustnessScore := 25 - Math_min 25 (num brokenImages * 5) in
     let totalScore := errorScore + handlingScore + robustnessScore in
     Resolved (Math_max 0 totalScore))
    (fun _ => 60).

(** [analyzeSmallness(page, userType)] *)
Definition analyzeSmallness (v : SmallnessView) : number :=
  try_catch
    (totalElements <- sma_totalElements v ;;
     let sizeScore :=
       if (totalElements >? 1000)%Z then 10
       else if (totalElements >? 500)%Z then 20
       else if (totalElements >? 200)%Z then 30
       else 40 in
     testableElements <- sma_testableElements v ;;
     let scopeScore := Math_min 35 (num testableElements * 3) in
     pageContent <- sma_pageContent v ;;
     let contentSize := Z.of_nat (String.length pageContent) in
     let managementScore :=
       if (contentSize >? 100000)%Z then 10
       else if (contentSize >? 50000)%Z then 15
       else if (contentSize >? 20000)%Z then 20
       else 25 in
     Resolved (0 + sizeScore + scopeScore + managementScore))
    (fun _ => 45).

(** [analyzeDecomposability(page, userType)] *)
Definition analyzeDecomposability (v : DecomposabilityView) : number :=
  try_catch
    (containers <- dec_containers v ;;
     let separationScore := Math_min 40 (num containers * 2) in
     isolatedElements <- dec_isolatedElements v ;;
     forms <- dec_forms v ;;
     let isolationScore :=
       Math_min 35 (num isolatedElements * 2 + num forms * 5) in
     modules <- dec_modules v ;;
     let modularScore := Math_min 25 (num (Math_floor (num modules / 3))) in
     Resolved (0 + separationScore + isolationScore + modularScore))
    (fun _ => 50).

(** [analyzeSimilarity(page, userType)] *)
Definition analyzeSimilarity (v : SimilarityView) : number :=
  try_catch
    (standardElements <- sml_standardElements v ;;
     let patternScore :=
       Math_min 40
         (num (std_buttons standardElements) * 2
          + num (std_forms standardElements) * 5
          + num (std_navigation standardElements) * 8
          + num (std_headings standardElements) * 1) in
     familiarTech <- sml_familiarTech v ;;
     let techScore :=
       0 + (if html5 familiarTech then 10 else 0)
         + (if css familiarTech then 8 else 0)
         + (if javascript familiarTech then 7 else 0)
         + (if tech_forms familiarTech then 10 else 0) in
     conventions <- sml_conventions v ;;
     let conventionScore :=
       0 + (if header conventions then 7 else 0)
         + (if footer conventions then 5 else 0)
         + (if main conventions then 8 else 0)
         + (if breadcrumbs conventions then 5 else 0) in
     Resolved (0 + patternScore + techScore + conventionScore))
    (fun _ => 55).

(** *** The complete analysis *)

Record Page : Type := mkPage {
  startDebugSession : attempt unit;
  goto : attempt unit;
  waitForPageReady : attempt unit;
  fill_username : attempt unit;
  fill_password : attempt unit;
  click_login : attempt unit;
  inventory_isVisible : attempt bool;
  observability : ObservabilityView;
  controllability : ControllabilityView;
  algorithmicSimplicity : SimplicityView;
  algorithmicTransparency : TransparencyView;
  algorithmicStability : StabilityView;
  explainability : ExplainabilityView;
  unbugginess : UnbugginessView;
  smallness : SmallnessView;
  decomposability : DecomposabilityView;
  similarity : SimilarityView;
  (** [aiDebugger.endDebugSession(debugSessionId)]; a rejection is a
      throw of that call *)
  endDebugSession : attempt unit
}.

(** The fields of an analyzer instance that the analysis reads or writes. *)
Record Analyzer : Type := mkAnalyzer {
  timestamp : string;
  principles : obj number;
  aiRecommendations : list Recommendation
}.

(** [new ComprehensiveTestabilityAnalyzer()], created at time [now]. *)
Definition new_analyzer (now : string) : Analyzer :=
  mkAnalyzer now initial_principles [].

Record Assessment : Type := mkAssessment {
  a_userType : string;
  a_timestamp : string;
  overallScore : Z;
  principleScores : obj number;
  a_aiRecommendations : list Recommendation;
  grade : string
}.

(** What a run returns: the assessment, or [{ userType, error, scores: {} }]. *)
Inductive RunResult : Type :=
| Completed (a : Assessment)
| Errored (userType : string) (error : string).

Definition login (page : Page) : attempt bool :=
  startDebugSession page ;;;
  goto page ;;;
  waitForPageReady page ;;;
  fill_username page ;;;
  fill_password page ;;;
  click_login page ;;;
  Resolved (or_else (inventory_isVisible page) false).

(** The ten assignments to [this.principles], in source order. *)
Definition analyze_principles (principles : obj number) (page : Page)
  : obj number :=
  let p1 := set_field "observability"
              (analyzeObservability (observability page)) principles in
  let p2 := set_field "controllability"
              (analyzeControllability (controllability page)) p1 in
  let p3 := set_field "algorithmicSimplicity"
              (analyzeAlgorithmicSimplicity (algorithmicSimplicity page)) p2 in
  let p4 := set_field "algorithmicTransparency"
              (analyzeAlgorithmicTransparency (algorithmicTransparency page))
              p3 in
  let p5 := set_field "algorithmicStability"
              (analyzeAlgorithmicStability (algorithmicStability page)) p4 in
  let p6 := set_field "explainability"
              (analyzeExplainability (explainability page)) p5 in
  let p7 := set_field "unbugginess"
              (analyzeUnbugginess (unbugginess page)) p6 in
  let p8 := set_field "smallness"
              (analyzeSmallness (smallness page)) p7 in
  let p9 := set_field "decomposability"
              (analyzeDecomposability (decomposability page)) p8 in
  set_field "similarity" (analyzeSimilarity (similarity page)) p9.

(** [runCompleteAnalysis(page, userType)]: the result and the analyzer after
    the call. *)
Definition runCompleteAnalysis (this : Analyzer) (page : Page)
    (userType : string) : RunResult * Analyzer :=
  match login page with
  | Rejected message => (Errored userType message, this)
  | Resolved false => (Errored userType "Login failed", this)
  | Resolved true =>
      let principles' := analyze_principles (principles this) page in
      let overall := overallScore_of principles' in
      let recommendations := generateAIRecommendations principles' in
      let this' := mkAnalyzer (timestamp this) principles' recommendations in
      match endDebugSession page with
      | Rejected message => (Errored userType message, this')
      | Resolved _ =>
          (Completed
             (mkAssessment userType (timestamp this') overall principles'
                recommendations (getGrade overall)),
           this')
      end
  end.

(** *** Observations with non-negative counts *)

Definition nonneg_observability (v : ObservabilityView) : Prop :=
  match obs_stateData v with
  | Resolved d => (0 <= localStorage d)%Z /\ (0 <= sessionStorage d)%Z
  | Rejected _ => True
  end
  /\ nonneg (obs_dataTestElements v)
  /\ nonneg (obs_errorElements v)
  /\ nonneg (obs_visualElements v)
  /\ match obs_session v with
     | Some requests => (0 <= requests)%Z
     | None => True
     end.

Definition nonneg_controllability (v : ControllabilityView) : Prop :=
  nonneg (ctl_interactiveElements v)
  /\ nonneg (ctl_buttons v)
  /\ nonneg (ctl_links v).

Definition nonneg_simplicity (v : SimplicityView) : Prop :=
  nonneg (sim_totalElements v)
  /\ nonneg (sim_forms v)
  /\ nonneg (sim_buttons v)
  /\ nonneg (sim_headings v)
  /\ nonneg (sim_navigation v).

Definition nonneg_transparency (v : TransparencyView) : Prop :=
  nonneg (tra_visibleFeedback v)
  /\ nonneg (tra_labels v)
  /\ nonneg (tra_tooltips v)
  /\ nonneg (tra_consoleErrors v).

Definition nonneg_stability (v : StabilityView) : Prop :=
  nonneg (sta_initialElementCount v)
  /\ nonneg (sta_reloadElementCount v)
  /\ nonneg (sta_consistentElements v).

Definition nonneg_explainability (v : ExplainabilityView) : Prop :=
  nonneg (exp_semanticElements v)
  /\ nonneg (exp_labeledInputs v)
  /\ nonneg (exp_actualLabels v)
  /\ nonneg (exp_altTexts v)
  /\ nonneg (exp_totalImages v)
  /\ nonneg (exp_ariaElements v).

Definition nonneg_unbugginess (v : UnbugginessView) : Prop :=
  nonneg (unb_jsErrors v)
  /\ nonneg (unb_consoleErrors v)
  /\ nonneg (unb_errorElements v)
  /\ nonneg (unb_brokenImages v).

Definition nonneg_smallness (v : SmallnessView) : Prop :=
  nonneg (sma_totalElements v)
  /\ nonneg (sma_testableElements v).

Definition nonneg_decomposability (v : DecomposabilityView) : Prop :=
  nonneg (dec_containers v)
  /\ nonneg (dec_isolatedElements v)
  /\ nonneg (dec_forms v)
  /\ nonneg (dec_modules v).

Definition nonneg_similarity (v : SimilarityView) : Prop :=
  match sml_standardElements v with
  | Resolved e =>
      (0 <= std_buttons e)%Z /\ (0 <= std_forms e)%Z
      /\ (0 <= std_navigation e)%Z /\ (0 <= std_headings e)%Z
  | Rejected _ => True
  end.

(** Every count the page reports is non-negative, as a DOM count is. *)
Definition nonneg_counts (page : Page) : Prop :=
  nonneg_observability (observability page)
  /\ nonneg_controllability (controllability page)
  /\ nonneg_simplicity (algorithmicSimplicity page)
  /\ nonneg_transparency (algorithmicTransparency page)
  /\ nonneg_stability (algorithmicStability page)
  /\ nonneg_explainability (explainability page)
  /\ nonneg_unbugginess (unbugginess page)
  /\ nonneg_smallness (smallness page)
  /\ nonneg_decomposability (decomposability page)
  /\ nonneg_similarity (similarity page).

(** *** Observations of which one fails

    For each analyzer, the queries its outer [try] awaits directly. *)












(** The principle scores of a page, in declaration order. *)
Definition principle_scores (page : Page) : list number :=
  [ analyzeObservability (observability page);
    analyzeControllability (controllability page);
    analyzeAlgorithmicSimplicity (algorithmicSimplicity page);
    analyzeAlgorithmicTransparency (algorithmicTransparency page);
    analyzeAlgorithmicStability (algorithmicStability page);
    analyzeExplainability (explainability page);
    analyzeUnbugginess (unbugginess page);
    analyzeSmallness (smallness page);
    analyzeDecomposability (decomposability page);
    analyzeSimilarity (similarity page) ].

(** *** Reports *)

(** [r.error], [undefined] on an assessment. *)
Definition error_of (r : RunResult) : option string :=
  match r with
  | Completed _ => None
  | Errored _ e => Some e
  end.

Section Report.

(** The text built from the successful results.  Rendering belongs to the
    report side and is left as a parameter. *)
Variable render : list RunResult -> string.

(** [generateComprehensiveReport(results)] *)
Definition generateComprehensiveReport (results : list RunResult) : string :=
  let successfulResults :=
    filter (fun r => negb (truthy (error_of r))) results in
  if (List.length successfulResults =? 0)%nat
  then "No successful analyses to report."
  else render successfulResults.

End Report.

(** *** Top recommendations (the report helper of the test suite) *)

(** [r.aiRecommendations || []] *)
Definition recommendations_of (r : RunResult) : list Recommendation :=
  match r with
  | Completed a => a_aiRecommendations a
  | Errored _ _ => []
  end.

(** [`${rec.principle}-${rec.priority}`] *)
Definition group_key (rec : Recommendation) : string :=
  (principle rec ++ "-" ++ priority_name (priority rec))%string.

(** The grouping [reduce]: the first recommendation under each key, keys in
    first-insertion order. *)
Definition group (all : list Recommendation) : obj Recommendation :=
  fold_left
    (fun acc rec =>
       match get_field (group_key rec) acc with
       | Some _ => acc
       | None => acc ++ [(group_key rec, rec)]
       end)
    all [].

(** [priorityOrder] *)
Definition priorityOrder (p : Priority) : Z :=
  match p with
  | Critical => 3
  | High => 2
  | Medium => 1
  end.

(** The comparator passed to [sort]. *)
Definition by_priority (a b : Recommendation) : Z :=
  (priorityOrder (priority b) - priorityOrder (priority a))%Z.

(** [Array.prototype.sort] with a comparator: a stable sort. *)
Fixpoint sort_insert {T} (cmp : T -> T -> Z) (x : T) (l : list T) : list T :=
  match l with
  | [] => [x]
  | y :: l' =>
      if (cmp x y <=? 0)%Z then x :: y :: l' else y :: sort_insert cmp x l'
  end.

Fixpoint Array_sort {T} (cmp : T -> T -> Z) (l : list T) : list T :=
  match l with
  | [] => []
  | x :: l' => sort_insert cmp x (Array_sort cmp l')
  end.

(** [getTopRecommendations(results)] *)
Definition getTopRecommendations (results : list RunResult)
  : list Recommendation :=
  let allRecommendations := flat_map recommendations_of results in
  let grouped := group allRecommendations in
  firstn 10 (Array_sort by_priority (Object_values grouped)).

End Comprehensive.

(** ** The AI scorer (ai-testability-scorer.js) *)

Module AI.

(** *** Strings *)

Definition lower_ascii (c : ascii) : ascii :=
  let n := nat_of_ascii c in
  if ((65 <=? n) && (n <=? 90))%nat then ascii_of_nat (n + 32) else c.

(** [s.toLowerCase()] on ASCII text.  Bytes outside ASCII are kept as they
    are, so the function stands for the source's only on strings of ASCII
    characters. *)
Fixpoint toLowerCase (s : string) : string :=
  match s with
  | EmptyString => EmptyString
  | String c s' => String (lower_ascii c) (toLowerCase s')
  end.

(** [s.includes(keyword)] *)
Fixpoint includes (s keyword : string) : bool :=
  String.prefix keyword s
  || match s with
     | EmptyString => false
     | String _ s' => includes s' keyword
     end.

(** *** Smart element discovery *)

(** What the three awaited reads on one [data-test] element give:
    [getAttribute('data-test')], the lower-cased tag name and
    [getAttribute('role')]. *)
Record RawElement : Type := mkRawElement {
  raw_testId : option string;
  raw_tagName : string;
  raw_role : option string
}.

Record DataTestElement : Type := mkDataTestElement {
  testId : string;
  tagName : string;
  role : string;
  (** a category name, or the member [tagCategories] inherits under the tag
      name *)
  category : looked_up
}.

Record SmartElements : Type := mkSmartElements {
  total : Z;
  testable : Z;
  observable : Z;
  interactive : Z;
  dataTest : list DataTestElement;
  semantic : list (string * Z);
  accessibility : list (string * Z)
}.

Definition categories : list (string * list string) :=
  [ ("navigation", ["menu"; "nav"; "link"; "burger"]);
    ("form", ["username"; "password"; "email"; "input"; "submit"; "login"]);
    ("action", ["button"; "add"; "remove"; "click"; "submit"]);
    ("display", ["container"; "list"; "item"; "text"; "image"]);
    ("feedback", ["error"; "success"; "warning"; "message"]);
    ("control", ["toggle"; "switch"; "select"; "option"]) ]%string.

Definition tagCategories : obj string :=
  [ ("button", "action"); ("input", "form"); ("select", "form");
    ("a", "navigation"); ("img", "display"); ("div", "display") ]%string.

(** [classifyElementCategory(testId, tagName, role)]; the fallback is
    [tagCategories[tagName] || 'unknown']. *)
Definition classifyElementCategory (testId tagName role : string)
  : looked_up :=
  let testIdLower := toLowerCase testId in
  match
    find (fun entry => existsb (includes testIdLower) (snd entry)) categories
  with
  | Some (category, _) => Text category
  | None => lookup_or tagName tagCategories "unknown"
  end.

(** [x || 'none'] for an attribute value *)
Definition or_none (x : option string) : string :=
  match x with
  | Some EmptyString | None => "none"
  | Some s => s
  end.

Record SmartView : Type := mkSmartView {
  dse_total : attempt Z;
  dse_dataTestElements : attempt (list (attempt RawElement));
  dse_testable : attempt Z;
  dse_observable : attempt Z;
  dse_interactive : attempt Z;
  dse_semantic : string -> attempt Z;
  dse_accessibility : attempt Z
}.

(** The [for (const element of dataTestElements)] loop: the elements pushed
    and whether the loop ran to its end.  A null test id makes
    [testId.toLowerCase()] throw. *)
Fixpoint read_dataTest (els : list (attempt RawElement))
    (pushed : list DataTestElement) : list DataTestElement * bool :=
  match els with
  | [] => (pushed, true)
  | Rejected _ :: _ => (pushed, false)
  | Resolved e :: rest =>
      match raw_testId e with
      | None => (pushed, false)
      | Some id =>
          let r := or_none (raw_role e) in
          read_dataTest rest
            (pushed ++ [ mkDataTestElement id (raw_tagName e) r
                           (classifyElementCategory id (raw_tagName e) r) ])
      end
  end.

Definition semanticSelectors : list string :=
  ["nav"; "main"; "section"; "article"; "aside"; "header"; "footer"]%string.

(** The [for (const selector of semanticSelectors)] loop. *)
Fixpoint read_semantic (count : string -> attempt Z) (selectors : list string)
    (pushed : list (string * Z)) : list (string * Z) * bool :=
  match selectors with
  | [] => (pushed, true)
  | selector :: rest =>
      match count selector with
      | Rejected _ => (pushed, false)
      | Resolved n =>
          read_semantic count rest
            (if (n >? 0)%Z then pushed ++ [(selector, n)] else pushed)
      end
  end.

(** [discoverSmartElements(page)]: the handler only logs, so whatever was
    filled in before a failure is returned. *)
Definition discoverSmartElements (v : SmartView) : SmartElements :=
  let e0 := mkSmartElements 0 0 0 0 [] [] [] in
  match dse_total v with
  | Rejected _ => e0
  | Resolved t =>
  match dse_dataTestElements v with
  | Rejected _ => mkSmartElements t 0 0 0 [] [] []
  | Resolved els =>
  let '(dt, finished) := read_dataTest els [] in
  if negb finished then mkSmartElements t 0 0 0 dt [] [] else
  match dse_testable v with
  | Rejected _ => mkSmartElements t 0 0 0 dt [] []
  | Resolved te =>
  match dse_observable v with
  | Rejected _ => mkSmartElements t te 0 0 dt [] []
  | Resolved ob =>
  match dse_interactive v with
  | Rejected _ => mkSmartElements t te ob 0 dt [] []
  | Resolved ia =>
  let '(sem, finished') := read_semantic (dse_semantic v) semanticSelectors [] in
  if negb finished' then mkSmartElements t te ob ia dt sem [] else
  match dse_accessibility v with
  | Rejected _ => mkSmartElements t te ob ia dt sem []
  | Resolved ac => mkSmartElements t te ob ia dt sem [("aria-elements"%string, ac)]
  end end end end end end.

(** *** Observability *)

(** [Object.keys(categories).length] after the categorising [forEach]:
    the categories are keys of a fresh object, and different values of
    [category] give different keys (an inherited member is keyed by its
    source text or by [[object Object]]). *)
Definition categoryCount (dataTestElements : list DataTestElement) : nat :=
  List.length (nodup looked_up_dec (map category dataTestElements)).

(** [analyzeDataTestAttributes(dataTestElements)] *)
Definition analyzeDataTestAttributes (dataTestElements : list DataTestElement)
  : number :=
  match dataTestElements with
  | [] => 5
  | _ =>
      let len := Z.of_nat (List.length dataTestElements) in
      let hasConsistentNaming :=
        forallb (fun el => includes (testId el) "-" || includes (testId el) "_")
          dataTestElements in
      let score :=
        0 + Math_min 15 (num (Math_floor (num len / 2)))
          + Math_min 10 (num (Z.of_nat (categoryCount dataTestElements)) * 2)
          + (if hasConsistentNaming then 5 else 0) in
      Math_min 30 score
  end.

Record StateCapabilities : Type := mkStateCapabilities {
  cap_localStorage : bool;
  cap_sessionStorage : bool;
  cap_cookies : bool;
  cap_browserHistory : bool;
  cap_readyState : string;
  (** truthiness of [window.appState || window.store || window.state] *)
  cap_customState : bool
}.

(** [analyzeStateCapture(page)] *)
Definition analyzeStateCapture (evaluate : attempt StateCapabilities) : number :=
  try_catch
    (stateCapabilities <- evaluate ;;
     let score :=
       0 + (if cap_localStorage stateCapabilities
               || cap_sessionStorage stateCapabilities then 10 else 0)
         + (if cap_browserHistory stateCapabilities then 5 else 0)
         + (if String.eqb (cap_readyState stateCapabilities) "complete"
            then 5 else 0)
         + (if cap_customState stateCapabilities then 5 else 0) in
     Resolved (Math_min 25 score))
    (fun _ => 10).

Record ErrorVisibilityView : Type := mkErrorVisibilityView {
  err_visibleErrors : attempt Z;
  err_consoleErrors : attempt Z
}.

(** [analyzeErrorVisibility(page, smartElements)] *)
Definition analyzeErrorVisibility (v : ErrorVisibilityView)
    (smartElements : SmartElements) : number :=
  try_catch
    (let errorElements :=
       filter (fun el => (if looked_up_dec (category el) (Text "feedback")
                          then true else false)
                         || includes (testId el) "error")
         (dataTest smartElements) in
     let s1 := 0 + (if (0 <? List.length errorElements)%nat then 10 else 0) in
     visibleErrors <- err_visibleErrors v ;;
     let s2 := s1 + (if (visibleErrors >? 0)%Z then 5 else 0) in
     consoleErrors <- err_consoleErrors v ;;
     let s3 := s2 + (if (consoleErrors =? 0)%Z then 5 else 0) in
     Resolved (Math_min 20 s3))
    (fun _ => 8).

Record VisualView : Type := mkVisualView {
  vis_screenshot : attempt unit;
  (** [fs.existsSync] and [fs.unlinkSync] on the temporary file *)
  vis_cleanup : attempt unit;
  vis_images : attempt Z;
  vis_imagesWithAlt : attempt Z
}.

(** [analyzeVisualCapabilities(page)] *)
Definition analyzeVisualCapabilities (v : VisualView) : number :=
  try_catch
    (vis_screenshot v ;;;
     let s1 := 0 + 8 in
     vis_cleanup v ;;;
     images <- vis_images v ;;
     let s2 := s1 + (if (images >? 0)%Z then 4 else 0) in
     imagesWithAlt <- vis_imagesWithAlt v ;;
     let s3 :=
       s2 + (if (images >? 0)%Z && gt (num imagesWithAlt / num images) 0.5
             then 3 else 0) in
     Resolved (Math_min 15 s3))
    (fun _ => 5).

(** [analyzeNetworkMonitoring(debugSessionId)]: the view is the request
    count of the session found under a truthy id, if any; looking it up may
    throw. *)
Definition analyzeNetworkMonitoring (session : attempt (option Z)) : number :=
  try_catch
    (s <- session ;;
     Resolved
       match s with
       | Some requests => if (requests >? 0)%Z then 10 else 5
       | None => 5
       end)
    (fun _ => 3).

(** [calculateIntelligenceBonus(insights)], where [insights] carries the
    counts copied from the smart elements. *)
Definition calculateIntelligenceBonus (insights : SmartElements) : number :=
  0 + (if div_gt (testable insights) (total insights) 0.1 then 2 else 0)
    + (if div_gt (observable insights) (total insights) 0.05 then 2 else 0)
    + (if (observable insights >? 10)%Z then 1 else 0).

Record ObservabilityView : Type := mkObservabilityView {
  obs_smart : SmartView;
  obs_state : attempt StateCapabilities;
  obs_errors : ErrorVisibilityView;
  obs_visual : VisualView;
  obs_session : attempt (option Z)
}.

(** [scoreAIObservability(page, debugSessionId)].  Every helper it awaits
    has a handler of its own, so the body always resolves; the outer handler
    is kept as the source has it. *)
Definition scoreAIObservability (v : ObservabilityView) : number :=
  try_catch
    (let smartElements := discoverSmartElements (obs_smart v) in
     let dataTestScore := analyzeDataTestAttributes (dataTest smartElements) in
     let stateScore := analyzeStateCapture (obs_state v) in
     let errorScore := analyzeErrorVisibility (obs_errors v) smartElements in
     let visualScore := analyzeVisualCapabilities (obs_visual v) in
     let networkScore := analyzeNetworkMonitoring (obs_session v) in
     let score :=
       0 + dataTestScore + stateScore + errorScore + visualScore
         + networkScore in
     let bonusScore := calculateIntelligenceBonus smartElements in
     Resolved (Math_min 100 (score + bonusScore)))
    (fun _ => 20).

(** *** Controllability *)

Record InteractionPatterns : Type := mkInteractionPatterns {
  pat_buttons : Z;
  pat_inputs : Z;
  pat_selects : Z;
  pat_links : Z;
  pat_interactive : Z;
  pat_total : Z
}.

Record PatternsView : Type := mkPatternsView {
  pv_buttons : attempt Z;
  pv_inputs : attempt Z;
  pv_selects : attempt Z;
  pv_links : attempt Z;
  pv_interactive : attempt Z
}.

(** [analyzeInteractionPatterns(page)]: no handler of its own. *)
Definition analyzeInteractionPatterns (v : PatternsView)
  : attempt InteractionPatterns :=
  buttons <- pv_buttons v ;;
  inputs <- pv_inputs v ;;
  selects <- pv_selects v ;;
  links <- pv_links v ;;
  interactive <- pv_interactive v ;;
  Resolved
    (mkInteractionPatterns buttons inputs selects links interactive
       (buttons + inputs + selects + links)%Z).

Record InputField : Type := mkInputField {
  fill : attempt unit;
  inputValue : attempt string;
  clear : attempt unit
}.

Record InputPrecisionView : Type := mkInputPrecisionView {
  ip_inputs : attempt (list InputField);
  ip_requiredInputs : attempt Z;
  ip_typedInputs : attempt Z
}.

(** [analyzeInputPrecision(page, patterns)] *)
Definition analyzeInputPrecision (v : InputPrecisionView) : number :=
  try_catch
    (inputs <- ip_inputs v ;;
     s1 <- match inputs with
           | testInput :: _ =>
               let testValue := "ai_precision_test_123"%string in
               fill testInput ;;;
               actualValue <- inputValue testInput ;;
               let s :=
                 if String.eqb actualValue testValue then 0 + 20
                 else if includes actualValue "ai_precision" then 0 + 10
                 else 0 in
               clear testInput ;;;
               Resolved s
           | [] => Resolved 0
           end ;;
     requiredInputs <- ip_requiredInputs v ;;
     let s2 := s1 + (if (requiredInputs >? 0)%Z then 5 else 0) in
     typedInputs <- ip_typedInputs v ;;
     let s3 := s2 + (if (typedInputs >? 0)%Z then 5 else 0) in
     Resolved (Math_min 30 s3))
    (fun _ => 10).

Record StateControlView : Type := mkStateControlView {
  (** [isEnabled()] of each button, in page order *)
  sc_buttons : attempt (list (attempt bool));
  sc_forms : attempt Z
}.

(** The loop over [buttons.slice(0, 5)] counting enabled buttons. *)
Fixpoint count_enabled (buttons : list (attempt bool)) (enabledButtons : Z)
  : attempt Z :=
  match buttons with
  | [] => Resolved enabledButtons
  | b :: rest =>
      isEnabled <- b ;;
      count_enabled rest
        (if isEnabled : bool then enabledButtons + 1 else enabledButtons)%Z
  end.

(** [analyzeStateControl(page, patterns)] *)
Definition analyzeStateControl (v : StateControlView)
    (patterns : InteractionPatterns) : number :=
  try_catch
    (buttons <- sc_buttons v ;;
     enabledButtons <- count_enabled (firstn 5 buttons) 0%Z ;;
     let s1 := 0 + (if (enabledButtons >? 0)%Z then 15 else 0) in
     forms <- sc_forms v ;;
     let s2 := s1 + (if (forms >? 0)%Z then 5 else 0) in
     let s3 := s2 + (if (pat_interactive patterns >? 5)%Z then 5 else 0) in
     Resolved (Math_min 25 s3))
    (fun _ => 10).

Record DeterminismView : Type := mkDeterminismView {
  det_url1 : string;
  det_reload : attempt unit;
  det_url2 : string;
  det_elementCount1 : attempt Z;
  det_waitForTimeout : attempt unit;
  det_elementCount2 : attempt Z
}.

(** [analyzeDeterminism(page)] *)
Definition analyzeDeterminism (v : DeterminismView) : number :=
  try_catch
    (det_reload v ;;;
     let s1 := 0 + (if String.eqb (det_url1 v) (det_url2 v) then 10 else 0) in
     elementCount1 <- det_elementCount1 v ;;
     det_waitForTimeout v ;;;
     elementCount2 <- det_elementCount2 v ;;
     let s2 := s1 + (if (elementCount1 =? elementCount2)%Z then 10 else 0) in
     Resolved (Math_min 20 s2))
    (fun _ => 8).

(** The class body declares these methods a second time at its end; the
    later declaration is the one a call reaches. *)
Definition analyzeInteractionReliability : number := 10.
Definition analyzeAccessibilityIntegration : number := 8.
Definition analyzeInteractionPatternSimplicity : number := 20.
Definition analyzeSemanticStructure : number := 15.
Definition analyzeSemanticHTML : number := 25.
Definition analyzeAccessibilityIntelligence : number := 20.
Definition analyzeLabelingIntelligence : number := 15.
Definition analyzeDocumentationIntelligence : number := 10.
Definition analyzeContextUnderstanding : number := 8.
Definition analyzeComponentSeparation : number := 30.
Definition analyzeModularityIntelligence : number := 25.
Definition analyzeIsolationIntelligence : number := 15.
Definition analyzeTestableBoundaries : number := 12.

Record ControllabilityView : Type := mkControllabilityView {
  ctl_patterns : PatternsView;
  ctl_input : InputPrecisionView;
  ctl_state : StateControlView;
  ctl_determinism : DeterminismView
}.

(** [scoreAIControllability(page)] *)
Definition scoreAIControllability (v : ControllabilityView) : number :=
  try_catch
    (interactionPatterns <- analyzeInteractionPatterns (ctl_patterns v) ;;
     let inputScore := analyzeInputPrecision (ctl_input v) in
     let stateControlScore :=
       analyzeStateControl (ctl_state v) interactionPatterns in
     let determinismScore := analyzeDeterminism (ctl_determinism v) in
     let reliabilityScore := analyzeInteractionReliability in
     let accessibilityScore := analyzeAccessibilityIntegration in
     Resolved
       (0 + inputScore + stateControlScore + determinismScore
          + reliabilityScore + accessibilityScore))
    (fun _ => 25).

(** *** Algorithmic simplicity *)

Record ComplexityMetrics : Type := mkComplexityMetrics {
  totalElements : Z;
  divElements : Z;
  nestedLevels : Z;
  scriptTags : Z;
  styleTags : Z
}.

(** [analyzeComplexity(page)] *)
Definition analyzeComplexity (evaluate : attempt ComplexityMetrics)
  : ComplexityMetrics :=
  try_catch evaluate (fun _ => mkComplexityMetrics 100 30 10 5 3).

(** [analyzeDOMComplexity(metrics)] *)
Definition analyzeDOMComplexity (metrics : ComplexityMetrics) : number :=
  let s1 :=
    if (totalElements metrics >? 1000)%Z then 40 - 15
    else if (totalElements metrics >? 500)%Z then 40 - 8
    else if (totalElements metrics >? 200)%Z then 40 - 3
    else 40 in
  let s2 :=
    if (nestedLevels metrics >? 15)%Z then s1 - 10
    else if (nestedLevels metrics >? 10)%Z then s1 - 5
    else s1 in
  let s3 :=
    if div_gt (divElements metrics) (totalElements metrics) 0.4 then s2 - 8
    else if div_gt (divElements metrics) (totalElements metrics) 0.3
    then s2 - 4
    else s2 in
  Math_max 0 s3.

(** [analyzePredictability(metrics)] *)
Definition analyzePredictability (metrics : ComplexityMetrics) : number :=
  let s1 :=
    if (scriptTags metrics >? 20)%Z then 10 - 4
    else if (scriptTags metrics >? 10)%Z then 10 - 2
    else 10 in
  let s2 := if (totalElements metrics >? 1000)%Z then s1 - 3 else s1 in
  Math_max 0 s2.

(** [scoreAIAlgorithmicSimplicity(page)] *)
Definition scoreAIAlgorithmicSimplicity (evaluate : attempt ComplexityMetrics)
  : number :=
  try_catch
    (let complexityMetrics := analyzeComplexity evaluate in
     let domScore := analyzeDOMComplexity complexityMetrics in
     let patternScore := analyzeInteractionPatternSimplicity in
     let semanticScore := analyzeSemanticStructure in
     let predictabilityScore := analyzePredictability complexityMetrics in
     Resolved
       (0 + domScore + patternScore + semanticScore + predictabilityScore))
    (fun _ => 30).

(** *** Explainability and decomposability

    [performSemanticAnalysis] and [analyzeComponentIntelligence] cannot
    throw (the first has a handler, the second returns a literal) and the
    scoring methods do not read their results. *)

(** [scoreAIExplainability(page)] *)
Definition scoreAIExplainability : number :=
  try_catch
    (Resolved
       (0 + analyzeSemanticHTML + analyzeAccessibilityIntelligence
          + analyzeLabelingIntelligence + analyzeDocumentationIntelligence
          + analyzeContextUnderstanding))
    (fun _ => 35).

(** [scoreAIDecomposability(page)] *)
Definition scoreAIDecomposability : number :=
  try_catch
    (Resolved
       (0 + analyzeComponentSeparation + analyzeModularityIntelligence
          + analyzeIsolationIntelligence + analyzeTestableBoundaries))
    (fun _ => 40).

(** *** Grade, insights and the full assessment *)

(** [getAIGrade(score)] *)
Definition getAIGrade (score : Z) : string :=
  if (95 <=? score)%Z then "A+ (AI-Optimized)"
  else if (90 <=? score)%Z then "A (Excellent for AI)"
  else if (80 <=? score)%Z then "B (Good for AI)"
  else if (70 <=? score)%Z then "C (Average for AI)"
  else if (60 <=? score)%Z then "D (Below AI Standards)"
  else "F (Not AI-Ready)".

Record Suggestion : Type := mkSuggestion {
  principle : string;
  priority : Priority;
  suggestion : string;
  aiReasoning : string
}.

Record PredictiveAnalysis : Type := mkPredictiveAnalysis {
  testMaintainability : string;
  futureComplexity : string;
  aiTestingReadiness : string
}.

(** The fields of a scorer instance that the assessment reads or writes. *)
Record Scorer : Type := mkScorer {
  timestamp : string;
  principleScores : obj number;
  improvementSuggestions : list Suggestion;
  predictiveAnalysis : option PredictiveAnalysis
}.

(** [new AITestabilityScorer()], created at time [now]. *)
Definition new_scorer (now : string) : Scorer :=
  mkScorer now initial_principles [] None.

(** [this.principleScores[k]]; a missing key reads [undefined], which no
    comparison in generateAIInsights accepts. *)
Definition score_below (this : Scorer) (k : string) (bound : number) : bool :=
  match get_field k (principleScores this) with
  | Some s => lt s bound
  | None => false
  end.

Definition score_above (this : Scorer) (k : string) (bound : number) : bool :=
  match get_field k (principleScores this) with
  | Some s => gt s bound
  | None => false
  end.

(** [generateAIInsights(page, overallScore)]: pushes onto the scorer's own
    [improvementSuggestions] array. *)
Definition generateAIInsights (this : Scorer) (overallScore : Z) : Scorer :=
  let l1 :=
    improvementSuggestions this ++
    (if score_below this "observability" 70 then
       [ mkSuggestion "Observability" High
           "Add more data-test attributes and implement comprehensive state monitoring"
           "AI detected limited element observability and state capture capabilities" ]
     else []) in
  let l2 :=
    l1 ++
    (if score_below this "controllability" 70 then
       [ mkSuggestion "Controllability" High
           "Improve interaction patterns and ensure reliable element state control"
           "AI analysis shows inconsistent interaction patterns and state management" ]
     else []) in
  let l3 :=
    l2 ++
    (if score_below this "explainability" 70 then
       [ mkSuggestion "Explainability" Medium
           "Enhance semantic HTML structure and accessibility attributes"
           "AI semantic analysis indicates limited contextual understanding capabilities" ]
     else []) in
  mkScorer (timestamp this) (principleScores this) l3
    (Some
       (mkPredictiveAnalysis
          (if (overallScore >? 80)%Z then "High"
           else if (overallScore >? 60)%Z then "Medium" else "Low")
          (if score_above this "algorithmicSimplicity" 70
           then "Manageable" else "Challenging")
          (if (overallScore >? 75)%Z then "Ready for AI automation"
           else "Needs improvement for AI testing"))).

Record Page : Type := mkPage {
  startDebugSession : attempt unit;
  goto : attempt unit;
  waitForPageReady : attempt unit;
  fill_username : attempt unit;
  fill_password : attempt unit;
  click_login : attempt unit;
  inventory_isVisible : attempt bool;
  observability : ObservabilityView;
  controllability : ControllabilityView;
  complexity : attempt ComplexityMetrics;
  endDebugSession : attempt unit
}.

Record Assessment : Type := mkAssessment {
  a_userType : string;
  a_timestamp : string;
  overallScore : Z;
  a_principleScores : obj number;
  grade : string;
  (** the scorer's [improvementSuggestions] array itself, as it stands when
      the assessment returns *)
  recommendations : list Suggestion
}.

(** What a run returns: the assessment, or [{ userType, error, scores: {} }]. *)
Inductive RunResult : Type :=
| Completed (a : Assessment)
| Errored (userType : string) (error : string).

Definition login (page : Page) : attempt bool :=
  startDebugSession page ;;;
  goto page ;;;
  waitForPageReady page ;;;
  fill_username page ;;;
  fill_password page ;;;
  click_login page ;;;
  Resolved (or_else (inventory_isVisible page) false).

(** The five assignments to [this.principleScores]. *)
Definition score_principles (this : Scorer) (page : Page) : Scorer :=
  let p1 := set_field "observability"
              (scoreAIObservability (observability page))
              (principleScores this) in
  let p2 := set_field "controllability"
              (scoreAIControllability (controllability page)) p1 in
  let p3 := set_field "algorithmicSimplicity"
              (scoreAIAlgorithmicSimplicity (complexity page)) p2 in
  let p4 := set_field "explainability" scoreAIExplainability p3 in
  let p5 := set_field "decomposability" scoreAIDecomposability p4 in
  mkScorer (timestamp this) p5 (improvementSuggestions this)
    (predictiveAnalysis this).

(** [Math.round(sum / Object.values(this.principleScores).length)].  The
    source evaluates it after the five assignments, so the object has
    values; on an object without values it would be [NaN], which this
    integer-valued function does not represent. *)
Definition overallScore_of (principleScores : obj number) : Z :=
  Math_round
    (reduce_sum (Object_values principleScores)
     / num (Z.of_nat (List.length (Object_values principleScores)))).

(** [runAIAssessment(page, userType)]: the result and the scorer after the
    call. *)
Definition runAIAssessment (this : Scorer) (page : Page) (userType : string)
  : RunResult * Scorer :=
  match login page with
  | Rejected message => (Errored userType message, this)
  | Resolved false => (Errored userType "Login failed", this)
  | Resolved true =>
      let this1 := score_principles this page in
      let overall := overallScore_of (principleScores this1) in
      let this2 := generateAIInsights this1 overall in
      match endDebugSession page with
      | Rejected message => (Errored userType message, this2)
      | Resolved _ =>
          (Completed
             (mkAssessment userType (timestamp this2) overall
                (principleScores this2) (getAIGrade overall)
                (improvementSuggestions this2)),
           this2)
      end
  end.

(** The five scores an assessment of a page computes. *)
Definition principle_scores (page : Page) : list number :=
  [ scoreAIObservability (observability page);
    scoreAIControllability (controllability page);
    scoreAIAlgorithmicSimplicity (complexity page);
    scoreAIExplainability;
    scoreAIDecomposability ].

(** The scorer after a series of assessments on one instance. *)
Definition after_runs (this : Scorer) (history : list (Page * string))
  : Scorer :=
  fold_left (fun s pu => snd (runAIAssessment s (fst pu) (snd pu)))
    history this.

(** A [principleScores] object with the five assessed principles at the
    given scores and the five others at 0. *)
Definition five_scored (o c s e d : number) : obj number :=
  [ ("observability", o); ("controllability", c);
    ("algorithmicSimplicity", s); ("algorithmicTransparency", 0);
    ("algorithmicStability", 0); ("explainability", e); ("unbugginess", 0);
    ("smallness", 0); ("decomposability", d); ("similarity", 0) ]%string.

Definition is_five_scored (ps : obj number) : Prop :=
  exists o c s e d, ps = five_scored o c s e d.

Definition error_of (r : RunResult) : option string :=
  match r with
  | Completed _ => None
  | Errored _ e => Some e
  end.

Section Report.

Variable render : list RunResult -> string.

(** [generateAIReport(results)] *)
Definition generateAIReport (results : list RunResult) : string :=
  let successfulResults :=
    filter (fun r => negb (truthy (error_of r))) results in
  if (List.length successfulResults =? 0)%nat
  then "No successful AI assessments to report."
  else render successfulResults.

End Report.

End AI.

(** ** The quick scorer (QuickTestabilityScorer) *)

Module Quick.

Record ObservabilityView : Type := mkObservabilityView {
  obs_dataTestElements : attempt Z;
  obs_errorElements : attempt Z;
  obs_imageElements : attempt Z
}.

Record ControllabilityView : Type := mkControllabilityView {
  ctl_buttons : attempt Z;
  ctl_inputs : attempt Z;
  ctl_forms : attempt Z;
  ctl_links : attempt Z
}.

Record SimplicityView : Type := mkSimplicityView {
  sim_totalElements : attempt Z;
  sim_headings : attempt Z;
  sim_simpleButtons : attempt Z
}.

Record ExplainabilityView : Type := mkExplainabilityView {
  exp_semanticElements : attempt Z;
  exp_labels : attempt Z;
  exp_altTexts : attempt Z;
  exp_ariaElements : attempt Z
}.

Record DecomposabilityView : Type := mkDecomposabilityView {
  dec_componentElements : attempt Z;
  dec_containers : attempt Z;
  dec_isolatedElements : attempt Z
}.

(** The scoring methods have no handler: a rejected query rejects the
    method. *)

Definition scoreObservability (v : ObservabilityView) : attempt number :=
  dataTestElements <- obs_dataTestElements v ;;
  let dataTestScore :=
    Math_min 40 (num (Math_floor (num dataTestElements / 2))) in
  errorElements <- obs_errorElements v ;;
  let errorScore := if (errorElements >? 0)%Z then 30 else 15 in
  imageElements <- obs_imageElements v ;;
  let visualScore := Math_min 30 (num imageElements * 3) in
  Resolved (0 + dataTestScore + errorScore + visualScore).

Definition scoreControllability (v : ControllabilityView) : attempt number :=
  buttons <- ctl_buttons v ;;
  inputs <- ctl_inputs v ;;
  let interactiveScore := Math_min 50 (num (buttons + inputs) * 2) in
  forms <- ctl_forms v ;;
  let formScore := Math_min 30 (num forms * 15) in
  links <- ctl_links v ;;
  let navScore := Math_min 20 (num (Math_floor (num links / 2))) in
  Resolved (0 + interactiveScore + formScore + navScore).

Definition scoreAlgorithmicSimplicity (v : SimplicityView) : attempt number :=
  totalElements <- sim_totalElements v ;;
  let complexityScore :=
    if (totalElements <? 200)%Z then 50
    else if (totalElements <? 500)%Z then 35
    else if (totalElements <? 1000)%Z then 20 else 10 in
  headings <- sim_headings v ;;
  let structureScore := Math_min 30 (num headings * 5) in
  simpleButtons <- sim_simpleButtons v ;;
  let simplicityScore := Math_min 20 (num simpleButtons * 2) in
  Resolved (0 + complexityScore + structureScore + simplicityScore).

Definition scoreExplainability (v : ExplainabilityView) : attempt number :=
  semanticElements <- exp_semanticElements v ;;
  let semanticScore := Math_min 40 (num semanticElements * 5) in
  labels <- exp_labels v ;;
  altTexts <- exp_altTexts v ;;
  let labelScore := Math_min 35 (num labels * 5 + num altTexts * 3) in
  ariaElements <- exp_ariaElements v ;;
  let accessibilityScore := Math_min 25 (num ariaElements * 3) in
  Resolved (0 + semanticScore + labelScore + accessibilityScore).

Definition scoreDecomposability (v : DecomposabilityView) : attempt number :=
  componentElements <- dec_componentElements v ;;
  let componentScore :=
    Math_min 50 (num (Math_floor (num componentElements / 5))) in
  containers <- dec_containers v ;;
  let modularScore := Math_min 30 (num (Math_floor (num containers / 3))) in
  isolatedElements <- dec_isolatedElements v ;;
  let isolationScore :=
    Math_min 20 (num (Math_floor (num isolatedElements / 4))) in
  Resolved (0 + componentScore + modularScore + isolationScore).

Record Page : Type := mkPage {
  goto : attempt unit;
  fill_username : attempt unit;
  fill_password : attempt unit;
  click_login : attempt unit;
  inventory_isVisible : attempt bool;
  observability : ObservabilityView;
  controllability : ControllabilityView;
  algorithmicSimplicity : SimplicityView;
  explainability : ExplainabilityView;
  decomposability : DecomposabilityView
}.

(** Every count the page reports is non-negative. *)
Definition nonneg_counts (page : Page) : Prop :=
  (nonneg (obs_dataTestElements (observability page))
   /\ nonneg (obs_errorElements (observability page))
   /\ nonneg (obs_imageElements (observability page)))
  /\ (nonneg (ctl_buttons (controllability page))
      /\ nonneg (ctl_inputs (controllability page))
      /\ nonneg (ctl_forms (controllability page))
      /\ nonneg (ctl_links (controllability page)))
  /\ (nonneg (sim_totalElements (algorithmicSimplicity page))
      /\ nonneg (sim_headings (algorithmicSimplicity page))
      /\ nonneg (sim_simpleButtons (algorithmicSimplicity page)))
  /\ (nonneg (exp_semanticElements (explainability page))
      /\ nonneg (exp_labels (explainability page))
      /\ nonneg (exp_altTexts (explainability page))
      /\ nonneg (exp_ariaElements (explainability page)))
  /\ (nonneg (dec_componentElements (decomposability page))
      /\ nonneg (dec_containers (decomposability page))
      /\ nonneg (dec_isolatedElements (decomposability page))).

(** The five scores an assessment of a page awaits. *)
Definition principle_scores (page : Page) : list (attempt number) :=
  [ scoreObservability (observability page);
    scoreControllability (controllability page);
    scoreAlgorithmicSimplicity (algorithmicSimplicity page);
    scoreExplainability (explainability page);
    scoreDecomposability (decomposability page) ].

Record Assessment : Type := mkAssessment {
  a_userType : string;
  a_timestamp : string;
  overallScore : Z;
  scores : obj number;
  grade : string
}.

Inductive RunResult : Type :=
| Completed (a : Assessment)
| Errored (userType : string) (error : string).

(** [Math.round(sum / Object.values(scores).length)].  The source
    evaluates it on the five-field literal only; on an object without values
    it would be [NaN], which this integer-valued function does not
    represent. *)
Definition overallScore_of (scores : obj number) : Z :=
  Math_round
    (reduce_sum (Object_values scores)
     / num (Z.of_nat (List.length (Object_values scores)))).

Definition getGrade : Z -> string := Comprehensive.getGrade.

(** The body of the [try] of runQuickAssessment. *)
Definition assess (timestamp : string) (page : Page) (userType : string)
  : attempt RunResult :=
  goto page ;;;
  fill_username page ;;;
  fill_password page ;;;
  click_login page ;;;
  if negb (or_else (inventory_isVisible page) false)
  then Resolved (Errored userType "Login failed")
  else
    o <- scoreObservability (observability page) ;;
    c <- scoreControllability (controllability page) ;;
    a <- scoreAlgorithmicSimplicity (algorithmicSimplicity page) ;;
    e <- scoreExplainability (explainability page) ;;
    d <- scoreDecomposability (decomposability page) ;;
    let scores : obj number :=
      [ ("observability", o); ("controllability", c);
        ("algorithmicSimplicity", a); ("explainability", e);
        ("decomposability", d) ]%string in
    let overall := overallScore_of scores in
    Resolved
      (Completed
         (mkAssessment userType timestamp overall scores (getGrade overall))).

(** [runQuickAssessment(page, userType)] on a scorer created at
    [timestamp]. *)
Definition runQuickAssessment (timestamp : string) (page : Page)
    (userType : string) : RunResult :=
  try_catch (assess timestamp page userType)
    (fun message => Errored userType message).

Definition error_of (r : RunResult) : option string :=
  match r with
  | Completed _ => None
  | Errored _ e => Some e
  end.

Section Report.

Variable render : list RunResult -> string.

(** [generateComparisonReport(results)] *)
Definition generateComparisonReport (results : list RunResult) : string :=
  let successfulResults :=
    filter (fun r => negb (truthy (error_of r))) results in
  if (List.length successfulResults =? 0)%nat
  then "No successful assessments to report."
  else render successfulResults.

End Report.

End Quick.

(** ** The TestabilityScorer of the principle test suite *)

Module TestabilityScorer.

Record Recommendation : Type := mkRecommendation {
  principle : string;
  score : number;
  priority : Priority;
  (** a text, or the member the advice table inherits under the principle's
      name *)
  recommendation : looked_up
}.

Definition recommendations : obj string :=
  [ ("observability",
     "Add more data-test attributes, implement comprehensive logging, add visual feedback for state changes");
    ("controllability",
     "Improve input validation feedback, add loading states, ensure deterministic behavior");
    ("algorithmicSimplicity",
     "Simplify workflows, reduce steps for basic operations, clarify input-output relationships");
    ("algorithmicTransparency",
     "Add progress indicators, provide better error messages, expose API behavior");
    ("algorithmicStability",
     "Implement better error boundaries, add regression test coverage, improve state management");
    ("explainability",
     "Add semantic HTML, improve accessibility attributes, enhance documentation");
    ("unbugginess",
     "Implement comprehensive error handling, add input validation, improve robustness");
    ("smallness",
     "Break down complex components, reduce page complexity, optimize network requests");
    ("decomposability",
     "Improve component separation, add more testable interfaces, enhance modularity");
    ("similarity",
     "Use standard web patterns, implement familiar UI conventions, follow common design practices")
  ]%string.

(** [getRecommendationForPrinciple(principle, score)]:
    [recommendations[principle] || 'Review and improve this testability
    aspect'] *)
Definition getRecommendationForPrinciple (principle : string) (score : number)
  : looked_up :=
  lookup_or principle recommendations
    "Review and improve this testability aspect".

(** The body of the [forEach] callback of generateRecommendations. *)
Definition recommend_entry (e : string * number) : list Recommendation :=
  let '(p, s) := e in
  if lt s 50 then
    [ mkRecommendation p s High (getRecommendationForPrinciple p s) ]
  else if lt s 70 then
    [ mkRecommendation p s Medium (getRecommendationForPrinciple p s) ]
  else [].

(** [generateRecommendations()], as a function of [this.scores]. *)
Definition generateRecommendations (scores : obj number)
  : list Recommendation :=
  flat_map recommend_entry (Object_entries scores).

(** [calculateOverallScore()], as a function of [this.scores]: the overall
    score ([None] for [NaN], on an object without values) and the
    recommendations stored with it. *)
Definition calculateOverallScore (scores : obj number)
  : option Z * list Recommendation :=
  (match Object_values scores with
   | [] => None
   | values =>
       Some (Math_round
               (reduce_sum values / num (Z.of_nat (List.length values))))
   end,
   generateRecommendations scores).

(** [getGrade(score)] *)
Definition getGrade (score : Z) : string :=
  if (90 <=? score)%Z then "(A)"
  else if (80 <=? score)%Z then "(B)"
  else if (70 <=? score)%Z then "(C)"
  else if (60 <=? score)%Z then "(D)"
  else "(F)".

End TestabilityScorer.

(** ** What the specification says, in its own words *)

Module Spec.

(** [sum(scores) / count(scores)] *)
Definition arithmetic_mean (scores : list number) : number :=
  fold_right Qplus 0 scores / num (Z.of_nat (List.length scores)).

(** [n] is [x] rounded to the nearest integer, a half rounding up. *)
Definition nearest_integer (x : number) (n : Z) : Prop :=
  x - (1 # 2) < num n /\ num n <= x + (1 # 2).

(** A principle score lies in [0, 100]. *)
Definition in_range (s : number) : Prop := 0 <= s /\ s <= 100.

(** A scoring call that resolves gives a score in [0, 100]. *)
Definition resolves_in_range (c : attempt number) : Prop :=
  match c with
  | Resolved s => in_range s
  | Rejected _ => True
  end.

(** The number of recommendations a list holds for one principle. *)
Definition count_for {R} (principle_of : R -> string) (p : string)
    (recs : list R) : nat :=
  List.length (filter (fun r => String.eqb (principle_of r) p) recs).

(** Severity of a priority: Critical above High above Medium. *)
Definition severity (p : Priority) : Z :=
  match p with
  | Critical => 2
  | High => 1
  | Medium => 0
  end.

(** [a] may stand before [b]: it is at least as severe. *)
Definition severity_order (a b : Comprehensive.Recommendation) : Prop :=
  (severity (Comprehensive.priority b)
   <= severity (Comprehensive.priority a))%Z.

(** A recommendation list in descending severity. *)
Definition descending_severity (recs : list Comprehensive.Recommendation)
  : Prop :=
  StronglySorted severity_order recs.

(** The recommendations of one priority, in list order. *)
Definition of_priority (q : Priority) (recs : list Comprehensive.Recommendation)
  : list Comprehensive.Recommendation :=
  filter (fun r => Priority_eqb (Comprehensive.priority r) q) recs.

End Spec.

(** ** Concrete inputs *)

Module Examples.

Definition ok : attempt unit := Resolved tt.

(** An inventory page on which every query resolves. *)
Definition inventory : Comprehensive.Page :=
  Comprehensive.mkPage ok ok ok ok ok ok (Resolved true)
    (Comprehensive.mkObservabilityView
       (Resolved (Comprehensive.mkStateData 0 0 false "complete"))
       (Resolved 12%Z) (Resolved 0%Z) (Resolved 6%Z) None)
    (Comprehensive.mkControllabilityView
       (Resolved [Comprehensive.mkInputField ok (Resolved true) ok])
       (Resolved 20%Z) "https://www.saucedemo.com/inventory.html" ok
       "https://www.saucedemo.com/inventory.html"
       (Resolved 8%Z) (Resolved 3%Z))
    (Comprehensive.mkSimplicityView
       (Resolved 310%Z) (Resolved 0%Z) (Resolved 8%Z) (Resolved 0%Z)
       (Resolved 1%Z))
    (Comprehensive.mkTransparencyView
       (Resolved 0%Z) (Resolved 0%Z) (Resolved 2%Z) (Resolved 0%Z))
    (Comprehensive.mkStabilityView
       (Resolved 12%Z) ok ok (Resolved 12%Z)
       (Resolved ["inventory-container"; "title"; "add-to-cart"]%string)
       (Resolved 7%Z))
    (Comprehensive.mkExplainabilityView
       (Resolved 2%Z) (Resolved 0%Z) (Resolved 0%Z) (Resolved 6%Z)
       (Resolved 7%Z) (Resolved 1%Z))
    (Comprehensive.mkUnbugginessView
       (Resolved 0%Z) (Resolved 0%Z) (Resolved 0%Z) (Resolved 1%Z))
    (Comprehensive.mkSmallnessView
       (Resolved 310%Z) (Resolved 12%Z) (Resolved "<html></html>"%string))
    (Comprehensive.mkDecomposabilityView
       (Resolved 9%Z) (Resolved 12%Z) (Resolved 0%Z) (Resolved 40%Z))
    (Comprehensive.mkSimilarityView
       (Resolved (Comprehensive.mkStandardElements 8 0 1 0))
       (Resolved (Comprehensive.mkFamiliarTech true true true false))
       (Resolved (Comprehensive.mkConventions true true false false)))
    ok.

(** A complete map with every principle at 65. *)
Definition all_65 : obj number := map (fun k => (k, 65)) principleNames.

(** A map that lacks [similarity]. *)
Definition nine_scores : obj number :=
  map (fun k => (k, 50)) (removelast principleNames).

(** A complete map with observability at 55, controllability at 30 and the
    other principles at 80. *)
Definition mixed_scores : obj number :=
  set_field "controllability" 30
    (set_field "observability" 55 (map (fun k => (k, 80)) principleNames)).

(** The inventory page as the AI scorer queries it. *)
Definition ai_inventory : AI.Page :=
  AI.mkPage ok ok ok ok ok ok (Resolved true)
    (AI.mkObservabilityView
       (AI.mkSmartView
          (Resolved 310%Z)
          (Resolved
             [ Resolved (AI.mkRawElement (Some "inventory-container") "div"
                           None);
               Resolved (AI.mkRawElement (Some "title") "span" None);
               Resolved (AI.mkRawElement (Some "add-to-cart-sauce-labs-backpack")
                           "button" None);
               Resolved (AI.mkRawElement (Some "shopping-cart-link") "a"
                           None) ]%string)
          (Resolved 30%Z) (Resolved 20%Z) (Resolved 25%Z)
          (fun _ => Resolved 0%Z) (Resolved 3%Z))
       (Resolved (AI.mkStateCapabilities false false false true "complete"
                    false))
       (AI.mkErrorVisibilityView (Resolved 0%Z) (Resolved 0%Z))
       (AI.mkVisualView ok ok (Resolved 7%Z) (Resolved 6%Z))
       (Resolved None))
    (AI.mkControllabilityView
       (AI.mkPatternsView (Resolved 8%Z) (Resolved 0%Z) (Resolved 1%Z)
          (Resolved 12%Z) (Resolved 4%Z))
       (AI.mkInputPrecisionView (Resolved []) (Resolved 0%Z) (Resolved 0%Z))
       (AI.mkStateControlView
          (Resolved [Resolved true; Resolved true]) (Resolved 0%Z))
       (AI.mkDeterminismView "https://www.saucedemo.com/inventory.html" ok
          "https://www.saucedemo.com/inventory.html"
          (Resolved 4%Z) ok (Resolved 4%Z)))
    (Resolved (AI.mkComplexityMetrics 310 120 12 4 2))
    ok.

(** The inventory page as the quick scorer queries it. *)
Definition quick_inventory : Quick.Page :=
  Quick.mkPage ok ok ok ok (Resolved true)
    (Quick.mkObservabilityView (Resolved 12%Z) (Resolved 0%Z) (Resolved 7%Z))
    (Quick.mkControllabilityView
       (Resolved 8%Z) (Resolved 0%Z) (Resolved 0%Z) (Resolved 14%Z))
    (Quick.mkSimplicityView (Resolved 310%Z) (Resolved 0%Z) (Resolved 7%Z))
    (Quick.mkExplainabilityView
       (Resolved 2%Z) (Resolved 0%Z) (Resolved 6%Z) (Resolved 1%Z))
    (Quick.mkDecomposabilityView
       (Resolved 150%Z) (Resolved 60%Z) (Resolved 12%Z)).

(** Controllability observations with a negative count of interactive
    elements. *)
Definition negative_interactive : Comprehensive.ControllabilityView :=
  Comprehensive.mkControllabilityView
    (Resolved []) (Resolved (-100)%Z) "/inventory.html" ok "/inventory.html"
    (Resolved 0%Z) (Resolved 0%Z).

(** Unbugginess observations with a negative count of script errors. *)
Definition negative_errors : Comprehensive.UnbugginessView :=
  Comprehensive.mkUnbugginessView
    (Resolved (-20)%Z) (Resolved 0%Z) (Resolved 1%Z) (Resolved 0%Z).



End Examples.

(** ** The statistics of the text reports

    generateComprehensiveReport, generateComparisonReport and
    generateAIReport compute the same three figures from the successful
    results, each result type with its own [overallScore]. *)

Module ReportSummary.

(** [arr.reduce(f)] without an initial value: a TypeError on an empty
    array. *)
Definition Array_reduce1 {T} (f : T -> T -> T) (arr : list T) : attempt T :=
  match arr with
  | [] => Rejected "Reduce of empty array with no initial value"
  | x :: rest => Resolved (fold_left f rest x)
  end.

Section Summary.

Context {T : Type} (overallScore : T -> Z).

(** [Math.round(successfulResults.reduce((sum, r) => sum + r.overallScore, 0)
    / successfulResults.length)], evaluated after the early return on an
    empty array. *)
Definition averageScore (successfulResults : list T) : Z :=
  Math_round
    (num (fold_left (fun sum r => (sum + overallScore r)%Z)
            successfulResults 0%Z)
     / num (Z.of_nat (List.length successfulResults))).

(** [reduce((best, current) =>
      current.overallScore > best.overallScore ? current : best)] *)
Definition bestUser (successfulResults : list T) : attempt T :=
  Array_reduce1
    (fun best current =>
       if (overallScore current >? overallScore best)%Z then current else best)
    successfulResults.

(** [reduce((worst, current) =>
      current.overallScore < worst.overallScore ? current : worst)] *)
Definition worstUser (successfulResults : list T) : attempt T :=
  Array_reduce1
    (fun worst current =>
       if (overallScore current <? overallScore worst)%Z
       then current else worst)
    successfulResults.

End Summary.

(** The recommendations generateComprehensiveReport prints: the Critical
    ones, then the High ones. *)
Definition printed_recommendations
    (successfulResults : list Comprehensive.Assessment)
  : list Comprehensive.Recommendation :=
  let allRecommendations :=
    flat_map Comprehensive.a_aiRecommendations successfulResults in
  let criticalRecommendations :=
    filter (fun r => Priority_eqb (Comprehensive.priority r) Critical)
      allRecommendations in
  let highRecommendations :=
    filter (fun r => Priority_eqb (Comprehensive.priority r) High)
      allRecommendations in
  criticalRecommendations ++ highRecommendations.

(** [averageScore > 75 ? 'Ready' : averageScore > 60 ? 'Needs Work' :
    'Not Ready'] of generateAIReport, the label without its colour mark. *)
Definition readiness (averageScore : Z) : string :=
  if (averageScore >? 75)%Z then "Ready"
  else if (averageScore >? 60)%Z then "Needs Work" else "Not Ready".

End ReportSummary.


(** ** The data of the HTML report (TestabilityHTMLReportGenerator)

    processResults receives the results of the comprehensive analyzer.  A
    result with an [error] field has no [overallScore], no
    [principleScores] and no [aiRecommendations]: reading them gives
    [undefined]. *)

Module HTMLReport.

Import Comprehensive.

(** [r.overallScore], [None] for [undefined]. *)
Definition overallScore_js (r : RunResult) : option Z :=
  match r with
  | Completed a => Some (overallScore a)
  | Errored _ _ => None
  end.

(** [r.principleScores?.[principle] || 0] *)
Definition principleScore_or_0 (principle : string) (r : RunResult)
  : number :=
  match r with
  | Completed a =>
      match get_field principle (principleScores a) with
      | Some s => s
      | None => 0
      end
  | Errored _ _ => 0
  end.

(** [best?.overallScore || 0]: 0 for [null], for a result without score
    and for a score of 0. *)
Definition best_threshold (best : option RunResult) : Z :=
  match best with
  | Some b =>
      match overallScore_js b with
      | Some n => if (n =? 0)%Z then 0%Z else n
      | None => 0%Z
      end
  | None => 0%Z
  end.

(** [worst?.overallScore || 100]: 100 for [null], for a result without
    score and for a score of 0. *)
Definition worst_threshold (worst : option RunResult) : Z :=
  match worst with
  | Some w =>
      match overallScore_js w with
      | Some n => if (n =? 0)%Z then 100%Z else n
      | None => 100%Z
      end
  | None => 100%Z
  end.

(** [successfulResults.reduce((best, current) =>
      (current.overallScore > (best?.overallScore || 0)) ? current : best,
      null)]; a comparison with [undefined] is false. *)
Definition bestUser (successfulResults : list RunResult)
  : option RunResult :=
  fold_left
    (fun best current =>
       match overallScore_js current with
       | Some c => if (c >? best_threshold best)%Z then Some current else best
       | None => best
       end)
    successfulResults None.

(** [successfulResults.reduce((worst, current) =>
      (current.overallScore < (worst?.overallScore || 100)) ? current : worst,
      null)] *)
Definition worstUser (successfulResults : list RunResult)
  : option RunResult :=
  fold_left
    (fun worst current =>
       match overallScore_js current with
       | Some c =>
           if (c <? worst_threshold worst)%Z then Some current else worst
       | None => worst
       end)
    successfulResults None.

(** [successfulResults.reduce((sum, r) => sum + r.overallScore, 0)]:
    [None] for [NaN], which an [undefined] summand gives and every later
    addition keeps. *)
Definition sum_overallScore (successfulResults : list RunResult)
  : option Z :=
  fold_left
    (fun sum r =>
       match sum, overallScore_js r with
       | Some s, Some c => Some (s + c)%Z
       | _, _ => None
       end)
    successfulResults (Some 0%Z).

(** [overallAverage]; [None] for [NaN]. *)
Definition overallAverage (successfulResults : list RunResult) : option Z :=
  if (0 <? List.length successfulResults)%nat then
    match sum_overallScore successfulResults with
    | Some total =>
        Some (Math_round
                (num total / num (Z.of_nat (List.length successfulResults))))
    | None => None
    end
  else Some 0%Z.

(** The [forEach] over the principle names that fills
    [principleAverages]. *)
Definition principleAverages (successfulResults : list RunResult) : obj Z :=
  fold_left
    (fun averages principle =>
       set_field principle
         (if (0 <? List.length successfulResults)%nat then
            Math_round
              (fold_left (fun sum r => sum + principleScore_or_0 principle r)
                 successfulResults 0
               / num (Z.of_nat (List.length successfulResults)))
          else 0%Z)
         averages)
    principleNames [].

Record Summary : Type := mkSummary {
  totalUsers : nat;
  successfulAnalyses : nat;
  failedAnalyses : nat;
  s_overallAverage : option Z;
  s_bestUser : option RunResult;
  s_worstUser : option RunResult
}.

Record Recommendations : Type := mkRecommendations {
  all : list Recommendation;
  critical : list Recommendation;
  high : list Recommendation
}.

Record ReportData : Type := mkReportData {
  rd_timestamp : string;
  summary : Summary;
  results : list RunResult;
  failedResults : list RunResult;
  rd_principleAverages : obj Z;
  recommendations : Recommendations
}.

(** [processResults(results)] on a generator created at [timestamp]. *)
Definition processResults (timestamp : string) (results : list RunResult)
  : ReportData :=
  let successfulResults :=
    filter (fun r => negb (truthy (error_of r))) results in
  let failedResults := filter (fun r => truthy (error_of r)) results in
  let allRecommendations := flat_map recommendations_of successfulResults in
  let criticalRecommendations :=
    filter (fun r => Priority_eqb (priority r) Critical) allRecommendations in
  let highRecommendations :=
    filter (fun r => Priority_eqb (priority r) High) allRecommendations in
  mkReportData timestamp
    (mkSummary (List.length results) (List.length successfulResults)
       (List.length failedResults) (overallAverage successfulResults)
       (bestUser successfulResults) (worstUser successfulResults))
    successfulResults failedResults (principleAverages successfulResults)
    (mkRecommendations allRecommendations criticalRecommendations
       highRecommendations).

End HTMLReport.

(** ** The summary helpers of the complete-analysis suite

    calculatePrincipleBreakdown and identifyCriticalIssues receive the
    results without a truthy [error].  On a result without
    [principleScores] the read [r.principleScores[principle]] throws a
    TypeError; a principle missing from [principleScores] reads as
    [undefined], which turns the sum into [NaN] ([None] below). *)

Module SuiteHelpers.

Import Comprehensive.

(** [r.principleScores[principle]] *)
Definition principleScore_js (principle : string) (r : RunResult)
  : attempt (option number) :=
  match r with
  | Completed a => Resolved (get_field principle (principleScores a))
  | Errored _ _ =>
      Rejected
        ("Cannot read properties of undefined (reading '" ++ principle ++ "')")
  end.

Record Issue : Type := mkIssue {
  i_principle : string;
  averageScore : Z;
  severity : Priority
}.

(** The body of the [forEach] callback of identifyCriticalIssues for an
    average already computed: a comparison with [NaN] is false. *)
Definition issue_of (principle : string) (averageScore : option number)
  : list Issue :=
  match averageScore with
  | Some avg =>
      if lt avg 40 then [mkIssue principle (Math_round avg) Critical]
      else if lt avg 60 then [mkIssue principle (Math_round avg) High]
      else []
  | None => []
  end.

Section Arithmetic.

(** The averages are sums and quotients of doubles, which round: [add] and
    [div] stand for the double-precision [+] and [/] on numbers, and
    nothing is assumed of them here.  A comparison and [Math.round] are
    exact on the doubles they are given. *)
Variables add div : number -> number -> number.

(** [results.reduce((sum, r) => sum + r.principleScores[principle], 0)
     / results.length]; [0 / 0] is [NaN]. *)
Definition average (principle : string) (results : list RunResult)
  : attempt (option number) :=
  sum <- fold_left
           (fun acc r =>
              sum <- acc ;;
              v <- principleScore_js principle r ;;
              Resolved
                match sum, v with
                | Some s, Some x => Some (add s x)
                | _, _ => None
                end)
           results (Resolved (Some 0)) ;;
  Resolved
    match sum with
    | Some s =>
        if (List.length results =? 0)%nat then None
        else Some (div s (num (Z.of_nat (List.length results))))
    | None => None
    end.

(** [calculatePrincipleBreakdown(results)]; a [NaN] average rounds to
    [NaN]. *)
Definition calculatePrincipleBreakdown (results : list RunResult)
  : attempt (obj (option Z)) :=
  if (List.length results =? 0)%nat then Resolved []
  else
    fold_left
      (fun acc principle =>
         breakdown <- acc ;;
         avg <- average principle results ;;
         Resolved (set_field principle (option_map Math_round avg) breakdown))
      principleNames (Resolved []).

(** [identifyCriticalIssues(results)] *)
Definition identifyCriticalIssues (results : list RunResult)
  : attempt (list Issue) :=
  fold_left
    (fun acc principle =>
       issues <- acc ;;
       avg <- average principle results ;;
       Resolved (issues ++ issue_of principle avg))
    principleNames (Resolved []).

End Arithmetic.

End SuiteHelpers.

(** ** AITestUtils.smartInteract (ai-test-utils.js)

    The locator is given by what its calls do on each attempt; the attempts
    are numbered from 1 as in the source. *)

Module AITestUtils.

Record Locator : Type := mkLocator {
  waitFor : nat -> attempt unit;
  click : nat -> attempt unit;
  fill : nat -> attempt unit;
  selectOption : nat -> attempt unit;
  check : nat -> attempt unit;
  uncheck : nat -> attempt unit
}.

Record Options : Type := mkOptions {
  (** [options.retries], [None] for [undefined] *)
  retries : option number;
  (** [options.delay] *)
  delay : option number
}.

(** [options.retries || 3] *)
Definition maxRetries (options : Options) : number :=
  match retries options with
  | Some r => if Qeq_bool r 0 then 3 else r
  | None => 3
  end.

(** The body of the [try] on one attempt. *)
Definition interact (locator : Locator) (action : string) (n : nat)
  : attempt unit :=
  waitFor locator n ;;;
  if String.eqb action "click" then click locator n
  else if String.eqb action "fill" then fill locator n
  else if String.eqb action "select" then selectOption locator n
  else if String.eqb action "check" then check locator n
  else if String.eqb action "uncheck" then uncheck locator n
  else Rejected ("Unknown action: " ++ action).

(** What a call did: its result, the attempts it made and the delays it
    waited. *)
Record Outcome : Type := mkOutcome {
  result : attempt unit;
  attempts : nat;
  delays : nat
}.

(** [`${maxRetries}`] for the positive integer [n] *)
Definition show (n : nat) : string :=
  NilZero.string_of_uint (Nat.to_uint n).

(** The [for] loop from attempt [n] on, with [remaining] values of
    [attempt] not above [maxRetries] left.  Leaving the loop returns
    [undefined]. *)
Fixpoint retry (locator : Locator) (action : string) (maxRetries : number)
    (remaining n : nat) (delayed : nat) : Outcome :=
  match remaining with
  | O => mkOutcome (Resolved tt) (n - 1) delayed
  | S remaining' =>
      match interact locator action n with
      | Resolved _ => mkOutcome (Resolved tt) n delayed
      | Rejected message =>
          if Qeq_bool (num (Z.of_nat n)) maxRetries then
            mkOutcome
              (Rejected
                 ("Failed to " ++ action ++ " after " ++ show n
                  ++ " attempts: " ++ message))
              n delayed
          else
            retry locator action maxRetries remaining' (S n) (S delayed)
      end
  end.

(** [smartInteract(locator, action, value, options)]: [attempt] takes the
    values 1, 2, ... not above [maxRetries], which are
    [Math.floor(maxRetries)] many. *)
Definition smartInteract (locator : Locator) (action : string)
    (options : Options) : Outcome :=
  retry locator action (maxRetries options)
    (Z.to_nat (Math_floor (maxRetries options))) 1 0.

End AITestUtils.

(** ** Strings of ASCII characters

    On these the byte-wise lower-casing of the model is the source's
    [toLowerCase]. *)

Definition is_ascii (s : string) : bool :=
  forallb (fun c => (nat_of_ascii c <? 128)%nat) (list_ascii_of_string s).

(** ** The scorecard of the TestabilityScorer (generateReport)

    The five counts under TESTABILITY ANALYSIS and the choice between the
    recommendation block and its replacement line. *)

Module Scorecard.

Record Analysis : Type := mkAnalysis {
  excellent : nat;
  good : nat;
  average : nat;
  poor : nat;
  veryPoor : nat
}.

(** [Object.values(this.results.principleScores).filter(...).length], five
    times *)
Definition analysis (principleScores : obj number) : Analysis :=
  let values := Object_values principleScores in
  mkAnalysis
    (List.length (filter (fun s => ge s 90) values))
    (List.length (filter (fun s => ge s 70 && lt s 90) values))
    (List.length (filter (fun s => ge s 50 && lt s 70) values))
    (List.length (filter (fun s => ge s 30 && lt s 50) values))
    (List.length (filter (fun s => lt s 30) values)).

(** [this.results.recommendations.length > 0]: the report lists the
    recommendations; otherwise it prints
    ['No major recommendations - excellent testability!']. *)
Definition lists_recommendations
    (recommendations : list TestabilityScorer.Recommendation) : bool :=
  (0 <? List.length recommendations)%nat.

End Scorecard.

(** ** Further concrete inputs *)

Module MoreExamples.

(** The inventory page as the quick scorer queries it, with the count of
    labels timing out. *)
Definition quick_inventory_failing_labels : Quick.Page :=
  Quick.mkPage Examples.ok Examples.ok Examples.ok Examples.ok (Resolved true)
    (Quick.mkObservabilityView (Resolved 12%Z) (Resolved 0%Z) (Resolved 7%Z))
    (Quick.mkControllabilityView
       (Resolved 8%Z) (Resolved 0%Z) (Resolved 0%Z) (Resolved 14%Z))
    (Quick.mkSimplicityView (Resolved 310%Z) (Resolved 0%Z) (Resolved 7%Z))
    (Quick.mkExplainabilityView
       (Resolved 2%Z) (Rejected "Timeout 30000ms exceeded.") (Resolved 6%Z)
       (Resolved 1%Z))
    (Quick.mkDecomposabilityView
       (Resolved 150%Z) (Resolved 60%Z) (Resolved 12%Z)).

(** A result of the comprehensive analyzer with the given overall score and
    no principle scores recorded. *)
Definition scored (userType : string) (overall : Z)
  : Comprehensive.RunResult :=
  Comprehensive.Completed
    (Comprehensive.mkAssessment userType "t" overall [] []
       (Comprehensive.getGrade overall)).

(** An assessment as a run returns it for the given score map. *)
Definition assessment_of (userType : string) (scores : obj number)
  : Comprehensive.Assessment :=
  Comprehensive.mkAssessment userType "t"
    (Comprehensive.overallScore_of scores) scores
    (Comprehensive.generateAIRecommendations scores)
    (Comprehensive.getGrade (Comprehensive.overallScore_of scores)).

(** Two assessments with complete score maps. *)
Definition two_assessments : list Comprehensive.Assessment :=
  [ assessment_of "standard_user" Examples.mixed_scores;
    assessment_of "problem_user" Examples.all_65 ]%string.

(** A locator that is visible at once and whose [click] succeeds from the
    given attempt on. *)
Definition clickable_from (first : nat) : AITestUtils.Locator :=
  AITestUtils.mkLocator
    (fun _ => Resolved tt)
    (fun n =>
       if (first <=? n)%nat then Resolved tt
       else Rejected "locator.click: Timeout 30000ms exceeded.")
    (fun _ => Resolved tt) (fun _ => Resolved tt) (fun _ => Resolved tt)
    (fun _ => Resolved tt).

(** Results of five user types, one of them failed. *)
Definition five_results : list Comprehensive.RunResult :=
  [ scored "standard_user" 64; scored "problem_user" 58;
    Comprehensive.Errored "locked_out_user" "Login failed";
    scored "performance_glitch_user" 64; scored "error_user" 61 ]%string.

End MoreExamples.

(** * Properties *)

(** ** The numeric primitives *)

Lemma Math_min_le_l a b : Math_min a b <= a.
Proof. apply Q.le_min_l. Qed.

Lemma Math_min_glb a b c : c <= a -> c <= b -> c <= Math_min a b.
Proof. intros; now apply Q.min_glb. Qed.

Lemma Math_max_ge_l a b : a <= Math_max a b.
Proof. apply Q.le_max_l. Qed.

Lemma Math_max_lub a b c : a <= c -> b <= c -> Math_max a b <= c.
Proof. intros; now apply Q.max_lub. Qed.

Lemma num_nonneg z : (0 <= z)%Z -> 0 <= num z.
Proof.
  intros H. unfold num. change 0 with (inject_Z 0).
  now rewrite <- Zle_Qle.
Qed.

Lemma Math_floor_nonneg x : 0 <= x -> 0 <= num (Math_floor x).
Proof.
  intros H. apply num_nonneg. unfold Math_floor.
  change 0%Z with (Qfloor 0). now apply Qfloor_resp_le.
Qed.

(** [Math.round x] is an integer nearest to [x]; on a tie it is the upper
    one. *)
Lemma Math_round_nearest x :
  x - (1 # 2) < num (Math_round x) /\ num (Math_round x) <= x + (1 # 2).
Proof.
  unfold Math_round, num. split.
  - pose proof (Qlt_floor (x + (1 # 2))) as H.
    rewrite inject_Z_plus in H. change (inject_Z 1) with 1 in H. lra.
  - apply Qfloor_le.
Qed.

Lemma Math_round_unique x (n : Z) :
  x - (1 # 2) < num n -> num n <= x + (1 # 2) -> Math_round x = n.
Proof.
  intros Hlo Hhi. unfold Math_round, num in *.
  pose proof (Qfloor_le (x + (1 # 2))) as F1.
  pose proof (Qlt_floor (x + (1 # 2))) as F2.
  rewrite inject_Z_plus in F2. change (inject_Z 1) with 1 in F2.
  assert (A : (Qfloor (x + (1 # 2)) < n + 1)%Z).
  { rewrite Zlt_Qlt, inject_Z_plus. change (inject_Z 1) with 1. lra. }
  assert (B : (n < Qfloor (x + (1 # 2)) + 1)%Z).
  { rewrite Zlt_Qlt, inject_Z_plus. change (inject_Z 1) with 1. lra. }
  lia.
Qed.

(** ** Aggregation *)

Lemma nearest_integer_unique x n m :
  Spec.nearest_integer x n -> Spec.nearest_integer x m -> n = m.
Proof.
  intros [H1 H2] [H3 H4].
  rewrite <- (Math_round_unique x n H1 H2).
  now apply Math_round_unique.
Qed.

Lemma Math_round_comp x y : x == y -> Math_round x = Math_round y.
Proof. intros H. unfold Math_round. now rewrite H. Qed.

Lemma nearest_integer_round x y :
  x == y -> Spec.nearest_integer x (Math_round y).
Proof.
  intros H. destruct (Math_round_nearest y) as [H1 H2].
  unfold Spec.nearest_integer. rewrite H. now split.
Qed.

Lemma fold_left_Qplus_acc xs a :
  fold_left Qplus xs a == a + fold_right Qplus 0 xs.
Proof.
  revert a. induction xs as [|x xs IH]; intros a; simpl.
  - lra.
  - rewrite IH. lra.
Qed.

Lemma reduce_sum_fold_right xs : reduce_sum xs == fold_right Qplus 0 xs.
Proof. unfold reduce_sum. rewrite fold_left_Qplus_acc. lra. Qed.

Lemma complete_length o : complete o -> List.length (Object_values o) = 10%nat.
Proof.
  intros H. apply Permutation_length in H.
  unfold Object_keys, Object_values in *.
  rewrite length_map in *. exact H.
Qed.

Lemma set_field_keys {V} k (v : V) o :
  In k (Object_keys o) -> Object_keys (set_field k v o) = Object_keys o.
Proof.
  induction o as [|[k' v'] o IH]; simpl; intros H.
  - contradiction.
  - destruct (String.eqb k k') eqn:E; simpl.
    + reflexivity.
    + f_equal. apply IH. destruct H as [H|H]; [|exact H].
      subst. now rewrite String.eqb_refl in E.
Qed.

Lemma set_field_nonempty {V} k (v : V) o : set_field k v o <> [].
Proof.
  destruct o as [|[k' v'] o]; simpl; [discriminate|].
  destruct (String.eqb k k'); discriminate.
Qed.

Lemma complete_set_field k v o :
  complete o -> In k principleNames -> complete (set_field k v o).
Proof.
  intros H Hk. unfold complete. rewrite set_field_keys; [exact H|].
  eapply Permutation_in; [symmetry; exact H | exact Hk].
Qed.

Lemma analyze_principles_complete o page :
  complete o -> complete (Comprehensive.analyze_principles o page).
Proof.
  intros H. unfold Comprehensive.analyze_principles.
  repeat (apply complete_set_field; [| simpl; tauto]).
  exact H.
Qed.

Lemma overallScore_of_mean o :
  complete o ->
  Spec.nearest_integer (Spec.arithmetic_mean (Object_values o))
    (Comprehensive.overallScore_of o).
Proof.
  intros H. apply nearest_integer_round.
  unfold Spec.arithmetic_mean. rewrite (complete_length o H).
  rewrite reduce_sum_fold_right. reflexivity.
Qed.

Lemma run_completed this page userType a this' :
  Comprehensive.runCompleteAnalysis this page userType
    = (Comprehensive.Completed a, this') ->
  Comprehensive.principleScores a
    = Comprehensive.analyze_principles (Comprehensive.principles this) page
  /\ Comprehensive.overallScore a
     = Comprehensive.overallScore_of (Comprehensive.principleScores a)
  /\ Comprehensive.a_aiRecommendations a
     = Comprehensive.generateAIRecommendations (Comprehensive.principleScores a)
  /\ Comprehensive.grade a
     = Comprehensive.getGrade (Comprehensive.overallScore a).
Proof.
  unfold Comprehensive.runCompleteAnalysis.
  destruct (Comprehensive.login page) as [[|]|]; try discriminate.
  destruct (Comprehensive.endDebugSession page); try discriminate.
  intros H. injection H as <- _. simpl. auto.
Qed.

Lemma calculateOverallScore_mean scores :
  scores <> [] ->
  exists n,
    fst (TestabilityScorer.calculateOverallScore scores) = Some n
    /\ Spec.nearest_integer (Spec.arithmetic_mean (Object_values scores)) n.
Proof.
  intros H. unfold TestabilityScorer.calculateOverallScore. simpl.
  destruct scores as [|e scores]; [congruence|].
  eexists. split; [reflexivity|].
  apply nearest_integer_round. unfold Spec.arithmetic_mean.
  rewrite reduce_sum_fold_right. reflexivity.
Qed.

(** C1.  The overall score is the unweighted arithmetic mean of the
    principle scores, rounded to the nearest integer (a half rounds up):
    for the aggregation expression of runCompleteAnalysis on every complete
    score map, for the assessment a run of the comprehensive analyzer
    returns, and for calculateOverallScore of the TestabilityScorer on every
    map that has a score. *)
Theorem overall_score_is_rounded_mean :
  (forall o : obj number,
     complete o ->
     Spec.nearest_integer (Spec.arithmetic_mean (Object_values o))
       (Comprehensive.overallScore_of o))
  /\ (forall this page userType a this',
        complete (Comprehensive.principles this) ->
        Comprehensive.runCompleteAnalysis this page userType
          = (Comprehensive.Completed a, this') ->
        complete (Comprehensive.principleScores a)
        /\ Spec.nearest_integer
             (Spec.arithmetic_mean
                (Object_values (Comprehensive.principleScores a)))
             (Comprehensive.overallScore a))
  /\ (forall scores : obj number,
        scores <> [] ->
        exists n,
          fst (TestabilityScorer.calculateOverallScore scores) = Some n
          /\ Spec.nearest_integer
               (Spec.arithmetic_mean (Object_values scores)) n).
Proof.
  split; [exact overallScore_of_mean|]. split.
  - intros this page userType a this' Hc Hrun.
    destruct (run_completed _ _ _ _ _ Hrun) as (Hp & Ho & _).
    assert (Hc' : complete (Comprehensive.principleScores a)).
    { rewrite Hp. now apply analyze_principles_complete. }
    split; [exact Hc'|]. rewrite Ho. now apply overallScore_of_mean.
  - exact calculateOverallScore_mean.
Qed.

Lemma initial_principles_complete : complete initial_principles.
Proof. unfold complete. simpl. apply Permutation_refl. Qed.

Lemma overall_score_is_rounded_mean_witness :
  Spec.nearest_integer (Spec.arithmetic_mean (Object_values Examples.all_65))
    (Comprehensive.overallScore_of Examples.all_65)
  /\ (exists a,
        fst (Comprehensive.runCompleteAnalysis (Comprehensive.new_analyzer "t")
               Examples.inventory "standard_user")
          = Comprehensive.Completed a
        /\ Comprehensive.overallScore a = 64%Z
        /\ Spec.nearest_integer
             (Spec.arithmetic_mean
                (Object_values (Comprehensive.principleScores a)))
             (Comprehensive.overallScore a))
  /\ (exists n,
        fst (TestabilityScorer.calculateOverallScore Examples.all_65) = Some n).
Proof.
  destruct overall_score_is_rounded_mean as (H1 & H2 & H3).
  split; [|split].
  - apply H1. unfold complete. simpl. apply Permutation_refl.
  - eexists. split; [reflexivity|]. split; [reflexivity|].
    eapply (H2 (Comprehensive.new_analyzer "t") Examples.inventory
              "standard_user"%string).
    + exact initial_principles_complete.
    + reflexivity.
  - destruct (H3 Examples.all_65) as (n & Hn & _); [discriminate|].
    exists n. exact Hn.
Defined.

(** ** Grades *)

Section Grades.

Local Open Scope Z_scope.
Local Open Scope string_scope.

Lemma getGrade_cases (s : Z) :
  (90 <= s /\ Comprehensive.getGrade s = "A (Excellent)")
  \/ (80 <= s < 90 /\ Comprehensive.getGrade s = "B (Good)")
  \/ (70 <= s < 80 /\ Comprehensive.getGrade s = "C (Average)")
  \/ (60 <= s < 70 /\ Comprehensive.getGrade s = "D (Below Average)")
  \/ (s < 60 /\ Comprehensive.getGrade s = "F (Poor)").
Proof.
  unfold Comprehensive.getGrade.
  destruct (Z.leb_spec 90 s); [left; auto|].
  destruct (Z.leb_spec 80 s); [right; left; split; [lia|auto]|].
  destruct (Z.leb_spec 70 s); [right; right; left; split; [lia|auto]|].
  destruct (Z.leb_spec 60 s);
    [right; right; right; left; split; [lia|auto]|].
  right; right; right; right. auto.
Qed.

Lemma getAIGrade_cases (s : Z) :
  (95 <= s /\ AI.getAIGrade s = "A+ (AI-Optimized)")
  \/ (90 <= s < 95 /\ AI.getAIGrade s = "A (Excellent for AI)")
  \/ (80 <= s < 90 /\ AI.getAIGrade s = "B (Good for AI)")
  \/ (70 <= s < 80 /\ AI.getAIGrade s = "C (Average for AI)")
  \/ (60 <= s < 70 /\ AI.getAIGrade s = "D (Below AI Standards)")
  \/ (s < 60 /\ AI.getAIGrade s = "F (Not AI-Ready)").
Proof.
  unfold AI.getAIGrade.
  destruct (Z.leb_spec 95 s); [left; auto|].
  destruct (Z.leb_spec 90 s); [right; left; split; [lia|auto]|].
  destruct (Z.leb_spec 80 s); [right; right; left; split; [lia|auto]|].
  destruct (Z.leb_spec 70 s);
    [right; right; right; left; split; [lia|auto]|].
  destruct (Z.leb_spec 60 s);
    [right; right; right; right; left; split; [lia|auto]|].
  right; right; right; right; right. auto.
Qed.

Lemma getGrade_scorer_cases (s : Z) :
  (90 <= s /\ TestabilityScorer.getGrade s = "(A)")
  \/ (80 <= s < 90 /\ TestabilityScorer.getGrade s = "(B)")
  \/ (70 <= s < 80 /\ TestabilityScorer.getGrade s = "(C)")
  \/ (60 <= s < 70 /\ TestabilityScorer.getGrade s = "(D)")
  \/ (s < 60 /\ TestabilityScorer.getGrade s = "(F)").
Proof.
  unfold TestabilityScorer.getGrade.
  destruct (Z.leb_spec 90 s); [left; auto|].
  destruct (Z.leb_spec 80 s); [right; left; split; [lia|auto]|].
  destruct (Z.leb_spec 70 s); [right; right; left; split; [lia|auto]|].
  destruct (Z.leb_spec 60 s);
    [right; right; right; left; split; [lia|auto]|].
  right; right; right; right. auto.
Qed.

Ltac grade_iff cases s :=
  destruct (cases s) as [[? E]|[[? E]|[[? E]|[[? E]|[? E]]]]];
  rewrite E; repeat split; intros; try lia; try discriminate; auto.

Ltac ai_grade_iff s :=
  destruct (getAIGrade_cases s)
    as [[? E]|[[? E]|[[? E]|[[? E]|[[? E]|[? E]]]]]];
  rewrite E; repeat split; intros; try lia; try discriminate; auto.

(** C2 (as amended).  In the comprehensive analyzer, the quick scorer and
    the TestabilityScorer the grade depends on the overall score alone, with
    the boundaries 90, 80, 70 and 60: A exactly from 90 up, B from 80 to 89,
    C from 70 to 79, D from 60 to 69, F below 60; 90 gives A and 89 gives B.
    The AI scorer has the same boundaries and one more at 95: A+ from 95 up
    and A only from 90 to 94. *)
Theorem grade_is_step_function (s : Z) :
  ((Comprehensive.getGrade s = "A (Excellent)" <-> 90 <= s)
   /\ (Comprehensive.getGrade s = "B (Good)" <-> 80 <= s < 90)
   /\ (Comprehensive.getGrade s = "C (Average)" <-> 70 <= s < 80)
   /\ (Comprehensive.getGrade s = "D (Below Average)" <-> 60 <= s < 70)
   /\ (Comprehensive.getGrade s = "F (Poor)" <-> s < 60))
  /\ Quick.getGrade s = Comprehensive.getGrade s
  /\ ((TestabilityScorer.getGrade s = "(A)" <-> 90 <= s)
      /\ (TestabilityScorer.getGrade s = "(B)" <-> 80 <= s < 90)
      /\ (TestabilityScorer.getGrade s = "(C)" <-> 70 <= s < 80)
      /\ (TestabilityScorer.getGrade s = "(D)" <-> 60 <= s < 70)
      /\ (TestabilityScorer.getGrade s = "(F)" <-> s < 60))
  /\ ((AI.getAIGrade s = "A+ (AI-Optimized)" <-> 95 <= s)
      /\ (AI.getAIGrade s = "A (Excellent for AI)" <-> 90 <= s < 95)
      /\ (AI.getAIGrade s = "B (Good for AI)" <-> 80 <= s < 90)
      /\ (AI.getAIGrade s = "C (Average for AI)" <-> 70 <= s < 80)
      /\ (AI.getAIGrade s = "D (Below AI Standards)" <-> 60 <= s < 70)
      /\ (AI.getAIGrade s = "F (Not AI-Ready)" <-> s < 60))
  /\ Comprehensive.getGrade 90 = "A (Excellent)"
  /\ Comprehensive.getGrade 89 = "B (Good)".
Proof.
  split; [grade_iff getGrade_cases s|].
  split; [reflexivity|].
  split; [grade_iff getGrade_scorer_cases s|].
  split; [ai_grade_iff s|].
  split; reflexivity.
Qed.

(** C2 as stated fails for the AI scorer: 95 is at least 90, yet its grade
    is not the grade of 90. *)
Lemma grade_A_fails_for_AI_95 :
  90 <= 95
  /\ AI.getAIGrade 90 = "A (Excellent for AI)"
  /\ AI.getAIGrade 95 = "A+ (AI-Optimized)"
  /\ AI.getAIGrade 95 <> AI.getAIGrade 90.
Proof. repeat split; [lia | discriminate]. Qed.

End Grades.

(** ** Recommendations *)

Lemma lt_true_iff a b : lt a b = true <-> a < b.
Proof.
  unfold lt. rewrite negb_true_iff.
  destruct (Qle_bool b a) eqn:E.
  - apply Qle_bool_iff in E. split; [discriminate | intros; lra].
  - split; [intros _|reflexivity].
    destruct (Qlt_le_dec a b) as [H|H]; [exact H|].
    apply Qle_bool_iff in H. congruence.
Qed.

Lemma lt_false_iff a b : lt a b = false <-> b <= a.
Proof.
  destruct (lt a b) eqn:E.
  - apply lt_true_iff in E. split; [discriminate | intros; lra].
  - split; [intros _|reflexivity].
    destruct (Qlt_le_dec a b) as [H|H]; [|exact H].
    apply lt_true_iff in H. congruence.
Qed.

Section Counting.

Context {V : Type} (f : V -> bool).

Lemma count_absent (o : obj V) p :
  ~ In p (Object_keys o) -> List.length (filter (matching f p) o) = 0%nat.
Proof.
  induction o as [|[k w] o IH]; simpl; intros H; [reflexivity|].
  unfold matching at 1. simpl.
  destruct (String.eqb_spec k p) as [->|_]; [tauto|]. simpl.
  apply IH. tauto.
Qed.

Lemma count_present (o : obj V) p v :
  NoDup (Object_keys o) -> In (p, v) o ->
  List.length (filter (matching f p) o) = if f v then 1%nat else 0%nat.
Proof.
  induction o as [|[k w] o IH]; simpl; intros Hnd Hin; [contradiction|].
  inversion Hnd as [|? ? Hk Hnd']; subst.
  unfold matching at 1. simpl.
  destruct Hin as [Hin|Hin].
  - injection Hin as -> ->. rewrite String.eqb_refl. simpl.
    destruct (f v); simpl; now rewrite count_absent.
  - destruct (String.eqb_spec k p) as [->|_].
    + exfalso. apply Hk. change p with (fst (p, v)). now apply in_map.
    + simpl. now apply IH.
Qed.

End Counting.

Lemma count_generateAIRecommendations o p :
  Spec.count_for Comprehensive.principle p
    (Comprehensive.generateAIRecommendations o)
  = List.length (filter (matching (fun s => lt s 60) p) o).
Proof.
  unfold Spec.count_for, Comprehensive.generateAIRecommendations,
    Object_entries.
  induction o as [|[k s] o IH]; simpl; [reflexivity|].
  rewrite filter_app, length_app, IH. unfold matching at 2. simpl.
  destruct (lt s 60); simpl.
  - destruct (String.eqb k p); reflexivity.
  - now rewrite andb_false_r.
Qed.

Lemma count_generateRecommendations o p :
  Spec.count_for TestabilityScorer.principle p
    (TestabilityScorer.generateRecommendations o)
  = List.length (filter (matching (fun s => lt s 70) p) o).
Proof.
  unfold Spec.count_for, TestabilityScorer.generateRecommendations,
    Object_entries.
  induction o as [|[k s] o IH]; simpl; [reflexivity|].
  rewrite filter_app, length_app, IH. unfold matching at 2. simpl.
  destruct (lt s 50) eqn:E50; simpl.
  - assert (E70 : lt s 70 = true).
    { apply lt_true_iff. apply lt_true_iff in E50. lra. }
    rewrite E70. destruct (String.eqb k p); reflexivity.
  - destruct (lt s 70); simpl.
    + destruct (String.eqb k p); reflexivity.
    + now rewrite andb_false_r.
Qed.

(** C4 (as amended).  In a score map with distinct keys, the comprehensive
    analyzer's generateAIRecommendations emits exactly one recommendation
    for each principle whose score is below 60 and none for a principle at
    or above 60; generateRecommendations of the TestabilityScorer does the
    same with the threshold 70.  A name that is no key of the map gets
    none, so no principle ever gets more than one. *)
Theorem one_recommendation_below_threshold
    (o : obj number) (p : string) (s : number) :
  NoDup (Object_keys o) ->
  In (p, s) o ->
  (s < 60 ->
   Spec.count_for Comprehensive.principle p
     (Comprehensive.generateAIRecommendations o) = 1%nat)
  /\ (60 <= s ->
      Spec.count_for Comprehensive.principle p
        (Comprehensive.generateAIRecommendations o) = 0%nat)
  /\ (s < 70 ->
      Spec.count_for TestabilityScorer.principle p
        (TestabilityScorer.generateRecommendations o) = 1%nat)
  /\ (70 <= s ->
      Spec.count_for TestabilityScorer.principle p
        (TestabilityScorer.generateRecommendations o) = 0%nat)
  /\ (forall q,
        ~ In q (Object_keys o) ->
        Spec.count_for Comprehensive.principle q
          (Comprehensive.generateAIRecommendations o) = 0%nat
        /\ Spec.count_for TestabilityScorer.principle q
             (TestabilityScorer.generateRecommendations o) = 0%nat).
Proof.
  intros Hnd Hin.
  rewrite count_generateAIRecommendations, count_generateRecommendations.
  rewrite (count_present (fun s => lt s 60) o p s Hnd Hin).
  rewrite (count_present (fun s => lt s 70) o p s Hnd Hin).
  repeat split.
  - intros H. apply lt_true_iff in H. now rewrite H.
  - intros H. apply lt_false_iff in H. now rewrite H.
  - intros H. apply lt_true_iff in H. now rewrite H.
  - intros H. apply lt_false_iff in H. now rewrite H.
  - rewrite count_generateAIRecommendations. now apply count_absent.
  - rewrite count_generateRecommendations. now apply count_absent.
Qed.

Lemma principleNames_NoDup : NoDup principleNames.
Proof.
  unfold principleNames.
  repeat (constructor; [simpl; intros H;
    repeat (destruct H as [H|H]; [discriminate|]); exact H|]).
  constructor.
Qed.

Lemma one_recommendation_below_threshold_witness :
  Spec.count_for Comprehensive.principle "controllability"
    (Comprehensive.generateAIRecommendations Examples.mixed_scores) = 1%nat
  /\ Spec.count_for TestabilityScorer.principle "controllability"
       (TestabilityScorer.generateRecommendations Examples.mixed_scores)
     = 1%nat.
Proof.
  assert (Hnd : NoDup (Object_keys Examples.mixed_scores))
    by exact principleNames_NoDup.
  assert (Hin : In ("controllability"%string, 30) Examples.mixed_scores)
    by (simpl; tauto).
  destruct (one_recommendation_below_threshold Examples.mixed_scores
              "controllability" 30 Hnd Hin) as (H1 & _ & H3 & _).
  split; [apply H1 | apply H3]; reflexivity.
Defined.

(** C4 as stated fails for the comprehensive analyzer: with every principle
    at 65, observability is below 70 and yet gets no recommendation. *)
Lemma no_recommendation_at_65 :
  In ("observability"%string, 65) Examples.all_65
  /\ 65 < 70
  /\ Spec.count_for Comprehensive.principle "observability"
       (Comprehensive.generateAIRecommendations Examples.all_65) = 0%nat.
Proof. split; [simpl; tauto|]. split; reflexivity. Qed.

(** ** Ordering of recommendations *)

Lemma generateAIRecommendations_order o :
  map Comprehensive.principle (Comprehensive.generateAIRecommendations o)
  = map fst (filter (fun e => lt (snd e) 60) o).
Proof.
  unfold Comprehensive.generateAIRecommendations, Object_entries.
  induction o as [|[k s] o IH]; simpl; [reflexivity|].
  rewrite map_app, IH. destruct (lt s 60); reflexivity.
Qed.

Lemma generateAIRecommendations_length o :
  (List.length (Comprehensive.generateAIRecommendations o)
   <= List.length o)%nat.
Proof.
  unfold Comprehensive.generateAIRecommendations, Object_entries.
  induction o as [|[k s] o IH]; simpl; [lia|].
  rewrite length_app. destruct (lt s 60); simpl; lia.
Qed.

(** *** The key of the grouping step determines the principle *)

Lemma includes_char_append p c t :
  Comprehensive.includes_char (p ++ String c t) c = true.
Proof.
  induction p as [|c' p IH]; simpl.
  - now rewrite Ascii.eqb_refl.
  - rewrite IH. apply orb_true_r.
Qed.

Lemma priority_name_no_dash q :
  Comprehensive.includes_char (priority_name q) "-" = false.
Proof. destruct q; reflexivity. Qed.

Lemma key_principle p1 p2 q1 q2 :
  (p1 ++ "-" ++ priority_name q1 = p2 ++ "-" ++ priority_name q2)%string ->
  p1 = p2.
Proof.
  revert p2. induction p1 as [|c1 p1 IH]; intros [|c2 p2]; simpl; intros H.
  - reflexivity.
  - exfalso. injection H as _ H.
    pose proof (priority_name_no_dash q1) as N. rewrite H in N.
    change (String "-" (priority_name q2)) with
      ("-" ++ priority_name q2)%string in N.
    simpl in N. rewrite includes_char_append in N. discriminate.
  - exfalso. injection H as _ H.
    pose proof (priority_name_no_dash q2) as N. rewrite <- H in N.
    simpl in N. rewrite includes_char_append in N. discriminate.
  - injection H as -> H. f_equal. now apply IH.
Qed.

Lemma group_key_principle a b :
  Comprehensive.group_key a = Comprehensive.group_key b ->
  Comprehensive.principle a = Comprehensive.principle b.
Proof. unfold Comprehensive.group_key. apply key_principle. Qed.

Lemma NoDup_map_finer {T K1 K2} (f : T -> K1) (g : T -> K2) l :
  (forall a b, f a = f b -> g a = g b) ->
  NoDup (map g l) -> NoDup (map f l).
Proof.
  intros Hfg. induction l as [|x l IH]; simpl; intros H; [constructor|].
  inversion H as [|? ? Hx Hl]; subst. constructor; [|now apply IH].
  intros Hin. apply Hx. apply in_map_iff in Hin as (y & Hy & Hin).
  apply in_map_iff. exists y. split; [now apply Hfg | exact Hin].
Qed.

Lemma get_field_None {V} k (o : obj V) :
  ~ In k (Object_keys o) -> get_field k o = None.
Proof.
  induction o as [|[k' v] o IH]; simpl; intros H; [reflexivity|].
  destruct (String.eqb_spec k k') as [->|_]; [tauto|]. apply IH. tauto.
Qed.

Lemma group_distinct_acc recs acc :
  NoDup (map Comprehensive.group_key recs) ->
  (forall r, In r recs -> ~ In (Comprehensive.group_key r) (Object_keys acc)) ->
  fold_left
    (fun acc rec =>
       match get_field (Comprehensive.group_key rec) acc with
       | Some _ => acc
       | None => acc ++ [(Comprehensive.group_key rec, rec)]
       end)
    recs acc
  = acc ++ map (fun r => (Comprehensive.group_key r, r)) recs.
Proof.
  revert acc. induction recs as [|r recs IH]; simpl; intros acc Hnd Hacc.
  - now rewrite app_nil_r.
  - inversion Hnd as [|? ? Hr Hnd']; subst.
    rewrite get_field_None by (apply Hacc; now left).
    rewrite IH; [now rewrite <- app_assoc| exact Hnd' |].
    intros r' Hr' Hin. unfold Object_keys in Hin.
    rewrite map_app in Hin. apply in_app_or in Hin as [Hin|Hin].
    + apply (Hacc r'); [now right | exact Hin].
    + simpl in Hin. destruct Hin as [Hin|[]].
      apply Hr. rewrite Hin. now apply in_map.
Qed.

Lemma group_distinct recs :
  NoDup (map Comprehensive.group_key recs) ->
  Object_values (Comprehensive.group recs) = recs.
Proof.
  intros H. unfold Comprehensive.group.
  rewrite group_distinct_acc; [|exact H|intros ? ? []].
  simpl. unfold Object_values. rewrite map_map. simpl. apply map_id.
Qed.

(** *** The sort *)

Lemma by_priority_severity a b :
  (Comprehensive.by_priority a b <= 0)%Z <-> Spec.severity_order a b.
Proof.
  unfold Comprehensive.by_priority, Spec.severity_order.
  destruct (Comprehensive.priority a), (Comprehensive.priority b);
    simpl; lia.
Qed.

Lemma sort_insert_In {T} cmp (x y : T) l :
  In y (Comprehensive.sort_insert cmp x l) <-> y = x \/ In y l.
Proof.
  induction l as [|z l IH]; simpl.
  - intuition.
  - destruct (cmp x z <=? 0)%Z; simpl; [intuition|].
    rewrite IH. intuition.
Qed.

Lemma sort_insert_sorted x l :
  StronglySorted Spec.severity_order l ->
  StronglySorted Spec.severity_order
    (Comprehensive.sort_insert Comprehensive.by_priority x l).
Proof.
  induction 1 as [|y l Hl IH Hy]; simpl.
  - repeat constructor.
  - destruct (Z.leb_spec (Comprehensive.by_priority x y) 0) as [H|H].
    + apply by_priority_severity in H.
      constructor; [now constructor|].
      constructor; [exact H|].
      rewrite Forall_forall in *. intros z Hz.
      specialize (Hy z Hz). unfold Spec.severity_order in *. lia.
    + assert (Hyx : Spec.severity_order y x).
      { unfold Spec.severity_order.
        assert (~ Spec.severity_order x y) by (rewrite <- by_priority_severity; lia).
        unfold Spec.severity_order in *. lia. }
      constructor; [exact IH|].
      rewrite Forall_forall in *. intros z Hz.
      apply sort_insert_In in Hz as [->|Hz]; [exact Hyx | now apply Hy].
Qed.

Lemma Array_sort_sorted l :
  StronglySorted Spec.severity_order
    (Comprehensive.Array_sort Comprehensive.by_priority l).
Proof.
  induction l as [|x l IH]; simpl; [constructor|].
  now apply sort_insert_sorted.
Qed.

Lemma In_firstn {T} n (y : T) l : In y (firstn n l) -> In y l.
Proof.
  intros H. rewrite <- (firstn_skipn n l). apply in_or_app. now left.
Qed.

Lemma StronglySorted_firstn {T} (R : T -> T -> Prop) n l :
  StronglySorted R l -> StronglySorted R (firstn n l).
Proof.
  intros H. revert n. induction H as [|x l Hl IH Hx]; intros [|n]; simpl;
    try constructor.
  - apply IH.
  - rewrite Forall_forall in *. intros y Hy. apply Hx.
    now apply In_firstn in Hy.
Qed.

Lemma Priority_eqb_eq a b : Priority_eqb a b = true <-> a = b.
Proof. destruct a, b; simpl; split; congruence. Qed.

(** Stability: inserting keeps, within each priority, the order of
    [x :: l]. *)
Lemma sort_insert_stable q x l :
  Spec.of_priority q (Comprehensive.sort_insert Comprehensive.by_priority x l)
  = Spec.of_priority q (x :: l).
Proof.
  induction l as [|y l IH]; [reflexivity|].
  cbn [Comprehensive.sort_insert].
  destruct (Z.leb_spec (Comprehensive.by_priority x y) 0) as [H|H];
    [reflexivity|].
  unfold Spec.of_priority in *. cbn [filter] in *. rewrite IH.
  unfold Comprehensive.by_priority in H.
  destruct (Comprehensive.priority x), (Comprehensive.priority y), q;
    simpl in *; try reflexivity; lia.
Qed.

Lemma Array_sort_stable q l :
  Spec.of_priority q (Comprehensive.Array_sort Comprehensive.by_priority l)
  = Spec.of_priority q l.
Proof.
  induction l as [|x l IH]; [reflexivity|].
  cbn [Comprehensive.Array_sort]. rewrite sort_insert_stable.
  unfold Spec.of_priority in *. cbn [filter]. now rewrite IH.
Qed.

Lemma Array_sort_length {T} cmp (l : list T) :
  List.length (Comprehensive.Array_sort cmp l) = List.length l.
Proof.
  induction l as [|x l IH]; simpl; [reflexivity|].
  rewrite <- IH. generalize (Comprehensive.Array_sort cmp l) as s.
  induction s as [|y s IHs]; simpl; [reflexivity|].
  destruct (cmp x y <=? 0)%Z; simpl; [reflexivity|]. now rewrite IHs.
Qed.

Lemma generateAIRecommendations_keys o :
  NoDup (Object_keys o) ->
  NoDup (map Comprehensive.group_key
           (Comprehensive.generateAIRecommendations o)).
Proof.
  intros H.
  apply (NoDup_map_finer _ Comprehensive.principle);
    [exact group_key_principle|].
  rewrite generateAIRecommendations_order.
  revert H. unfold Object_keys.
  induction o as [|[k s] o IH]; simpl; intros H; [constructor|].
  inversion H as [|? ? Hk Ho]; subst.
  destruct (lt s 60); simpl; [|now apply IH].
  constructor; [|now apply IH].
  intros Hin. apply Hk. apply in_map_iff in Hin as (e & <- & He).
  apply in_map. now apply filter_In in He.
Qed.

(** C6 (as amended).  generateAIRecommendations lists its recommendations
    in the order in which the score map declares the principles, whatever
    their priorities.  The ordering by priority is the work of
    getTopRecommendations: its result is always in descending severity
    (Critical, then High, then Medium), and for the recommendations one
    analysis generates from a map of at most ten distinct principles, the
    recommendations of equal priority keep the declaration order. *)
Theorem recommendations_order :
  (forall o : obj number,
     map Comprehensive.principle (Comprehensive.generateAIRecommendations o)
     = map fst (filter (fun e => lt (snd e) 60) o))
  /\ (forall results,
        Spec.descending_severity
          (Comprehensive.getTopRecommendations results))
  /\ (forall (o : obj number) (r : Comprehensive.RunResult) (q : Priority),
        NoDup (Object_keys o) ->
        (List.length o <= 10)%nat ->
        Comprehensive.recommendations_of r
          = Comprehensive.generateAIRecommendations o ->
        Spec.of_priority q (Comprehensive.getTopRecommendations [r])
        = Spec.of_priority q (Comprehensive.generateAIRecommendations o)).
Proof.
  split; [exact generateAIRecommendations_order|]. split.
  - intros results. unfold Comprehensive.getTopRecommendations.
    apply StronglySorted_firstn. apply Array_sort_sorted.
  - intros o r q Hnd Hlen Hr.
    unfold Comprehensive.getTopRecommendations. cbn [flat_map].
    rewrite app_nil_r, Hr.
    rewrite group_distinct by now apply generateAIRecommendations_keys.
    rewrite firstn_all2.
    + apply Array_sort_stable.
    + rewrite Array_sort_length.
      pose proof (generateAIRecommendations_length o). lia.
Qed.

Lemma recommendations_order_witness :
  Spec.of_priority Medium
    (Comprehensive.getTopRecommendations
       [fst (Comprehensive.runCompleteAnalysis (Comprehensive.new_analyzer "t")
               Examples.inventory "standard_user")])
  = Spec.of_priority Medium
      (Comprehensive.generateAIRecommendations
         (Comprehensive.analyze_principles initial_principles
            Examples.inventory)).
Proof.
  destruct recommendations_order as (_ & _ & H).
  apply H.
  - exact principleNames_NoDup.
  - simpl. lia.
  - reflexivity.
Defined.

(** C6 as stated fails for generateAIRecommendations: with observability at
    55 (Medium) and controllability at 30 (Critical) the Medium entry comes
    first. *)
Lemma generated_list_not_by_severity :
  map (fun r => (Comprehensive.principle r, Comprehensive.priority r))
    (Comprehensive.generateAIRecommendations Examples.mixed_scores)
  = [("observability"%string, Medium); ("controllability"%string, Critical)]
  /\ ~ Spec.descending_severity
        (Comprehensive.generateAIRecommendations Examples.mixed_scores).
Proof.
  split; [reflexivity|].
  intros H. inversion H as [|a l _ Hall E]; subst.
  inversion Hall as [|b l' Hab _]; subst.
  unfold Spec.severity_order in Hab. simpl in Hab. lia.
Qed.

(** ** Incomplete score maps *)






(** ** Reports without a successful result *)

Lemma filter_none {T} (f : T -> bool) l :
  Forall (fun x => f x = false) l -> filter f l = [].
Proof.
  induction 1 as [|x l Hx _ IH]; simpl; [reflexivity|]. now rewrite Hx.
Qed.

(** C10.  When the error of every result is truthy (a non-empty message),
    each report generator returns its fixed message, whatever the renderer
    would do: generateComparisonReport "No successful assessments to
    report.", generateComprehensiveReport "No successful analyses to
    report." and generateAIReport "No successful AI assessments to
    report.". *)
Theorem report_without_successful_results :
  (forall render results,
     Forall (fun r => truthy (Quick.error_of r) = true) results ->
     Quick.generateComparisonReport render results
     = "No successful assessments to report."%string)
  /\ (forall render results,
        Forall (fun r => truthy (Comprehensive.error_of r) = true) results ->
        Comprehensive.generateComprehensiveReport render results
        = "No successful analyses to report."%string)
  /\ (forall render results,
        Forall (fun r => truthy (AI.error_of r) = true) results ->
        AI.generateAIReport render results
        = "No successful AI assessments to report."%string).
Proof.
  split; [|split]; intros render results H.
  - unfold Quick.generateComparisonReport. rewrite filter_none; [reflexivity|].
    eapply Forall_impl; [|exact H]. intros r Hr. simpl in Hr. now rewrite Hr.
  - unfold Comprehensive.generateComprehensiveReport.
    rewrite filter_none; [reflexivity|].
    eapply Forall_impl; [|exact H]. intros r Hr. simpl in Hr. now rewrite Hr.
  - unfold AI.generateAIReport. rewrite filter_none; [reflexivity|].
    eapply Forall_impl; [|exact H]. intros r Hr. simpl in Hr. now rewrite Hr.
Qed.

Lemma report_without_successful_results_witness :
  Quick.generateComparisonReport (fun _ => "report"%string)
    [Quick.Errored "locked_out_user" "Login failed"]
  = "No successful assessments to report."%string
  /\ Comprehensive.generateComprehensiveReport (fun _ => "report"%string)
       [Comprehensive.Errored "locked_out_user" "Login failed";
        Comprehensive.Errored "error_user" "Timeout 30000ms exceeded"]
     = "No successful analyses to report."%string
  /\ AI.generateAIReport (fun _ => "report"%string)
       [AI.Errored "locked_out_user" "Login failed"]
     = "No successful AI assessments to report."%string.
Proof.
  destruct report_without_successful_results as (H1 & H2 & H3).
  split; [|split].
  - apply H1. repeat constructor.
  - apply H2. repeat constructor.
  - apply H3. repeat constructor.
Defined.

(** ** The AI scorer's overall score *)

Lemma score_principles_five this page :
  AI.is_five_scored (AI.principleScores this) ->
  AI.principleScores (AI.score_principles this page)
  = AI.five_scored
      (AI.scoreAIObservability (AI.observability page))
      (AI.scoreAIControllability (AI.controllability page))
      (AI.scoreAIAlgorithmicSimplicity (AI.complexity page))
      AI.scoreAIExplainability AI.scoreAIDecomposability.
Proof.
  intros (o & c & s & e & d & H). unfold AI.score_principles. rewrite H.
  generalize (AI.scoreAIObservability (AI.observability page)).
  generalize (AI.scoreAIControllability (AI.controllability page)).
  generalize (AI.scoreAIAlgorithmicSimplicity (AI.complexity page)).
  generalize AI.scoreAIExplainability AI.scoreAIDecomposability.
  intros. reflexivity.
Qed.

(** The overall score is computed on an object that has values. *)
Lemma score_principles_has_values this page :
  Object_values (AI.principleScores (AI.score_principles this page)) <> [].
Proof.
  unfold AI.score_principles. cbn [AI.principleScores].
  intros H. apply map_eq_nil in H. now apply set_field_nonempty in H.
Qed.

Lemma generateAIInsights_scores this overall :
  AI.principleScores (AI.generateAIInsights this overall)
  = AI.principleScores this.
Proof. reflexivity. Qed.

Lemma ai_run_completed this page userType a this' :
  AI.runAIAssessment this page userType = (AI.Completed a, this') ->
  AI.a_principleScores a
    = AI.principleScores (AI.score_principles this page)
  /\ AI.overallScore a
     = AI.overallScore_of (AI.principleScores (AI.score_principles this page))
  /\ AI.grade a = AI.getAIGrade (AI.overallScore a)
  /\ this'
     = AI.generateAIInsights (AI.score_principles this page)
         (AI.overallScore a)
  /\ AI.recommendations a = AI.improvementSuggestions this'.
Proof.
  unfold AI.runAIAssessment.
  destruct (AI.login page) as [[|]|m]; try discriminate.
  destruct (AI.endDebugSession page); try discriminate.
  intros H. injection H as <- <-. repeat split; reflexivity.
Qed.

Lemma runAIAssessment_five this page userType :
  AI.is_five_scored (AI.principleScores this) ->
  AI.is_five_scored
    (AI.principleScores (snd (AI.runAIAssessment this page userType))).
Proof.
  intros H. unfold AI.runAIAssessment.
  destruct (AI.login page) as [[|]|m]; cbn [snd]; try exact H.
  destruct (AI.endDebugSession page); cbn [snd];
    rewrite generateAIInsights_scores, (score_principles_five this page H);
    unfold AI.is_five_scored; eauto 10.
Qed.

Lemma after_runs_five history : forall this,
  AI.is_five_scored (AI.principleScores this) ->
  AI.is_five_scored (AI.principleScores (AI.after_runs this history)).
Proof.
  unfold AI.after_runs.
  induction history as [|[page userType] history IH]; intros this H; simpl.
  - exact H.
  - apply IH. now apply runAIAssessment_five.
Qed.

Lemma overallScore_of_five o c s e d :
  AI.overallScore_of (AI.five_scored o c s e d)
  = Math_round ((o + c + s + e + d) / 10).
Proof.
  unfold AI.overallScore_of. apply Math_round_comp.
  unfold reduce_sum, AI.five_scored, Object_values. simpl.
  unfold num. simpl. field.
Qed.

Lemma Math_round_le x (n : Z) : x <= num n -> (Math_round x <= n)%Z.
Proof.
  intros H. unfold Math_round.
  assert (L : (Qfloor (x + (1 # 2)) <= Qfloor (num n + (1 # 2)))%Z)
    by (apply Qfloor_resp_le; lra).
  assert (E : Qfloor (num n + (1 # 2)) = n).
  { apply Math_round_unique; lra. }
  lia.
Qed.

(** C9.  On a scorer instance as the constructor makes it, after any
    earlier assessments, a completed AI assessment holds the five computed
    scores and 0 for the five principles the scorer never assesses; its
    overall score is the sum of the five computed scores divided by ten and
    rounded, and is at most 50 when each computed score is at most 100. *)
Theorem ai_overall_is_tenth_of_five
    (now : string) (history : list (AI.Page * string))
    (page : AI.Page) (userType : string) (a : AI.Assessment)
    (this' : AI.Scorer) :
  AI.runAIAssessment (AI.after_runs (AI.new_scorer now) history) page userType
    = (AI.Completed a, this') ->
  let o := AI.scoreAIObservability (AI.observability page) in
  let c := AI.scoreAIControllability (AI.controllability page) in
  let s := AI.scoreAIAlgorithmicSimplicity (AI.complexity page) in
  let e := AI.scoreAIExplainability in
  let d := AI.scoreAIDecomposability in
  AI.a_principleScores a = AI.five_scored o c s e d
  /\ AI.overallScore a = Math_round ((o + c + s + e + d) / 10)
  /\ (o <= 100 -> c <= 100 -> s <= 100 -> e <= 100 -> d <= 100 ->
      (AI.overallScore a <= 50)%Z).
Proof.
  intros Hrun o c s e d.
  assert (H5 : AI.is_five_scored
                 (AI.principleScores
                    (AI.after_runs (AI.new_scorer now) history))).
  { apply after_runs_five. exists 0, 0, 0, 0, 0. reflexivity. }
  destruct (ai_run_completed _ _ _ _ _ Hrun) as (Hp & Ho & _).
  rewrite Ho, Hp, (score_principles_five _ page H5).
  fold o c s e d. rewrite overallScore_of_five.
  split; [reflexivity|]. split; [reflexivity|].
  intros. apply Math_round_le. change (num 50) with 50.
  clearbody o c s e d. unfold Qdiv.
  setoid_replace (/ 10) with (1 # 10) by reflexivity. lra.
Qed.

Lemma ai_overall_is_tenth_of_five_witness :
  exists a this',
    AI.runAIAssessment
      (AI.after_runs (AI.new_scorer "t")
         [(Examples.ai_inventory, "problem_user"%string)])
      Examples.ai_inventory "standard_user"
    = (AI.Completed a, this')
    /\ AI.a_principleScores a = AI.five_scored 48 53 73 78 82
    /\ AI.overallScore a = 33%Z
    /\ (AI.overallScore a <= 50)%Z.
Proof.
  eexists. eexists. split; [reflexivity|].
  destruct (ai_overall_is_tenth_of_five "t"
              [(Examples.ai_inventory, "problem_user"%string)]
              Examples.ai_inventory "standard_user" _ _ eq_refl)
    as (H1 & H2 & H3).
  split; [reflexivity|]. split; [reflexivity|].
  apply H3; vm_compute; discriminate.
Defined.

(** ** Repeating an assessment *)

Lemma analyze_principles_fresh o page :
  Object_keys o = principleNames ->
  Comprehensive.analyze_principles o page
  = Comprehensive.analyze_principles initial_principles page.
Proof.
  unfold Object_keys, principleNames. intros H.
  do 10 (destruct o as [|[? ?] o]; [discriminate|];
         cbn [map fst] in H; injection H as -> H).
  destruct o; [|discriminate].
  unfold Comprehensive.analyze_principles.
  generalize (Comprehensive.analyzeObservability
                (Comprehensive.observability page)).
  generalize (Comprehensive.analyzeControllability
                (Comprehensive.controllability page)).
  generalize (Comprehensive.analyzeAlgorithmicSimplicity
                (Comprehensive.algorithmicSimplicity page)).
  generalize (Comprehensive.analyzeAlgorithmicTransparency
                (Comprehensive.algorithmicTransparency page)).
  generalize (Comprehensive.analyzeAlgorithmicStability
                (Comprehensive.algorithmicStability page)).
  generalize (Comprehensive.analyzeExplainability
                (Comprehensive.explainability page)).
  generalize (Comprehensive.analyzeUnbugginess
                (Comprehensive.unbugginess page)).
  generalize (Comprehensive.analyzeSmallness (Comprehensive.smallness page)).
  generalize (Comprehensive.analyzeDecomposability
                (Comprehensive.decomposability page)).
  generalize (Comprehensive.analyzeSimilarity (Comprehensive.similarity page)).
  intros. reflexivity.
Qed.

(** Each principle's score is a function of that principle's observations
    alone. *)
Lemma analyze_principles_scores page :
  Comprehensive.analyze_principles initial_principles page
  = combine principleNames (Comprehensive.principle_scores page).
Proof.
  unfold Comprehensive.analyze_principles, Comprehensive.principle_scores.
  generalize (Comprehensive.analyzeObservability
                (Comprehensive.observability page)).
  generalize (Comprehensive.analyzeControllability
                (Comprehensive.controllability page)).
  generalize (Comprehensive.analyzeAlgorithmicSimplicity
                (Comprehensive.algorithmicSimplicity page)).
  generalize (Comprehensive.analyzeAlgorithmicTransparency
                (Comprehensive.algorithmicTransparency page)).
  generalize (Comprehensive.analyzeAlgorithmicStability
                (Comprehensive.algorithmicStability page)).
  generalize (Comprehensive.analyzeExplainability
                (Comprehensive.explainability page)).
  generalize (Comprehensive.analyzeUnbugginess
                (Comprehensive.unbugginess page)).
  generalize (Comprehensive.analyzeSmallness (Comprehensive.smallness page)).
  generalize (Comprehensive.analyzeDecomposability
                (Comprehensive.decomposability page)).
  generalize (Comprehensive.analyzeSimilarity (Comprehensive.similarity page)).
  intros. reflexivity.
Qed.

Lemma analyze_principles_names o page :
  Object_keys o = principleNames ->
  Object_keys (Comprehensive.analyze_principles o page) = principleNames.
Proof.
  intros H. rewrite (analyze_principles_fresh o page H).
  rewrite analyze_principles_scores. reflexivity.
Qed.

(** The comprehensive analyzer starts from a fresh list on every call: on an
    instance made by its constructor, a second analysis of the same page
    observations returns what the first returned. *)
Lemma comprehensive_run_is_repeatable this page userType r this' :
  Object_keys (Comprehensive.principles this) = principleNames ->
  Comprehensive.runCompleteAnalysis this page userType = (r, this') ->
  Comprehensive.runCompleteAnalysis this' page userType = (r, this').
Proof.
  intros Hk. unfold Comprehensive.runCompleteAnalysis. cbv zeta.
  destruct (Comprehensive.login page) as [[|]|m].
  - destruct (Comprehensive.endDebugSession page);
      intros H; injection H as <- <-; cbn [Comprehensive.principles
        Comprehensive.timestamp];
      rewrite (analyze_principles_fresh
                 (Comprehensive.analyze_principles _ page) page)
        by (now apply analyze_principles_names);
      rewrite (analyze_principles_fresh _ page Hk); reflexivity.
  - intros H. injection H as <- <-. reflexivity.
  - intros H. injection H as <- <-. reflexivity.
Qed.

Lemma generateAIInsights_appends this overall :
  exists fresh,
    AI.improvementSuggestions (AI.generateAIInsights this overall)
    = AI.improvementSuggestions this ++ fresh
    /\ (AI.score_below this "observability" 70 = true -> fresh <> []).
Proof.
  unfold AI.generateAIInsights. cbn [AI.improvementSuggestions].
  eexists. split.
  - rewrite <- !app_assoc. reflexivity.
  - intros ->. discriminate.
Qed.

(** C8 fails for the AI scorer.  Two assessments of the same page
    observations on one scorer instance agree on the principle scores, the
    overall score and the grade, but the second returns every suggestion
    twice: generateAIInsights pushes onto the instance's
    improvementSuggestions array and nothing empties it.  The array is the
    one the first result holds, so after the second run it reads as the
    second result's list. *)
Theorem ai_second_run_repeats_suggestions :
  exists a1 s1 a2 s2,
    AI.runAIAssessment (AI.new_scorer "t") Examples.ai_inventory
      "standard_user" = (AI.Completed a1, s1)
    /\ AI.runAIAssessment s1 Examples.ai_inventory "standard_user"
       = (AI.Completed a2, s2)
    /\ AI.a_principleScores a2 = AI.a_principleScores a1
    /\ AI.overallScore a2 = AI.overallScore a1
    /\ AI.grade a2 = AI.grade a1
    /\ map AI.principle (AI.recommendations a1)
       = ["Observability"; "Controllability"]%string
    /\ AI.recommendations a2
       = AI.recommendations a1 ++ AI.recommendations a1
    /\ AI.recommendations a2 <> AI.recommendations a1
    /\ AI.improvementSuggestions s2 = AI.recommendations a2.
Proof.
  do 4 eexists.
  split; [reflexivity|]. split; [reflexivity|].
  split; [vm_compute; reflexivity|].
  split; [vm_compute; reflexivity|].
  split; [vm_compute; reflexivity|].
  split; [vm_compute; reflexivity|].
  split; [vm_compute; reflexivity|].
  split; [vm_compute; discriminate|].
  vm_compute; reflexivity.
Qed.

(** ** Principle scores stay in range *)

Lemma Qplus_nonneg a b : 0 <= a -> 0 <= b -> 0 <= a + b.
Proof. intros; lra. Qed.

Lemma Qdiv_nonneg a b : 0 <= a -> 0 <= b -> 0 <= a / b.
Proof.
  intros Ha Hb. unfold Qdiv. apply Qmult_le_0_compat; [exact Ha|].
  now apply Qinv_le_0_compat.
Qed.

(** Proves [0 <= e] for a score expression [e] built from counts known to
    be non-negative. *)
Ltac nonneg :=
  lazymatch goal with
  | |- 0 <= ?a + ?b => apply Qplus_nonneg; nonneg
  | |- 0 <= ?a * ?b => apply Qmult_le_0_compat; nonneg
  | |- 0 <= ?a / ?b => apply Qdiv_nonneg; nonneg
  | |- 0 <= num (Math_floor _) => apply Math_floor_nonneg; nonneg
  | |- 0 <= num _ => apply num_nonneg; lia
  | |- 0 <= (if ?c then _ else _) => destruct c; nonneg
  | |- 0 <= Math_min _ _ => apply Math_min_glb; nonneg
  | |- 0 <= Math_max 0 _ => apply Math_max_ge_l
  | |- 0 <= try_catch ?c _ => destruct c; cbn [try_catch]; nonneg
  | |- _ => lra
  end.

(** Replaces every [Math.min(cap, e)] by a number known to be at most
    [cap]. *)
Ltac cap_mins :=
  repeat match goal with
  | |- context [Math_min ?a ?b] =>
      let m := fresh "m" in
      pose proof (Math_min_le_l a b);
      set (m := Math_min a b) in *; clearbody m
  end.

Ltac split_ifs :=
  repeat match goal with
  | |- context [if ?c then _ else _] => destruct c
  end.

Ltac conjs :=
  repeat match goal with H : _ /\ _ |- _ => destruct H end.

Ltac in_range_tac :=
  cbn [bind try_catch nonneg] in *; conjs;
  unfold Spec.in_range; split; [nonneg | cap_mins; split_ifs; lra].

(** Runs the awaited queries of an analyzer body in order; a rejected query
    leaves the handler's constant. *)
Ltac run_binds :=
  repeat match goal with
  | |- context [bind ?c _] =>
      destruct c; cbn [bind try_catch nonneg] in *;
      [| solve [in_range_tac]]
  end.

Lemma analyzeObservability_range v :
  Comprehensive.nonneg_observability v ->
  Spec.in_range (Comprehensive.analyzeObservability v).
Proof.
  unfold Comprehensive.nonneg_observability,
    Comprehensive.analyzeObservability.
  intros H. run_binds.
  destruct (Comprehensive.obs_session v); in_range_tac.
Qed.

Lemma probe_input_range f :
  0 <= Comprehensive.probe_input f /\ Comprehensive.probe_input f <= 30.
Proof.
  unfold Comprehensive.probe_input.
  destruct (Comprehensive.fill f); cbn [bind try_catch]; [|split; lra].
  destruct (Comprehensive.inputValue_is_testValue f) as [[|]|];
    cbn [bind try_catch]; [| |split; lra];
    destruct (Comprehensive.clear f); cbn [bind try_catch]; split; lra.
Qed.

Lemma analyzeControllability_range v :
  Comprehensive.nonneg_controllability v ->
  Spec.in_range (Comprehensive.analyzeControllability v).
Proof.
  unfold Comprehensive.nonneg_controllability,
    Comprehensive.analyzeControllability.
  intros H.
  destruct (Comprehensive.ctl_inputFields v) as [fields|];
    cbn [bind try_catch]; [|in_range_tac].
  assert (Hp : 0 <= match fields with
                    | testField :: _ => Comprehensive.probe_input testField
                    | [] => 0
                    end
               /\ match fields with
                  | testField :: _ => Comprehensive.probe_input testField
                  | [] => 0
                  end <= 30).
  { destruct fields; [split; lra | apply probe_input_range]. }
  destruct Hp as [Hp0 Hp30].
  set (inputScore := match fields with
                     | testField :: _ => Comprehensive.probe_input testField
                     | [] => 0
                     end) in *.
  clearbody inputScore.
  run_binds. in_range_tac.
Qed.

Lemma analyzeAlgorithmicSimplicity_range v :
  Comprehensive.nonneg_simplicity v ->
  Spec.in_range (Comprehensive.analyzeAlgorithmicSimplicity v).
Proof.
  unfold Comprehensive.nonneg_simplicity,
    Comprehensive.analyzeAlgorithmicSimplicity.
  intros H. run_binds. in_range_tac.
Qed.

Lemma analyzeAlgorithmicTransparency_range v :
  Comprehensive.nonneg_transparency v ->
  Spec.in_range (Comprehensive.analyzeAlgorithmicTransparency v).
Proof.
  unfold Comprehensive.nonneg_transparency,
    Comprehensive.analyzeAlgorithmicTransparency.
  intros H. run_binds. in_range_tac.
Qed.

Lemma testId_quality_nonneg acc ids :
  0 <= acc ->
  0 <= fold_left (fun qualityScore testId =>
                    qualityScore + Comprehensive.testId_quality testId)
         ids acc.
Proof.
  revert acc. induction ids as [|id ids IH]; intros acc H; simpl; [exact H|].
  apply IH. unfold Comprehensive.testId_quality.
  destruct (_ || _), (_ <? _)%nat; lra.
Qed.

Lemma dataTestQuality_range ids :
  0 <= Comprehensive.dataTestQuality ids
  /\ Comprehensive.dataTestQuality ids <= 35.
Proof.
  unfold Comprehensive.dataTestQuality. split.
  - apply Math_min_glb; [lra|]. apply testId_quality_nonneg. lra.
  - apply Math_min_le_l.
Qed.

Lemma analyzeAlgorithmicStability_range v :
  Comprehensive.nonneg_stability v ->
  Spec.in_range (Comprehensive.analyzeAlgorithmicStability v).
Proof.
  unfold Comprehensive.nonneg_stability,
    Comprehensive.analyzeAlgorithmicStability.
  intros H. run_binds.
  match goal with
  | |- context [Comprehensive.dataTestQuality ?ids] =>
      destruct (dataTestQuality_range ids);
      set (quality := Comprehensive.dataTestQuality ids) in *;
      clearbody quality
  end.
  in_range_tac.
Qed.

Lemma analyzeExplainability_range v :
  Comprehensive.nonneg_explainability v ->
  Spec.in_range (Comprehensive.analyzeExplainability v).
Proof.
  unfold Comprehensive.nonneg_explainability,
    Comprehensive.analyzeExplainability.
  intros H. run_binds. in_range_tac.
Qed.

Lemma analyzeUnbugginess_range v :
  Comprehensive.nonneg_unbugginess v ->
  Spec.in_range (Comprehensive.analyzeUnbugginess v).
Proof.
  unfold Comprehensive.nonneg_unbugginess, Comprehensive.analyzeUnbugginess.
  intros H. run_binds. conjs. unfold Spec.in_range.
  split; [apply Math_max_ge_l|]. apply Math_max_lub; [lra|].
  match goal with
  | |- context [Math_min 40 ?d] =>
      assert (0 <= Math_min 40 d) by nonneg
  end.
  match goal with
  | |- context [Math_min 25 ?d] =>
      assert (0 <= Math_min 25 d) by nonneg
  end.
  cap_mins. split_ifs; lra.
Qed.

Lemma analyzeSmallness_range v :
  Comprehensive.nonneg_smallness v ->
  Spec.in_range (Comprehensive.analyzeSmallness v).
Proof.
  unfold Comprehensive.nonneg_smallness, Comprehensive.analyzeSmallness.
  intros H. run_binds. in_range_tac.
Qed.

Lemma analyzeDecomposability_range v :
  Comprehensive.nonneg_decomposability v ->
  Spec.in_range (Comprehensive.analyzeDecomposability v).
Proof.
  unfold Comprehensive.nonneg_decomposability,
    Comprehensive.analyzeDecomposability.
  intros H. run_binds. in_range_tac.
Qed.

Lemma analyzeSimilarity_range v :
  Comprehensive.nonneg_similarity v ->
  Spec.in_range (Comprehensive.analyzeSimilarity v).
Proof.
  unfold Comprehensive.nonneg_similarity, Comprehensive.analyzeSimilarity.
  intros H. run_binds. in_range_tac.
Qed.

(** *** The AI scorer: every sub-score stays within its budget *)

Ltac bounds := in_range_tac.

Lemma analyzeDataTestAttributes_range els :
  0 <= AI.analyzeDataTestAttributes els
  /\ AI.analyzeDataTestAttributes els <= 30.
Proof.
  unfold AI.analyzeDataTestAttributes.
  destruct els as [|el els]; [split; lra|].
  split; [nonneg | apply Math_min_le_l].
Qed.

Lemma analyzeStateCapture_range evaluate :
  0 <= AI.analyzeStateCapture evaluate
  /\ AI.analyzeStateCapture evaluate <= 25.
Proof. unfold AI.analyzeStateCapture. run_binds. bounds. Qed.

Lemma analyzeErrorVisibility_range v smartElements :
  0 <= AI.analyzeErrorVisibility v smartElements
  /\ AI.analyzeErrorVisibility v smartElements <= 20.
Proof. unfold AI.analyzeErrorVisibility. run_binds. bounds. Qed.

Lemma analyzeVisualCapabilities_range v :
  0 <= AI.analyzeVisualCapabilities v
  /\ AI.analyzeVisualCapabilities v <= 15.
Proof. unfold AI.analyzeVisualCapabilities. run_binds. bounds. Qed.

Lemma analyzeNetworkMonitoring_range session :
  0 <= AI.analyzeNetworkMonitoring session
  /\ AI.analyzeNetworkMonitoring session <= 10.
Proof.
  unfold AI.analyzeNetworkMonitoring.
  destruct session as [[requests|]|]; cbn [bind try_catch]; bounds.
Qed.

Lemma calculateIntelligenceBonus_range insights :
  0 <= AI.calculateIntelligenceBonus insights
  /\ AI.calculateIntelligenceBonus insights <= 5.
Proof. unfold AI.calculateIntelligenceBonus. bounds. Qed.

Lemma scoreAIObservability_range v :
  Spec.in_range (AI.scoreAIObservability v).
Proof.
  unfold AI.scoreAIObservability. cbn [try_catch].
  set (smartElements := AI.discoverSmartElements (AI.obs_smart v)).
  destruct (analyzeDataTestAttributes_range (AI.dataTest smartElements)).
  destruct (analyzeStateCapture_range (AI.obs_state v)).
  destruct (analyzeErrorVisibility_range (AI.obs_errors v) smartElements).
  destruct (analyzeVisualCapabilities_range (AI.obs_visual v)).
  destruct (analyzeNetworkMonitoring_range (AI.obs_session v)).
  destruct (calculateIntelligenceBonus_range smartElements).
  split; [|apply Math_min_le_l].
  apply Math_min_glb; lra.
Qed.

Lemma analyzeInputPrecision_range v :
  0 <= AI.analyzeInputPrecision v /\ AI.analyzeInputPrecision v <= 30.
Proof.
  unfold AI.analyzeInputPrecision.
  destruct (AI.ip_inputs v) as [[|testInput rest]|]; cbn [bind try_catch];
    [| |split; lra].
  - run_binds. bounds.
  - destruct (AI.fill testInput); cbn [bind try_catch]; [|split; lra].
    destruct (AI.inputValue testInput) as [actualValue|];
      cbn [bind try_catch]; [|split; lra].
    destruct (AI.clear testInput); cbn [bind try_catch]; [|split; lra].
    run_binds. bounds.
Qed.

Lemma analyzeStateControl_range v patterns :
  0 <= AI.analyzeStateControl v patterns
  /\ AI.analyzeStateControl v patterns <= 25.
Proof. unfold AI.analyzeStateControl. run_binds. bounds. Qed.

Lemma analyzeDeterminism_range v :
  0 <= AI.analyzeDeterminism v /\ AI.analyzeDeterminism v <= 20.
Proof. unfold AI.analyzeDeterminism. run_binds. bounds. Qed.

Lemma scoreAIControllability_range v :
  Spec.in_range (AI.scoreAIControllability v).
Proof.
  unfold AI.scoreAIControllability.
  destruct (AI.analyzeInteractionPatterns (AI.ctl_patterns v))
    as [interactionPatterns|]; cbn [bind try_catch];
    [|unfold Spec.in_range; split; lra].
  destruct (analyzeInputPrecision_range (AI.ctl_input v)).
  destruct (analyzeStateControl_range (AI.ctl_state v) interactionPatterns).
  destruct (analyzeDeterminism_range (AI.ctl_determinism v)).
  unfold AI.analyzeInteractionReliability,
    AI.analyzeAccessibilityIntegration, Spec.in_range.
  split; lra.
Qed.

Lemma analyzeDOMComplexity_range metrics :
  0 <= AI.analyzeDOMComplexity metrics
  /\ AI.analyzeDOMComplexity metrics <= 40.
Proof.
  unfold AI.analyzeDOMComplexity. cbv zeta.
  split; [apply Math_max_ge_l|]. apply Math_max_lub; [lra|].
  split_ifs; lra.
Qed.

Lemma analyzePredictability_range metrics :
  0 <= AI.analyzePredictability metrics
  /\ AI.analyzePredictability metrics <= 10.
Proof.
  unfold AI.analyzePredictability. cbv zeta.
  split; [apply Math_max_ge_l|]. apply Math_max_lub; [lra|].
  split_ifs; lra.
Qed.

Lemma scoreAIAlgorithmicSimplicity_range evaluate :
  Spec.in_range (AI.scoreAIAlgorithmicSimplicity evaluate).
Proof.
  unfold AI.scoreAIAlgorithmicSimplicity. cbn [try_catch].
  destruct (analyzeDOMComplexity_range (AI.analyzeComplexity evaluate)).
  destruct (analyzePredictability_range (AI.analyzeComplexity evaluate)).
  unfold AI.analyzeInteractionPatternSimplicity, AI.analyzeSemanticStructure,
    Spec.in_range.
  split; lra.
Qed.

Lemma scoreAIExplainability_value : AI.scoreAIExplainability == 78.
Proof. reflexivity. Qed.

Lemma scoreAIDecomposability_value : AI.scoreAIDecomposability == 82.
Proof. reflexivity. Qed.

(** *** The quick scorer *)

Ltac quick_binds :=
  repeat match goal with
  | |- context [bind ?c _] =>
      destruct c; cbn [bind nonneg Spec.resolves_in_range] in *;
      [| exact I]
  end.

Lemma quick_scores_range page :
  Quick.nonneg_counts page ->
  Forall Spec.resolves_in_range (Quick.principle_scores page).
Proof.
  intros (H1 & H2 & H3 & H4 & H5). unfold Quick.principle_scores.
  repeat apply Forall_cons; try apply Forall_nil.
  - unfold Quick.scoreObservability. quick_binds. in_range_tac.
  - unfold Quick.scoreControllability. quick_binds. in_range_tac.
  - unfold Quick.scoreAlgorithmicSimplicity. quick_binds. in_range_tac.
  - unfold Quick.scoreExplainability. quick_binds. in_range_tac.
  - unfold Quick.scoreDecomposability. quick_binds. in_range_tac.
Qed.

Lemma principle_scores_range page :
  Comprehensive.nonneg_counts page ->
  Forall Spec.in_range (Comprehensive.principle_scores page).
Proof.
  intros (H1 & H2 & H3 & H4 & H5 & H6 & H7 & H8 & H9 & H10).
  unfold Comprehensive.principle_scores.
  repeat apply Forall_cons; try apply Forall_nil.
  - now apply analyzeObservability_range.
  - now apply analyzeControllability_range.
  - now apply analyzeAlgorithmicSimplicity_range.
  - now apply analyzeAlgorithmicTransparency_range.
  - now apply analyzeAlgorithmicStability_range.
  - now apply analyzeExplainability_range.
  - now apply analyzeUnbugginess_range.
  - now apply analyzeSmallness_range.
  - now apply analyzeDecomposability_range.
  - now apply analyzeSimilarity_range.
Qed.

Lemma values_combine_names (scores : list number) :
  List.length scores = 10%nat ->
  Object_values (combine principleNames scores) = scores.
Proof.
  intros H. do 10 (destruct scores as [|? scores]; [discriminate|]).
  destruct scores; [reflexivity | discriminate].
Qed.

(** C3 (as amended).  When every count the page reports is non-negative,
    each of the ten principle scores of the comprehensive analyzer lies in
    [0, 100], and so does every principle score in the assessment a run
    returns.  Each of the five principle scores of the AI scorer lies in
    [0, 100] for every observation set.  Each of the five scores of the
    quick scorer that resolves lies in [0, 100] when the counts are
    non-negative. *)
Theorem principle_scores_in_range :
  (forall page,
     Comprehensive.nonneg_counts page ->
     Forall Spec.in_range (Comprehensive.principle_scores page))
  /\ (forall this page userType a this',
        Comprehensive.nonneg_counts page ->
        Object_keys (Comprehensive.principles this) = principleNames ->
        Comprehensive.runCompleteAnalysis this page userType
          = (Comprehensive.Completed a, this') ->
        Forall Spec.in_range
          (Object_values (Comprehensive.principleScores a)))
  /\ (forall page : AI.Page, Forall Spec.in_range (AI.principle_scores page))
  /\ (forall page,
        Quick.nonneg_counts page ->
        Forall Spec.resolves_in_range (Quick.principle_scores page)).
Proof.
  split; [exact principle_scores_range|].
  split; [|split; [|exact quick_scores_range]].
  - intros this page userType a this' Hn Hk Hrun.
    destruct (run_completed _ _ _ _ _ Hrun) as (Hp & _).
    rewrite Hp, (analyze_principles_fresh _ page Hk),
      analyze_principles_scores, values_combine_names by reflexivity.
    now apply principle_scores_range.
  - intros page. unfold AI.principle_scores.
    repeat apply Forall_cons; try apply Forall_nil.
    + apply scoreAIObservability_range.
    + apply scoreAIControllability_range.
    + apply scoreAIAlgorithmicSimplicity_range.
    + split; vm_compute; discriminate.
    + split; vm_compute; discriminate.
Qed.

Lemma inventory_nonneg : Comprehensive.nonneg_counts Examples.inventory.
Proof.
  vm_compute. repeat split; try exact I; discriminate.
Qed.

Lemma principle_scores_in_range_witness :
  Forall Spec.in_range (Comprehensive.principle_scores Examples.inventory)
  /\ Forall Spec.resolves_in_range
       (Quick.principle_scores Examples.quick_inventory)
  /\ exists a,
       fst (Comprehensive.runCompleteAnalysis (Comprehensive.new_analyzer "t")
              Examples.inventory "standard_user")
         = Comprehensive.Completed a
       /\ Forall Spec.in_range
            (Object_values (Comprehensive.principleScores a)).
Proof.
  destruct principle_scores_in_range as (H1 & H2 & _ & H4).
  split; [|split].
  - apply H1. exact inventory_nonneg.
  - apply H4. vm_compute. repeat split; discriminate.
  - eexists. split; [reflexivity|].
    eapply (H2 (Comprehensive.new_analyzer "t") Examples.inventory
              "standard_user"%string).
    + exact inventory_nonneg.
    + reflexivity.
    + reflexivity.
Defined.

(** C3 as stated fails for negative counts: a count of -100 interactive
    elements gives a controllability score of -175, and -20 script errors
    give an unbugginess score of 200. *)
Lemma negative_counts_leave_range :
  Comprehensive.analyzeControllability Examples.negative_interactive == -175
  /\ ~ Spec.in_range
       (Comprehensive.analyzeControllability Examples.negative_interactive)
  /\ Comprehensive.analyzeUnbugginess Examples.negative_errors == 200
  /\ ~ Spec.in_range
       (Comprehensive.analyzeUnbugginess Examples.negative_errors).
Proof.
  split; [reflexivity|]. split.
  - intros [H _]. vm_compute in H. now apply H.
  - split; [reflexivity|]. intros [_ H]. vm_compute in H. now apply H.
Qed.

(** ** Failing observations *)






















(** * Further properties of the code *)

(** ** The AI scorer's assessment *)

Lemma Math_round_ge x (n : Z) : num n <= x -> (n <= Math_round x)%Z.
Proof.
  intros H. unfold Math_round.
  assert (L : (Qfloor (num n + (1 # 2)) <= Qfloor (x + (1 # 2)))%Z)
    by (apply Qfloor_resp_le; lra).
  assert (E : Qfloor (num n + (1 # 2)) = n).
  { apply Math_round_unique; lra. }
  lia.
Qed.

Lemma scoreAIControllability_tight v :
  18 <= AI.scoreAIControllability v /\ AI.scoreAIControllability v <= 93.
Proof.
  unfold AI.scoreAIControllability.
  destruct (AI.analyzeInteractionPatterns (AI.ctl_patterns v))
    as [interactionPatterns|]; cbn [bind try_catch]; [|split; lra].
  destruct (analyzeInputPrecision_range (AI.ctl_input v)).
  destruct (analyzeStateControl_range (AI.ctl_state v) interactionPatterns).
  destruct (analyzeDeterminism_range (AI.ctl_determinism v)).
  unfold AI.analyzeInteractionReliability, AI.analyzeAccessibilityIntegration.
  split; lra.
Qed.

Lemma scoreAIAlgorithmicSimplicity_tight evaluate :
  35 <= AI.scoreAIAlgorithmicSimplicity evaluate
  /\ AI.scoreAIAlgorithmicSimplicity evaluate <= 85.
Proof.
  unfold AI.scoreAIAlgorithmicSimplicity. cbn [try_catch].
  destruct (analyzeDOMComplexity_range (AI.analyzeComplexity evaluate)).
  destruct (analyzePredictability_range (AI.analyzeComplexity evaluate)).
  unfold AI.analyzeInteractionPatternSimplicity, AI.analyzeSemanticStructure.
  split; lra.
Qed.

Lemma ai_overall_is_tenth_of_five_core
    (now : string) (history : list (AI.Page * string))
    (page : AI.Page) (userType : string) (a : AI.Assessment)
    (this' : AI.Scorer) :
  AI.runAIAssessment (AI.after_runs (AI.new_scorer now) history) page userType
    = (AI.Completed a, this') ->
  AI.a_principleScores a
  = AI.five_scored
      (AI.scoreAIObservability (AI.observability page))
      (AI.scoreAIControllability (AI.controllability page))
      (AI.scoreAIAlgorithmicSimplicity (AI.complexity page))
      AI.scoreAIExplainability AI.scoreAIDecomposability
  /\ AI.overallScore a
     = Math_round
         ((AI.scoreAIObservability (AI.observability page)
           + AI.scoreAIControllability (AI.controllability page)
           + AI.scoreAIAlgorithmicSimplicity (AI.complexity page)
           + AI.scoreAIExplainability + AI.scoreAIDecomposability) / 10).
Proof.
  intros Hrun.
  assert (H5 : AI.is_five_scored
                 (AI.principleScores
                    (AI.after_runs (AI.new_scorer now) history))).
  { apply after_runs_five. exists 0, 0, 0, 0, 0. reflexivity. }
  destruct (ai_run_completed _ _ _ _ _ Hrun) as (Hp & Ho & _).
  rewrite Ho, Hp, (score_principles_five _ page H5).
  rewrite overallScore_of_five. split; reflexivity.
Qed.

Lemma get_field_five o c s e d :
  get_field "observability" (AI.five_scored o c s e d) = Some o
  /\ get_field "controllability" (AI.five_scored o c s e d) = Some c
  /\ get_field "algorithmicSimplicity" (AI.five_scored o c s e d) = Some s
  /\ get_field "explainability" (AI.five_scored o c s e d) = Some e.
Proof. repeat split; reflexivity. Qed.

Lemma ai_overall_range
    (now : string) (history : list (AI.Page * string))
    (page : AI.Page) (userType : string) (a : AI.Assessment)
    (this' : AI.Scorer) :
  AI.runAIAssessment (AI.after_runs (AI.new_scorer now) history) page userType
    = (AI.Completed a, this') ->
  (21 <= AI.overallScore a <= 44)%Z.
Proof.
  intros Hrun.
  destruct (ai_overall_is_tenth_of_five_core now history page userType a this'
              Hrun) as (_ & Ho).
  destruct (scoreAIObservability_range (AI.observability page)) as [Ho0 Ho1].
  destruct (scoreAIControllability_tight (AI.controllability page))
    as [Hc0 Hc1].
  destruct (scoreAIAlgorithmicSimplicity_tight (AI.complexity page))
    as [Hs0 Hs1].
  assert (He : AI.scoreAIExplainability == 78) by reflexivity.
  assert (Hd : AI.scoreAIDecomposability == 82) by reflexivity.
  rewrite Ho. split.
  - apply Math_round_ge. change (num 21) with 21. unfold Qdiv.
    setoid_replace (/ 10) with (1 # 10) by reflexivity. lra.
  - apply Math_round_le. change (num 44) with 44. unfold Qdiv.
    setoid_replace (/ 10) with (1 # 10) by reflexivity. lra.
Qed.

(** The AI scorer cannot pass anything: five of the ten averaged fields are
    never assessed and two of the assessed ones are constants, so a
    completed assessment on a constructor-made instance has an overall score
    between 21 and 44, the grade F, and the predictive analysis at its
    lowest values. *)
Theorem ai_assessment_always_grade_F
    (now : string) (history : list (AI.Page * string))
    (page : AI.Page) (userType : string) (a : AI.Assessment)
    (this' : AI.Scorer) :
  AI.runAIAssessment (AI.after_runs (AI.new_scorer now) history) page userType
    = (AI.Completed a, this') ->
  (21 <= AI.overallScore a <= 44)%Z
  /\ AI.grade a = "F (Not AI-Ready)"%string
  /\ exists p,
       AI.predictiveAnalysis this' = Some p
       /\ AI.testMaintainability p = "Low"%string
       /\ AI.aiTestingReadiness p
          = "Needs improvement for AI testing"%string.
Proof.
  intros Hrun.
  destruct (ai_run_completed _ _ _ _ _ Hrun) as (_ & _ & Hg & Ht & _).
  pose proof (ai_overall_range now history page userType a this' Hrun)
    as Hrange.
  split; [exact Hrange|]. split.
  - rewrite Hg. unfold AI.getAIGrade.
    repeat match goal with
    | |- context [(?n <=? ?x)%Z] =>
        destruct (Z.leb_spec n x); [lia|]
    end.
    reflexivity.
  - rewrite Ht. unfold AI.generateAIInsights.
    cbn [AI.predictiveAnalysis]. eexists. split; [reflexivity|].
    cbn [AI.testMaintainability AI.aiTestingReadiness].
    repeat match goal with
    | |- context [(?x >? ?n)%Z] =>
        destruct (Z.gtb_spec x n); [lia|]
    end.
    split; reflexivity.
Qed.

Lemma ai_assessment_always_grade_F_witness :
  exists a this',
    AI.runAIAssessment (AI.after_runs (AI.new_scorer "t") [])
      Examples.ai_inventory "standard_user" = (AI.Completed a, this')
    /\ AI.overallScore a = 33%Z
    /\ AI.grade a = "F (Not AI-Ready)"%string.
Proof.
  do 2 eexists. split; [reflexivity|]. split; [reflexivity|].
  eapply (ai_assessment_always_grade_F "t" [] Examples.ai_inventory
            "standard_user"%string).
  reflexivity.
Defined.

Lemma generateAIInsights_prefix this overall :
  exists fresh,
    AI.improvementSuggestions (AI.generateAIInsights this overall)
    = AI.improvementSuggestions this ++ fresh.
Proof.
  unfold AI.generateAIInsights. cbn [AI.improvementSuggestions].
  eexists. rewrite <- !app_assoc. reflexivity.
Qed.

Lemma runAIAssessment_prefix this page userType :
  exists fresh,
    AI.improvementSuggestions (snd (AI.runAIAssessment this page userType))
    = AI.improvementSuggestions this ++ fresh.
Proof.
  unfold AI.runAIAssessment. cbv zeta.
  destruct (AI.login page) as [[|]|m]; cbn [snd];
    try (exists []; now rewrite app_nil_r).
  destruct (AI.endDebugSession page); cbn [snd];
    match goal with
    | |- context [AI.generateAIInsights ?s ?o] =>
        destruct (generateAIInsights_prefix s o) as [fresh H];
        exists fresh; rewrite H; reflexivity
    end.
Qed.

(** The suggestions of an AI scorer instance only grow.  Whatever a call of
    runAIAssessment returns, the suggestions held before it stay, in order,
    at the front of the instance's list.  A completed assessment on a
    constructor-made instance returns that whole list: the earlier
    suggestions followed by an "Observability" entry if that score is below
    70 and a "Controllability" entry if that score is below 70.  An
    "Explainability" entry is never added, the explainability score being
    the constant 78. *)
Theorem ai_suggestions_only_grow :
  (forall this page userType,
     exists fresh,
       AI.improvementSuggestions (snd (AI.runAIAssessment this page userType))
       = AI.improvementSuggestions this ++ fresh)
  /\ (forall now history page userType a this',
        AI.runAIAssessment (AI.after_runs (AI.new_scorer now) history)
          page userType = (AI.Completed a, this') ->
        exists fresh,
          AI.recommendations a
          = AI.improvementSuggestions
              (AI.after_runs (AI.new_scorer now) history) ++ fresh
          /\ AI.improvementSuggestions this' = AI.recommendations a
          /\ map AI.principle fresh
             = (if lt (AI.scoreAIObservability (AI.observability page)) 70
                then ["Observability"%string] else [])
               ++ (if lt (AI.scoreAIControllability (AI.controllability page))
                        70
                   then ["Controllability"%string] else [])).
Proof.
  split; [exact runAIAssessment_prefix|].
  intros now history page userType a this' Hrun.
  assert (H5 : AI.is_five_scored
                 (AI.principleScores
                    (AI.after_runs (AI.new_scorer now) history))).
  { apply after_runs_five. exists 0, 0, 0, 0, 0. reflexivity. }
  destruct (ai_run_completed _ _ _ _ _ Hrun) as (_ & _ & _ & Ht & Hr).
  rewrite Hr, Ht. unfold AI.generateAIInsights.
  cbn [AI.improvementSuggestions]. unfold AI.score_below.
  rewrite (score_principles_five _ page H5).
  destruct (get_field_five
              (AI.scoreAIObservability (AI.observability page))
              (AI.scoreAIControllability (AI.controllability page))
              (AI.scoreAIAlgorithmicSimplicity (AI.complexity page))
              AI.scoreAIExplainability AI.scoreAIDecomposability)
    as (G1 & G2 & _ & G4).
  rewrite G1, G2, G4.
  replace (lt AI.scoreAIExplainability 70) with false by reflexivity.
  unfold AI.score_principles. cbn [AI.improvementSuggestions].
  eexists. split; [rewrite <- !app_assoc; reflexivity|].
  split; [reflexivity|].
  rewrite app_nil_r, map_app.
  destruct (lt (AI.scoreAIObservability _) 70),
    (lt (AI.scoreAIControllability _) 70); reflexivity.
Qed.

Lemma ai_suggestions_only_grow_witness :
  exists a this' fresh,
    AI.runAIAssessment
      (AI.after_runs (AI.new_scorer "t")
         [(Examples.ai_inventory, "problem_user"%string)])
      Examples.ai_inventory "standard_user" = (AI.Completed a, this')
    /\ AI.recommendations a
       = AI.improvementSuggestions
           (AI.after_runs (AI.new_scorer "t")
              [(Examples.ai_inventory, "problem_user"%string)]) ++ fresh
    /\ map AI.principle fresh = ["Observability"; "Controllability"]%string.
Proof.
  destruct ai_suggestions_only_grow as (_ & H).
  destruct (H "t"%string [(Examples.ai_inventory, "problem_user"%string)]
              Examples.ai_inventory "standard_user"%string _ _ eq_refl)
    as (fresh & H1 & _ & H3).
  do 2 eexists. exists fresh.
  split; [reflexivity|]. split; [exact H1|].
  rewrite H3. reflexivity.
Defined.

(** ** What a recommendation holds *)

Lemma priority_of_cases s :
  (s < 40 /\ Comprehensive.priority_of s = Critical)
  \/ (40 <= s /\ s < 50 /\ Comprehensive.priority_of s = High)
  \/ (50 <= s /\ Comprehensive.priority_of s = Medium).
Proof.
  unfold Comprehensive.priority_of.
  destruct (lt s 40) eqn:E40.
  - left. split; [now apply lt_true_iff | reflexivity].
  - apply lt_false_iff in E40. right.
    destruct (lt s 50) eqn:E50.
    + left. split; [exact E40|]. split; [now apply lt_true_iff | reflexivity].
    + right. split; [now apply lt_false_iff | reflexivity].
Qed.

Lemma In_generateAIRecommendations o r :
  In r (Comprehensive.generateAIRecommendations o) ->
  exists p s,
    In (p, s) o /\ lt s 60 = true
    /\ r = Comprehensive.mkRecommendation p s (Comprehensive.priority_of s)
             (Comprehensive.suggestion_for p) (Comprehensive.mkReasoning p s).
Proof.
  unfold Comprehensive.generateAIRecommendations, Object_entries.
  rewrite in_flat_map. intros ([p s] & Hin & Hr).
  unfold Comprehensive.recommend_entry in Hr.
  destruct (lt s 60) eqn:E; [|contradiction].
  destruct Hr as [<-|[]]. exists p, s. auto.
Qed.

(** Every recommendation generateAIRecommendations emits is for an entry of
    the score map with a score below 60.  Its priority follows the score:
    Critical exactly below 40, High exactly from 40 up to 50, Medium exactly
    from 50 up.  Its reasoning carries the same principle and score.  Its
    suggestion is non-empty for each of the ten principles, the ten texts
    being pairwise different, and empty for any other name. *)
Theorem generated_recommendation_is_consistent :
  (forall (o : obj number) r,
     In r (Comprehensive.generateAIRecommendations o) ->
     In (Comprehensive.principle r, Comprehensive.score r) o
     /\ Comprehensive.score r < 60
     /\ (Comprehensive.priority r = Critical <-> Comprehensive.score r < 40)
     /\ (Comprehensive.priority r = High
         <-> 40 <= Comprehensive.score r /\ Comprehensive.score r < 50)
     /\ (Comprehensive.priority r = Medium <-> 50 <= Comprehensive.score r)
     /\ Comprehensive.aiReasoning r
        = Comprehensive.mkReasoning (Comprehensive.principle r)
            (Comprehensive.score r)
     /\ Comprehensive.suggestion r
        = Comprehensive.suggestion_for (Comprehensive.principle r))
  /\ (forall p, In p principleNames ->
        Comprehensive.suggestion_for p <> ""%string)
  /\ NoDup (map Comprehensive.suggestion_for principleNames)
  /\ (forall p, ~ In p principleNames ->
        Comprehensive.suggestion_for p = ""%string).
Proof.
  split; [|split; [|split]].
  - intros o r Hr.
    apply In_generateAIRecommendations in Hr as (p & s & Hin & Hs & ->).
    cbn [Comprehensive.principle Comprehensive.score Comprehensive.priority
         Comprehensive.aiReasoning Comprehensive.suggestion].
    apply lt_true_iff in Hs.
    split; [exact Hin|]. split; [exact Hs|].
    destruct (priority_of_cases s) as [[H ->]|[(H1 & H2 & ->)|[H ->]]];
      repeat split; intros; try discriminate; try lra; auto.
  - intros p Hp. simpl in Hp.
    repeat (destruct Hp as [<-|Hp]; [discriminate|]). contradiction.
  - simpl.
    repeat (constructor; [simpl; intros H;
      repeat (destruct H as [H|H]; [discriminate|]); exact H|]).
    constructor.
  - intros p Hp. unfold Comprehensive.suggestion_for.
    repeat match goal with
    | |- context [String.eqb p ?k] =>
        destruct (String.eqb_spec p k) as [->|_];
        [exfalso; apply Hp; simpl; tauto|]
    end.
    reflexivity.
Qed.

Lemma generated_recommendation_is_consistent_witness :
  exists r,
    In r (Comprehensive.generateAIRecommendations Examples.mixed_scores)
    /\ Comprehensive.principle r = "controllability"%string
    /\ Comprehensive.priority r = Critical.
Proof.
  destruct generated_recommendation_is_consistent as (H & _).
  eexists. split; [right; left; reflexivity|]. split; [reflexivity|].
  match goal with
  | |- Comprehensive.priority ?r = _ =>
      destruct (H Examples.mixed_scores r) as (_ & _ & Hc & _)
  end.
  - right. left. reflexivity.
  - apply Hc. reflexivity.
Defined.

Lemma In_generateRecommendations o r :
  In r (TestabilityScorer.generateRecommendations o) ->
  exists p s,
    In (p, s) o /\ lt s 70 = true
    /\ r = TestabilityScorer.mkRecommendation p s
             (if lt s 50 then High else Medium)
             (TestabilityScorer.getRecommendationForPrinciple p s).
Proof.
  unfold TestabilityScorer.generateRecommendations, Object_entries.
  rewrite in_flat_map. intros ([p s] & Hin & Hr).
  unfold TestabilityScorer.recommend_entry in Hr.
  destruct (lt s 50) eqn:E50.
  - destruct Hr as [<-|[]]. exists p, s. split; [exact Hin|].
    split; [|now rewrite E50].
    apply lt_true_iff. apply lt_true_iff in E50. lra.
  - destruct (lt s 70) eqn:E70; [|contradiction].
    destruct Hr as [<-|[]]. exists p, s. rewrite E50. auto.
Qed.

(** Every recommendation generateRecommendations of the TestabilityScorer
    emits is for an entry of the score map with a score below 70; its
    priority is High exactly below 50 and Medium otherwise, never Critical;
    its advice is what getRecommendationForPrinciple gives for its principle
    and never the empty text.  For each of the ten principles that advice is
    the non-empty text the table holds for it, the ten being pairwise
    different.  A name that is neither a principle nor inherited from
    Object.prototype gets the default text.  An inherited name such as
    constructor gets no text at all: the lookup finds the inherited member,
    which is truthy, and returns it. *)
Theorem scorer_recommendation_is_consistent :
  (forall (o : obj number) r,
     In r (TestabilityScorer.generateRecommendations o) ->
     In (TestabilityScorer.principle r, TestabilityScorer.score r) o
     /\ TestabilityScorer.score r < 70
     /\ (TestabilityScorer.priority r = High
         <-> TestabilityScorer.score r < 50)
     /\ (TestabilityScorer.priority r = Medium
         <-> 50 <= TestabilityScorer.score r)
     /\ TestabilityScorer.priority r <> Critical
     /\ TestabilityScorer.recommendation r
        = TestabilityScorer.getRecommendationForPrinciple
            (TestabilityScorer.principle r) (TestabilityScorer.score r)
     /\ TestabilityScorer.recommendation r <> Text "")
  /\ (forall p s,
        In p principleNames ->
        exists text,
          TestabilityScorer.getRecommendationForPrinciple p s = Text text
          /\ get_field p TestabilityScorer.recommendations = Some text
          /\ text <> ""%string)
  /\ NoDup (map (fun p => TestabilityScorer.getRecommendationForPrinciple p 0)
              principleNames)
  /\ (forall p s,
        ~ In p principleNames -> ~ In p Object_prototype ->
        TestabilityScorer.getRecommendationForPrinciple p s
        = Text "Review and improve this testability aspect")
  /\ (forall p s,
        In p Object_prototype ->
        TestabilityScorer.getRecommendationForPrinciple p s = Inherited p).
Proof.
  split; [|split; [|split; [|split]]].
  - intros o r Hr.
    apply In_generateRecommendations in Hr as (p & s & Hin & Hs & ->).
    cbn [TestabilityScorer.principle TestabilityScorer.score
         TestabilityScorer.priority TestabilityScorer.recommendation].
    apply lt_true_iff in Hs.
    split; [exact Hin|]. split; [exact Hs|].
    assert (Htext : TestabilityScorer.getRecommendationForPrinciple p s
                    <> Text "").
    { unfold TestabilityScorer.getRecommendationForPrinciple, lookup_or.
      destruct (get_field p TestabilityScorer.recommendations) as [[|c t]|];
        [discriminate | discriminate |].
      destruct (existsb (String.eqb p) Object_prototype); discriminate. }
    destruct (lt s 50) eqn:E50.
    + apply lt_true_iff in E50.
      repeat split; intros; try discriminate; try lra; auto.
    + apply lt_false_iff in E50.
      repeat split; intros; try discriminate; try lra; auto.
  - intros p s Hp. cbn in Hp.
    repeat (destruct Hp as [<-|Hp];
            [eexists; split; [reflexivity|];
             split; [reflexivity | discriminate]|]).
    destruct Hp.
  - simpl.
    repeat (constructor; [simpl; intros H;
      repeat (destruct H as [H|H]; [discriminate|]); exact H|]).
    constructor.
  - intros p s Hp Hproto.
    unfold TestabilityScorer.getRecommendationForPrinciple, lookup_or.
    rewrite (get_field_None p TestabilityScorer.recommendations)
      by exact Hp.
    destruct (existsb (String.eqb p) Object_prototype) eqn:E; [|reflexivity].
    apply existsb_exists in E as (k & Hk & Ek).
    apply String.eqb_eq in Ek. subst k. contradiction.
  - intros p s Hp. cbn in Hp.
    repeat (destruct Hp as [<-|Hp]; [reflexivity|]). destruct Hp.
Qed.

Lemma scorer_recommendation_is_consistent_witness :
  exists r,
    In r (TestabilityScorer.generateRecommendations Examples.mixed_scores)
    /\ TestabilityScorer.principle r = "observability"%string
    /\ TestabilityScorer.priority r = Medium.
Proof.
  destruct scorer_recommendation_is_consistent as (H & _).
  eexists. split; [left; reflexivity|]. split; [reflexivity|].
  match goal with
  | |- TestabilityScorer.priority ?r = _ =>
      destruct (H Examples.mixed_scores r) as (_ & _ & _ & Hm & _)
  end.
  - left. reflexivity.
  - apply Hm. vm_compute. discriminate.
Defined.

(** ** Top recommendations over several results *)

Lemma get_field_Some_In {V} k (o : obj V) v :
  get_field k o = Some v -> In (k, v) o.
Proof.
  induction o as [|[k' v'] o IH]; simpl; [discriminate|].
  destruct (String.eqb_spec k k') as [->|_].
  - intros H. injection H as ->. now left.
  - intros H. right. now apply IH.
Qed.

Lemma get_field_In_keys {V} k (o : obj V) :
  In k (Object_keys o) -> exists v, get_field k o = Some v.
Proof.
  induction o as [|[k' v'] o IH]; simpl; [contradiction|].
  destruct (String.eqb_spec k k') as [->|Hne]; [eauto|].
  intros [H|H]; [congruence | now apply IH].
Qed.

Lemma append_cancel_l p x y : (p ++ x = p ++ y)%string -> x = y.
Proof.
  induction p as [|c p IH]; simpl; intros H; [exact H|].
  injection H as H. now apply IH.
Qed.

Lemma key_priority p1 p2 q1 q2 :
  (p1 ++ "-" ++ priority_name q1 = p2 ++ "-" ++ priority_name q2)%string ->
  q1 = q2.
Proof.
  intros H. pose proof (key_principle _ _ _ _ H) as ->.
  apply append_cancel_l in H.
  destruct q1, q2; simpl in H; try reflexivity; discriminate.
Qed.

(** What the grouping step keeps, for any accumulator it starts from. *)
Lemma group_fold_invariant recs : forall acc,
  NoDup (Object_keys acc) ->
  let g :=
    fold_left
      (fun acc rec =>
         match get_field (Comprehensive.group_key rec) acc with
         | Some _ => acc
         | None => acc ++ [(Comprehensive.group_key rec, rec)]
         end)
      recs acc in
  NoDup (Object_keys g)
  /\ (forall k r, In (k, r) g ->
        In (k, r) acc \/ (k = Comprehensive.group_key r /\ In r recs))
  /\ (forall k, In k (Object_keys acc) -> In k (Object_keys g))
  /\ (forall r, In r recs -> In (Comprehensive.group_key r) (Object_keys g)).
Proof.
  induction recs as [|rec recs IH]; intros acc Hnd; cbn [fold_left].
  - repeat split; auto. intros r [].
  - destruct (get_field (Comprehensive.group_key rec) acc) eqn:E.
    + destruct (IH acc Hnd) as (I1 & I2 & I3 & I4).
      split; [exact I1|]. split; [|split; [exact I3|]].
      * intros k r0 H. destruct (I2 k r0 H) as [|[? ?]]; [now left|].
        right. split; [assumption | now right].
      * intros r0 [<-|Hr]; [|now apply I4].
        apply I3. apply get_field_Some_In in E.
        unfold Object_keys. apply in_map_iff.
        eexists. split; [|exact E]. reflexivity.
    + assert (Hnew : NoDup (Object_keys
                (acc ++ [(Comprehensive.group_key rec, rec)]))).
      { unfold Object_keys. rewrite map_app. simpl.
        apply NoDup_app; [exact Hnd | repeat constructor; intros [] |].
        intros k Hk [<-|[]].
        destruct (get_field_In_keys _ _ Hk) as [v Hv]. congruence. }
      destruct (IH _ Hnew) as (I1 & I2 & I3 & I4).
      split; [exact I1|]. split; [|split].
      * intros k r H. destruct (I2 k r H) as [Hin|[? ?]].
        -- apply in_app_or in Hin as [Hin|[Hin|[]]]; [now left|].
           injection Hin as <- <-. right. split; [reflexivity | now left].
        -- right. split; [assumption | now right].
      * intros k Hk. apply I3. unfold Object_keys. rewrite map_app.
        apply in_or_app. now left.
      * intros r0 [<-|Hr]; [|now apply I4].
        apply I3. unfold Object_keys. rewrite map_app.
        apply in_or_app. right. now left.
Qed.

Lemma group_properties all :
  NoDup (Object_keys (Comprehensive.group all))
  /\ (forall k r, In (k, r) (Comprehensive.group all) ->
        k = Comprehensive.group_key r /\ In r all)
  /\ (forall r, In r all ->
        In (Comprehensive.group_key r) (Object_keys (Comprehensive.group all))).
Proof.
  destruct (group_fold_invariant all [] (NoDup_nil _)) as (I1 & I2 & _ & I4).
  split; [exact I1|]. split; [|exact I4].
  intros k r H. destruct (I2 k r H) as [[]|?]. assumption.
Qed.

Lemma group_values_keys all :
  map Comprehensive.group_key (Object_values (Comprehensive.group all))
  = Object_keys (Comprehensive.group all).
Proof.
  destruct (group_properties all) as (_ & H & _).
  revert H. generalize (Comprehensive.group all) as g.
  induction g as [|[k r] g IH]; intros H; simpl; [reflexivity|].
  f_equal.
  - symmetry. apply (H k r). now left.
  - apply IH. intros k' r' Hin. apply H. now right.
Qed.

Lemma sort_insert_perm {T} cmp (x : T) l :
  Permutation (Comprehensive.sort_insert cmp x l) (x :: l).
Proof.
  induction l as [|y l IH]; simpl; [reflexivity|].
  destruct (cmp x y <=? 0)%Z; [reflexivity|].
  rewrite IH. apply perm_swap.
Qed.

Lemma Array_sort_perm {T} cmp (l : list T) :
  Permutation (Comprehensive.Array_sort cmp l) l.
Proof.
  induction l as [|x l IH]; simpl; [reflexivity|].
  rewrite sort_insert_perm. now constructor.
Qed.

Lemma NoDup_firstn {T} n (l : list T) : NoDup l -> NoDup (firstn n l).
Proof.
  intros H. rewrite <- (firstn_skipn n l) in H.
  now apply NoDup_app_remove_r in H.
Qed.

(** getTopRecommendations, on any list of results: it returns at most ten
    recommendations, in descending severity; each of them is a
    recommendation of one of the results; no two of them share principle and
    priority; and if the results hold at most ten different
    principle-priority pairs, each pair of the input is represented. *)
Theorem top_recommendations_are_deduplicated
    (results : list Comprehensive.RunResult) :
  let top := Comprehensive.getTopRecommendations results in
  (List.length top <= 10)%nat
  /\ Spec.descending_severity top
  /\ (forall r, In r top ->
        exists result,
          In result results
          /\ In r (Comprehensive.recommendations_of result))
  /\ NoDup (map Comprehensive.group_key top)
  /\ ((List.length
         (Comprehensive.group
            (flat_map Comprehensive.recommendations_of results)) <= 10)%nat ->
      forall result r,
        In result results ->
        In r (Comprehensive.recommendations_of result) ->
        exists r',
          In r' top
          /\ Comprehensive.principle r' = Comprehensive.principle r
          /\ Comprehensive.priority r' = Comprehensive.priority r).
Proof.
  unfold Comprehensive.getTopRecommendations.
  set (all := flat_map Comprehensive.recommendations_of results).
  destruct (group_properties all) as (G1 & G2 & G3).
  set (sorted := Comprehensive.Array_sort Comprehensive.by_priority
                   (Object_values (Comprehensive.group all))).
  assert (P : Permutation sorted (Object_values (Comprehensive.group all)))
    by apply Array_sort_perm.
  cbv zeta.
  split; [apply firstn_le_length|].
  split; [apply StronglySorted_firstn, Array_sort_sorted|].
  split; [|split].
  - intros r Hr. apply In_firstn in Hr.
    apply (Permutation_in _ P) in Hr.
    unfold Object_values in Hr. apply in_map_iff in Hr as ([k r'] & <- & Hin).
    destruct (G2 k r' Hin) as [_ Hall]. subst all.
    apply in_flat_map in Hall. exact Hall.
  - rewrite <- firstn_map. apply NoDup_firstn.
    apply (Permutation_NoDup
             (l := map Comprehensive.group_key
                     (Object_values (Comprehensive.group all)))).
    + apply Permutation_map. symmetry. exact P.
    + rewrite group_values_keys. exact G1.
  - intros Hlen result r Hres Hr.
    assert (Hall : In r all)
      by (subst all; apply in_flat_map; eauto).
    apply G3 in Hall. rewrite <- group_values_keys in Hall.
    apply in_map_iff in Hall as (r' & Hk & Hin).
    exists r'. split.
    + rewrite firstn_all2.
      * apply (Permutation_in _ (Permutation_sym P)). exact Hin.
      * subst sorted. rewrite Array_sort_length.
        unfold Object_values. rewrite length_map. exact Hlen.
    + split; [now apply group_key_principle|].
      unfold Comprehensive.group_key in Hk.
      apply key_priority in Hk. exact Hk.
Qed.

Lemma top_recommendations_are_deduplicated_witness :
  let results :=
    [ fst (Comprehensive.runCompleteAnalysis (Comprehensive.new_analyzer "t")
             Examples.inventory "standard_user");
      Comprehensive.Errored "locked_out_user" "Login failed";
      fst (Comprehensive.runCompleteAnalysis (Comprehensive.new_analyzer "t")
             Examples.inventory "problem_user") ] in
  List.length (Comprehensive.getTopRecommendations results) = 4%nat
  /\ exists r',
       In r' (Comprehensive.getTopRecommendations results)
       /\ Comprehensive.principle r' = "decomposability"%string
       /\ Comprehensive.priority r' = Medium.
Proof.
  intros results. split; [reflexivity|].
  destruct (top_recommendations_are_deduplicated results)
    as (_ & _ & _ & _ & H).
  assert (Hlen : (List.length
                    (Comprehensive.group
                       (flat_map Comprehensive.recommendations_of results))
                  <= 10)%nat) by (vm_compute; lia).
  destruct (H Hlen (nth 2 results (Comprehensive.Errored "" ""))
              (nth 3 (Comprehensive.recommendations_of
                        (nth 2 results (Comprehensive.Errored "" "")))
                 (Comprehensive.mkRecommendation "" 0 Medium ""
                    (Comprehensive.mkReasoning "" 0))))
    as (r' & H1 & H2 & H3).
  - right. right. left. reflexivity.
  - right. right. right. left. reflexivity.
  - exists r'. split; [exact H1|]. split; [exact H2 | exact H3].
Defined.

(** ** Best, worst and average in the text reports *)

Section Extremes.

Context {T : Type} (score : T -> Z).

Lemma fold_best_spec rest : forall x,
  let b := fold_left
             (fun best current =>
                if (score current >? score best)%Z then current else best)
             rest x in
  exists l1 l2,
    x :: rest = l1 ++ b :: l2
    /\ (forall r, In r l1 -> (score r < score b)%Z)
    /\ (forall r, In r l2 -> (score r <= score b)%Z).
Proof.
  induction rest as [|y rest IH]; intros x; cbn [fold_left].
  - exists [], []. repeat split; intros r [].
  - destruct (Z.gtb_spec (score y) (score x)) as [Hgt|Hle].
    + destruct (IH y) as (l1 & l2 & E & H1 & H2).
      exists (x :: l1), l2.
      split; [cbn [app]; apply f_equal; exact E|]. split; [|exact H2].
      intros r [<-|Hr]; [|now apply H1].
      assert (Hy : (score y <= score
                      (fold_left
                         (fun best current =>
                            if (score current >? score best)%Z
                            then current else best) rest y))%Z).
      { destruct l1 as [|z l1]; simpl in E.
        - injection E as E _. rewrite <- E. lia.
        - injection E as <- _. specialize (H1 y (or_introl eq_refl)). lia. }
      lia.
    + destruct (IH x) as (l1 & l2 & E & H1 & H2).
      destruct l1 as [|z l1]; simpl in E.
      * injection E as E1 E2. exists [], (y :: l2).
        split;
          [cbn [app]; apply f_equal2; [exact E1 | apply f_equal; exact E2]|].
        split; [intros r []|].
        intros r [<-|Hr]; [rewrite <- E1; lia | now apply H2].
      * injection E as <- E. exists (x :: y :: l1), l2.
        split; [cbn [app]; do 2 apply f_equal; exact E|]. split; [|exact H2].
        intros r [<-|[<-|Hr]];
          [apply H1; now left | | apply H1; now right].
        specialize (H1 x (or_introl eq_refl)). lia.
Qed.

End Extremes.

Section ExtremesOfReport.

Context {T : Type} (score : T -> Z).

Lemma fold_worst_as_best rest : forall x : T,
  fold_left
    (fun worst current =>
       if (score current <? score worst)%Z then current else worst) rest x
  = fold_left
      (fun best current =>
         if (- score current >? - score best)%Z then current else best)
      rest x.
Proof.
  induction rest as [|y rest IH]; intros x; cbn [fold_left]; [reflexivity|].
  replace (- score y >? - score x)%Z with (score y <? score x)%Z.
  - apply IH.
  - destruct (Z.ltb_spec (score y) (score x)),
      (Z.gtb_spec (- score y) (- score x)); try reflexivity; lia.
Qed.

Lemma sum_scores_acc (l : list T) : forall acc,
  fold_left (fun sum r => (sum + score r)%Z) l acc
  = (acc + fold_left (fun sum r => (sum + score r)%Z) l 0)%Z.
Proof.
  induction l as [|x l IH]; intros acc; cbn [fold_left]; [lia|].
  rewrite IH, (IH (0 + score x)%Z). lia.
Qed.

Lemma sum_scores_bounds (l : list T) lo hi :
  (forall r, In r l -> (lo <= score r <= hi)%Z) ->
  (lo * Z.of_nat (List.length l)
   <= fold_left (fun sum r => (sum + score r)%Z) l 0
   <= hi * Z.of_nat (List.length l))%Z.
Proof.
  induction l as [|x l IH]; intros H; cbn [fold_left List.length]; [lia|].
  rewrite sum_scores_acc.
  specialize (IH (fun r Hr => H r (or_intror Hr))).
  specialize (H x (or_introl eq_refl)). lia.
Qed.

Lemma averageScore_between (l : list T) lo hi :
  l <> [] ->
  (forall r, In r l -> (lo <= score r <= hi)%Z) ->
  (lo <= ReportSummary.averageScore score l <= hi)%Z.
Proof.
  intros Hne H. unfold ReportSummary.averageScore.
  pose proof (sum_scores_bounds l lo hi H) as [Hlo Hhi].
  set (total := fold_left (fun sum r => (sum + score r)%Z) l 0%Z) in *.
  assert (Hn : (0 < Z.of_nat (List.length l))%Z)
    by (destruct l; [congruence | simpl; lia]).
  set (n := Z.of_nat (List.length l)) in *.
  assert (Hq : 0 < num n) by (unfold num; rewrite <- (Zlt_Qlt 0); exact Hn).
  split.
  - apply Math_round_ge. apply Qle_shift_div_l; [exact Hq|].
    unfold num. rewrite <- inject_Z_mult, <- Zle_Qle. exact Hlo.
  - apply Math_round_le. apply Qle_shift_div_r; [exact Hq|].
    unfold num. rewrite <- inject_Z_mult, <- Zle_Qle. exact Hhi.
Qed.

(** In the three text reports the best user has the highest overall score
    of the successful results and the worst user the lowest; among equal
    scores each is the earliest result.  The reported average lies between
    the two, so the score spread is never negative.  On an empty array the
    two reductions throw, which the early return of the reports
    prevents. *)
Theorem report_best_and_worst (successfulResults : list T) :
  successfulResults <> [] ->
  exists best worst,
    ReportSummary.bestUser score successfulResults = Resolved best
    /\ ReportSummary.worstUser score successfulResults = Resolved worst
    /\ (exists l1 l2,
          successfulResults = l1 ++ best :: l2
          /\ (forall r, In r l1 -> (score r < score best)%Z)
          /\ (forall r, In r l2 -> (score r <= score best)%Z))
    /\ (exists l1 l2,
          successfulResults = l1 ++ worst :: l2
          /\ (forall r, In r l1 -> (score worst < score r)%Z)
          /\ (forall r, In r l2 -> (score worst <= score r)%Z))
    /\ (score worst <= ReportSummary.averageScore score successfulResults
        <= score best)%Z
    /\ rejects (ReportSummary.bestUser score [])
    /\ rejects (ReportSummary.worstUser score []).
Proof.
  intros Hne. destruct successfulResults as [|x rest]; [congruence|].
  unfold ReportSummary.bestUser, ReportSummary.worstUser,
    ReportSummary.Array_reduce1.
  do 2 eexists. split; [reflexivity|]. split; [reflexivity|].
  destruct (fold_best_spec score rest x) as (b1 & b2 & Eb & Hb1 & Hb2).
  pose proof (fold_best_spec (fun r => (- score r)%Z) rest x) as Hw.
  cbv zeta in Hw. rewrite <- fold_worst_as_best in Hw.
  destruct Hw as (w1 & w2 & Ew & Hw1 & Hw2).
  split; [exists b1, b2; auto|].
  split.
  { exists w1, w2. split; [exact Ew|]. split.
    - intros r Hr. specialize (Hw1 r Hr). lia.
    - intros r Hr. specialize (Hw2 r Hr). lia. }
  split.
  { apply averageScore_between; [discriminate|].
    intros r Hr. split.
    - rewrite Ew in Hr. apply in_app_or in Hr as [Hr|[<-|Hr]];
        [specialize (Hw1 r Hr) | | specialize (Hw2 r Hr)]; lia.
    - rewrite Eb in Hr. apply in_app_or in Hr as [Hr|[<-|Hr]];
        [specialize (Hb1 r Hr) | | specialize (Hb2 r Hr)]; lia. }
  split; eexists; reflexivity.
Qed.

End ExtremesOfReport.

Lemma report_best_and_worst_witness :
  exists best worst,
    ReportSummary.bestUser Z.abs [30; 64; 12; 64]%Z = Resolved best
    /\ ReportSummary.worstUser Z.abs [30; 64; 12; 64]%Z = Resolved worst
    /\ (Z.abs worst <= ReportSummary.averageScore Z.abs [30; 64; 12; 64]%Z
        <= Z.abs best)%Z.
Proof.
  destruct (report_best_and_worst Z.abs [30; 64; 12; 64]%Z)
    as (b & w & Hb & Hw & _ & _ & Havg & _); [discriminate|].
  exists b, w. auto.
Defined.

(** ** What the comprehensive report prints of the recommendations *)

Lemma In_printed_recommendations successfulResults r :
  In r (ReportSummary.printed_recommendations successfulResults)
  <-> (exists a, In a successfulResults
                 /\ In r (Comprehensive.a_aiRecommendations a))
      /\ Comprehensive.priority r <> Medium.
Proof.
  unfold ReportSummary.printed_recommendations. cbv zeta.
  rewrite in_app_iff, !filter_In, !Priority_eqb_eq, in_flat_map.
  split.
  - intros [[H E]|[H E]]; (split; [exact H | rewrite E; discriminate]).
  - intros [H E]. destruct (Comprehensive.priority r) eqn:P;
      [left | right | congruence]; auto.
Qed.

Lemma critical_before_high (critical high : list Comprehensive.Recommendation) :
  (forall r, In r critical -> Comprehensive.priority r = Critical) ->
  (forall r, In r high -> Comprehensive.priority r = High) ->
  Spec.descending_severity (critical ++ high).
Proof.
  intros Hc Hh. unfold Spec.descending_severity.
  induction critical as [|x l IH]; cbn [app].
  - clear Hc. induction high as [|x l IH]; [constructor|].
    constructor.
    + apply IH. intros r Hr. apply Hh. now right.
    + apply Forall_forall. intros y Hy. unfold Spec.severity_order.
      rewrite (Hh x (or_introl eq_refl)), (Hh y (or_intror Hy)). reflexivity.
  - constructor.
    + apply IH. intros r Hr. apply Hc. now right.
    + apply Forall_forall. intros y _. unfold Spec.severity_order.
      rewrite (Hc x (or_introl eq_refl)).
      destruct (Comprehensive.priority y); cbn; lia.
Qed.

(** generateComprehensiveReport prints a recommendation of a successful
    result exactly when its priority is Critical or High: the Medium ones
    appear nowhere in the report.  The Critical ones come first, each group
    in the order of the results.  For the recommendations of a completed
    analysis this means: a recommendation is printed exactly when its score
    is below 50, although one is generated for every score below 60. *)
Theorem report_omits_medium_recommendations :
  (forall successfulResults r,
     In r (ReportSummary.printed_recommendations successfulResults)
     <-> (exists a, In a successfulResults
                    /\ In r (Comprehensive.a_aiRecommendations a))
         /\ Comprehensive.priority r <> Medium)
  /\ (forall successfulResults,
        Spec.descending_severity
          (ReportSummary.printed_recommendations successfulResults))
  /\ (forall this page userType a this' r,
        Comprehensive.runCompleteAnalysis this page userType
          = (Comprehensive.Completed a, this') ->
        In r (Comprehensive.a_aiRecommendations a) ->
        (In r (ReportSummary.printed_recommendations [a])
         <-> Comprehensive.score r < 50)).
Proof.
  split; [exact In_printed_recommendations|]. split.
  - intros results. unfold ReportSummary.printed_recommendations. cbv zeta.
    apply critical_before_high.
    + intros r Hr. apply filter_In in Hr as [_ Hr].
      now apply Priority_eqb_eq.
    + intros r Hr. apply filter_In in Hr as [_ Hr].
      now apply Priority_eqb_eq.
  - intros this page userType a this' r Hrun Hr.
    rewrite In_printed_recommendations.
    destruct (run_completed _ _ _ _ _ Hrun) as (_ & _ & Hrec & _).
    assert (Hex : exists a0, In a0 [a]
                   /\ In r (Comprehensive.a_aiRecommendations a0))
      by (exists a; split; [now left | exact Hr]).
    rewrite Hrec in Hr.
    apply In_generateAIRecommendations in Hr as (p & s & _ & _ & E).
    subst r. cbn [Comprehensive.priority Comprehensive.score] in *.
    destruct (priority_of_cases s) as [[H P]|[(H1 & H2 & P)|[H P]]].
    + split; [intros _; lra|]. intros _. split; [exact Hex|].
      rewrite P. discriminate.
    + split; [intros _; lra|]. intros _. split; [exact Hex|].
      rewrite P. discriminate.
    + split; [intros [_ C]; congruence | intros C; lra].
Qed.

Lemma report_omits_medium_recommendations_witness :
  exists a,
    fst (Comprehensive.runCompleteAnalysis (Comprehensive.new_analyzer "t")
           Examples.inventory "standard_user")
      = Comprehensive.Completed a
    /\ forall r,
         In r (Comprehensive.a_aiRecommendations a) ->
         (In r (ReportSummary.printed_recommendations [a])
          <-> Comprehensive.score r < 50).
Proof.
  destruct report_omits_medium_recommendations as (_ & _ & H).
  eexists. split; [reflexivity|]. intros r Hr.
  eapply (H (Comprehensive.new_analyzer "t") Examples.inventory
            "standard_user"%string).
  - reflexivity.
  - exact Hr.
Defined.

(** ** The overall score of a completed run *)

Lemma sum_in_range (l : list number) :
  Forall Spec.in_range l ->
  0 <= fold_right Qplus 0 l
  /\ fold_right Qplus 0 l <= 100 * num (Z.of_nat (List.length l)).
Proof.
  induction 1 as [|x l [Hx0 Hx1] _ [IH0 IH1]].
  - split; vm_compute; discriminate.
  - cbn [fold_right List.length]. rewrite Nat2Z.inj_succ.
    unfold num in *. unfold Z.succ. rewrite inject_Z_plus.
    change (inject_Z 1) with 1. split; lra.
Qed.

Lemma rounded_mean_in_range (l : list number) :
  l <> [] ->
  Forall Spec.in_range l ->
  (0 <= Math_round (reduce_sum l / num (Z.of_nat (List.length l)))%Q
   <= 100)%Z.
Proof.
  intros Hne H. destruct (sum_in_range l H) as [H0 H1].
  assert (Hn : 0 < num (Z.of_nat (List.length l))).
  { unfold num. rewrite <- (Zlt_Qlt 0).
    destruct l; [congruence | simpl; lia]. }
  rewrite (Math_round_comp _ _
             (Qdiv_comp _ _ (reduce_sum_fold_right l) _ _ (Qeq_refl _))).
  split.
  - apply Math_round_ge. apply Qle_shift_div_l; [exact Hn|].
    unfold num at 1. change (inject_Z 0) with 0. lra.
  - apply Math_round_le. apply Qle_shift_div_r; [exact Hn|].
    unfold num at 1. change (inject_Z 100) with 100. exact H1.
Qed.

Lemma quick_run_completed timestamp page userType a :
  Quick.runQuickAssessment timestamp page userType = Quick.Completed a ->
  exists o c s e d,
    Quick.principle_scores page
      = [Resolved o; Resolved c; Resolved s; Resolved e; Resolved d]
    /\ Quick.scores a
       = [ ("observability", o); ("controllability", c);
           ("algorithmicSimplicity", s); ("explainability", e);
           ("decomposability", d) ]%string
    /\ Quick.overallScore a = Quick.overallScore_of (Quick.scores a)
    /\ Quick.grade a = Quick.getGrade (Quick.overallScore a).
Proof.
  unfold Quick.runQuickAssessment, Quick.assess, Quick.principle_scores.
  destruct (Quick.goto page); cbn [bind try_catch]; [|discriminate].
  destruct (Quick.fill_username page); cbn [bind try_catch]; [|discriminate].
  destruct (Quick.fill_password page); cbn [bind try_catch]; [|discriminate].
  destruct (Quick.click_login page); cbn [bind try_catch]; [|discriminate].
  destruct (negb _); cbn [bind try_catch]; [discriminate|].
  destruct (Quick.scoreObservability _) as [o|];
    cbn [bind try_catch]; [|discriminate].
  destruct (Quick.scoreControllability _) as [c|];
    cbn [bind try_catch]; [|discriminate].
  destruct (Quick.scoreAlgorithmicSimplicity _) as [s|];
    cbn [bind try_catch]; [|discriminate].
  destruct (Quick.scoreExplainability _) as [e|];
    cbn [bind try_catch]; [|discriminate].
  destruct (Quick.scoreDecomposability _) as [d|];
    cbn [bind try_catch]; [|discriminate].
  intros H. injection H as <-. exists o, c, s, e, d.
  cbn. auto.
Qed.

(** When every count the page reports is non-negative, the overall score of
    a completed comprehensive analysis lies in [0, 100].  The same holds for
    a completed quick assessment, whose result carries exactly the five
    scored principles, each in [0, 100]. *)
Theorem overall_score_in_range :
  (forall this page userType a this',
     Comprehensive.nonneg_counts page ->
     Object_keys (Comprehensive.principles this) = principleNames ->
     Comprehensive.runCompleteAnalysis this page userType
       = (Comprehensive.Completed a, this') ->
     (0 <= Comprehensive.overallScore a <= 100)%Z)
  /\ (forall timestamp page userType a,
        Quick.nonneg_counts page ->
        Quick.runQuickAssessment timestamp page userType
          = Quick.Completed a ->
        Object_keys (Quick.scores a)
          = [ "observability"; "controllability"; "algorithmicSimplicity";
              "explainability"; "decomposability" ]%string
        /\ Forall Spec.in_range (Object_values (Quick.scores a))
        /\ (0 <= Quick.overallScore a <= 100)%Z).
Proof.
  split.
  - intros this page userType a this' Hn Hk Hrun.
    destruct (run_completed _ _ _ _ _ Hrun) as (Hp & Ho & _).
    rewrite Ho, Hp. unfold Comprehensive.overallScore_of.
    rewrite (analyze_principles_fresh _ page Hk),
      analyze_principles_scores, values_combine_names by reflexivity.
    apply (rounded_mean_in_range (Comprehensive.principle_scores page)).
    + discriminate.
    + now apply principle_scores_range.
  - intros timestamp page userType a Hn Hrun.
    destruct (quick_run_completed _ _ _ _ Hrun)
      as (o & c & s & e & d & Hs & Hsc & Ho & _).
    pose proof (quick_scores_range page Hn) as Hr. rewrite Hs in Hr.
    assert (Hv : Forall Spec.in_range (Object_values (Quick.scores a))).
    { rewrite Hsc. cbn [Object_values map snd].
      repeat match goal with
      | H : Forall _ (_ :: _) |- _ => inversion H; subst; clear H
      end.
      repeat apply Forall_cons; try apply Forall_nil; assumption. }
    split; [rewrite Hsc; reflexivity|]. split; [exact Hv|].
    rewrite Ho. unfold Quick.overallScore_of.
    apply rounded_mean_in_range; [|exact Hv]. rewrite Hsc. discriminate.
Qed.

Lemma overall_score_in_range_witness :
  (exists a,
     fst (Comprehensive.runCompleteAnalysis (Comprehensive.new_analyzer "t")
            Examples.inventory "standard_user")
       = Comprehensive.Completed a
     /\ (0 <= Comprehensive.overallScore a <= 100)%Z)
  /\ (exists a,
        Quick.runQuickAssessment "t" Examples.quick_inventory "standard_user"
          = Quick.Completed a
        /\ (0 <= Quick.overallScore a <= 100)%Z).
Proof.
  destruct overall_score_in_range as (H1 & H2). split.
  - eexists. split; [reflexivity|].
    eapply (H1 (Comprehensive.new_analyzer "t") Examples.inventory
              "standard_user"%string).
    + exact inventory_nonneg.
    + reflexivity.
    + reflexivity.
  - eexists. split; [reflexivity|].
    eapply (H2 "t"%string Examples.quick_inventory "standard_user"%string).
    + vm_compute. repeat split; discriminate.
    + reflexivity.
Defined.

(** ** Failing queries in the quick scorer *)

Lemma quick_run_userType timestamp page userType u e :
  Quick.runQuickAssessment timestamp page userType = Quick.Errored u e ->
  u = userType.
Proof.
  unfold Quick.runQuickAssessment, Quick.assess.
  repeat match goal with
  | |- context [bind ?c _] =>
      destruct c; cbn [bind try_catch];
      [| intros H; injection H as <- _; reflexivity]
  | |- context [if ?b then _ else _] =>
      destruct b; cbn [bind try_catch];
      [intros H; injection H as <- _; reflexivity |]
  end.
  discriminate.
Qed.

(** The quick scorer has no per-principle fallback.  An assessment
    completes only if all five scoring calls resolve; if one of them
    rejects, the assessment is an error result for the same user type, which
    carries no scores, whatever the other four principles would have
    scored. *)
Theorem quick_assessment_has_no_fallback timestamp page userType :
  (forall a,
     Quick.runQuickAssessment timestamp page userType = Quick.Completed a ->
     Forall (fun c => ~ rejects c) (Quick.principle_scores page))
  /\ (forall c,
        In c (Quick.principle_scores page) -> rejects c ->
        exists message,
          Quick.runQuickAssessment timestamp page userType
            = Quick.Errored userType message).
Proof.
  assert (H1 : forall a,
     Quick.runQuickAssessment timestamp page userType = Quick.Completed a ->
     Forall (fun c => ~ rejects c) (Quick.principle_scores page)).
  { intros a Hrun.
    destruct (quick_run_completed _ _ _ _ Hrun)
      as (o & c & s & e & d & -> & _).
    repeat apply Forall_cons; try apply Forall_nil;
      intros (m & Hm); discriminate. }
  split; [exact H1|].
  intros c Hin Hrej.
  destruct (Quick.runQuickAssessment timestamp page userType) as [a|u e] eqn:E.
  - specialize (H1 a eq_refl). rewrite Forall_forall in H1.
    destruct (H1 c Hin Hrej).
  - apply quick_run_userType in E as Hu. subst u. now exists e.
Qed.

Lemma quick_assessment_has_no_fallback_witness :
  exists message,
    Quick.runQuickAssessment "t" MoreExamples.quick_inventory_failing_labels
      "standard_user"
    = Quick.Errored "standard_user" message.
Proof.
  destruct (quick_assessment_has_no_fallback "t"
              MoreExamples.quick_inventory_failing_labels "standard_user")
    as (_ & H).
  apply (H (Quick.scoreExplainability
              (Quick.explainability
                 MoreExamples.quick_inventory_failing_labels))).
  - do 3 right. left. reflexivity.
  - eexists. reflexivity.
Defined.

(** ** The data of the HTML report *)

Section HTMLExtremes.

Import HTMLReport.

Let best_step (best : option Comprehensive.RunResult)
    (current : Comprehensive.RunResult) :=
  match overallScore_js current with
  | Some c => if (c >? best_threshold best)%Z then Some current else best
  | None => best
  end.

Let worst_step (worst : option Comprehensive.RunResult)
    (current : Comprehensive.RunResult) :=
  match overallScore_js current with
  | Some c => if (c <? worst_threshold worst)%Z then Some current else worst
  | None => worst
  end.

Lemma html_best_fold l : forall best,
  (best = None
   \/ exists b sb, best = Some b /\ overallScore_js b = Some sb
                   /\ (0 < sb)%Z) ->
  (fold_left best_step l best = best
   /\ forall r c, In r l -> overallScore_js r = Some c ->
                  (c <= best_threshold best)%Z)
  \/ (exists b m l1 l2,
        fold_left best_step l best = Some b
        /\ l = l1 ++ b :: l2
        /\ overallScore_js b = Some m
        /\ (best_threshold best < m)%Z
        /\ (forall r c, In r l1 -> overallScore_js r = Some c -> (c < m)%Z)
        /\ (forall r c, In r l2 -> overallScore_js r = Some c -> (c <= m)%Z)).
Proof.
  induction l as [|x l IH]; intros best Hbest.
  - left. split; [reflexivity|]. intros r c [].
  - assert (Hthr : (0 <= best_threshold best)%Z).
    { destruct Hbest as [->|(b & sb & -> & Hb & Hpos)]; cbn; [lia|].
      rewrite Hb. destruct (sb =? 0)%Z; lia. }
    cbn [fold_left]. unfold best_step at 2 4.
    destruct (overallScore_js x) as [c|] eqn:Ex.
    + destruct (Z.gtb_spec c (best_threshold best)) as [Hgt|Hle].
      * assert (Hthr' : best_threshold (Some x) = c).
        { cbn. rewrite Ex. destruct (Z.eqb_spec c 0); [lia | reflexivity]. }
        assert (Hinv : Some x = None
                  \/ exists b sb, Some x = Some b
                        /\ overallScore_js b = Some sb /\ (0 < sb)%Z).
        { right. exists x, c. split; [reflexivity|]. split; [exact Ex|]. lia. }
        destruct (IH (Some x) Hinv) as [[Hres Hall]|Hex].
        { right. exists x, c, [], l. rewrite Hthr' in Hall.
          split; [exact Hres|]. split; [reflexivity|]. split; [exact Ex|].
          split; [lia|]. split; [intros r c' [] | exact Hall]. }
        { destruct Hex as (b & m & l1 & l2 & Hres & -> & Hb & Hm & H1 & H2).
          rewrite Hthr' in Hm.
          right. exists b, m, (x :: l1), l2.
          split; [exact Hres|]. split; [reflexivity|]. split; [exact Hb|].
          split; [lia|]. split; [|exact H2].
          intros r c' [<-|Hr] Hc; [|eauto].
          rewrite Ex in Hc. injection Hc as <-. exact Hm. }
      * destruct (IH best Hbest) as [[Hres Hall]|Hex].
        { left. split; [exact Hres|].
          intros r c' [<-|Hr] Hc; [|eauto].
          rewrite Ex in Hc. injection Hc as <-. exact Hle. }
        { destruct Hex as (b & m & l1 & l2 & Hres & -> & Hb & Hm & H1 & H2).
          right. exists b, m, (x :: l1), l2.
          split; [exact Hres|]. split; [reflexivity|]. split; [exact Hb|].
          split; [exact Hm|]. split; [|exact H2].
          intros r c' [<-|Hr] Hc; [|eauto].
          rewrite Ex in Hc. injection Hc as <-. lia. }
    + destruct (IH best Hbest) as [[Hres Hall]|Hex].
      * left. split; [exact Hres|].
        intros r c' [<-|Hr] Hc; [congruence | eauto].
      * destruct Hex as (b & m & l1 & l2 & Hres & -> & Hb & Hm & H1 & H2).
        right. exists b, m, (x :: l1), l2.
        split; [exact Hres|]. split; [reflexivity|]. split; [exact Hb|].
        split; [exact Hm|]. split; [|exact H2].
        intros r c' [<-|Hr] Hc; [congruence | eauto].
Qed.

Lemma html_worst_fold l : forall worst,
  (forall r, In r l -> overallScore_js r <> Some 0%Z) ->
  (worst = None
   \/ exists w sw, worst = Some w /\ overallScore_js w = Some sw
                   /\ (sw < 100)%Z /\ sw <> 0%Z) ->
  (fold_left worst_step l worst = worst
   /\ forall r c, In r l -> overallScore_js r = Some c ->
                  (worst_threshold worst <= c)%Z)
  \/ (exists w m l1 l2,
        fold_left worst_step l worst = Some w
        /\ l = l1 ++ w :: l2
        /\ overallScore_js w = Some m
        /\ (m < worst_threshold worst)%Z
        /\ (forall r c, In r l1 -> overallScore_js r = Some c -> (m < c)%Z)
        /\ (forall r c, In r l2 -> overallScore_js r = Some c -> (m <= c)%Z)).
Proof.
  induction l as [|x l IH]; intros worst Hnz Hworst.
  - left. split; [reflexivity|]. intros r c [].
  - assert (Hthr : (worst_threshold worst <= 100)%Z).
    { destruct Hworst as [->|(w & sw & -> & Hw & Hlt & Hne)]; cbn; [lia|].
      rewrite Hw. destruct (sw =? 0)%Z; lia. }
    assert (Hnz' : forall r, In r l -> overallScore_js r <> Some 0%Z)
      by (intros r Hr; apply Hnz; now right).
    cbn [fold_left]. unfold worst_step at 2 4.
    destruct (overallScore_js x) as [c|] eqn:Ex.
    + assert (Hc0 : c <> 0%Z).
      { intros ->. apply (Hnz x); [now left | exact Ex]. }
      destruct (Z.ltb_spec c (worst_threshold worst)) as [Hlt|Hge].
      * assert (Hthr' : worst_threshold (Some x) = c).
        { cbn. rewrite Ex. destruct (Z.eqb_spec c 0); [lia | reflexivity]. }
        assert (Hinv : Some x = None
                  \/ exists w sw, Some x = Some w
                        /\ overallScore_js w = Some sw
                        /\ (sw < 100)%Z /\ sw <> 0%Z).
        { right. exists x, c. split; [reflexivity|]. split; [exact Ex|].
          split; [lia | exact Hc0]. }
        destruct (IH (Some x) Hnz' Hinv) as [[Hres Hall]|Hex].
        { right. exists x, c, [], l. rewrite Hthr' in Hall.
          split; [exact Hres|]. split; [reflexivity|]. split; [exact Ex|].
          split; [lia|]. split; [intros r c' [] | exact Hall]. }
        { destruct Hex as (w & m & l1 & l2 & Hres & -> & Hw & Hm & H1 & H2).
          rewrite Hthr' in Hm.
          right. exists w, m, (x :: l1), l2.
          split; [exact Hres|]. split; [reflexivity|]. split; [exact Hw|].
          split; [lia|]. split; [|exact H2].
          intros r c' [<-|Hr] Hc; [|eauto].
          rewrite Ex in Hc. injection Hc as <-. exact Hm. }
      * destruct (IH worst Hnz' Hworst) as [[Hres Hall]|Hex].
        { left. split; [exact Hres|].
          intros r c' [<-|Hr] Hc; [|eauto].
          rewrite Ex in Hc. injection Hc as <-. exact Hge. }
        { destruct Hex as (w & m & l1 & l2 & Hres & -> & Hw & Hm & H1 & H2).
          right. exists w, m, (x :: l1), l2.
          split; [exact Hres|]. split; [reflexivity|]. split; [exact Hw|].
          split; [exact Hm|]. split; [|exact H2].
          intros r c' [<-|Hr] Hc; [|eauto].
          rewrite Ex in Hc. injection Hc as <-. lia. }
    + destruct (IH worst Hnz' Hworst) as [[Hres Hall]|Hex].
      * left. split; [exact Hres|].
        intros r c' [<-|Hr] Hc; [congruence | eauto].
      * destruct Hex as (w & m & l1 & l2 & Hres & -> & Hw & Hm & H1 & H2).
        right. exists w, m, (x :: l1), l2.
        split; [exact Hres|]. split; [reflexivity|]. split; [exact Hw|].
        split; [exact Hm|]. split; [|exact H2].
        intros r c' [<-|Hr] Hc; [congruence | eauto].
Qed.

Lemma html_worst_stays l : forall w,
  exists w', fold_left worst_step l (Some w) = Some w'.
Proof.
  induction l as [|x l IH]; intros w; cbn [fold_left]; [eauto|].
  unfold worst_step at 2.
  destruct (overallScore_js x) as [c|]; [|apply IH].
  destruct (c <? worst_threshold (Some w))%Z; apply IH.
Qed.

Lemma html_worst_none l :
  fold_left worst_step l None = None
  <-> forall r c, In r l -> overallScore_js r = Some c -> (100 <= c)%Z.
Proof.
  induction l as [|x l IH]; cbn [fold_left].
  - split; [intros _ r c [] | reflexivity].
  - unfold worst_step at 2. cbn [worst_threshold].
    destruct (overallScore_js x) as [c|] eqn:Ex.
    + destruct (Z.ltb_spec c 100) as [Hlt|Hge].
      * split.
        { intros H. destruct (html_worst_stays l x) as (w' & Hw').
          congruence. }
        { intros H. specialize (H x c (or_introl eq_refl) Ex). lia. }
      * rewrite IH. split.
        { intros H r c' [<-|Hr] Hc; [|eauto].
          rewrite Ex in Hc. injection Hc as <-. exact Hge. }
        { intros H r c' Hr. apply H. now right. }
    + rewrite IH. split.
      * intros H r c' [<-|Hr] Hc; [congruence | eauto].
      * intros H r c' Hr. apply H. now right.
Qed.

End HTMLExtremes.

(** processResults reports no best user exactly when no successful result
    has an overall score above 0.  Otherwise the best user is the earliest
    successful result with the highest overall score, and that score is
    positive. *)
Theorem html_best_user timestamp rs :
  (HTMLReport.s_bestUser
     (HTMLReport.summary (HTMLReport.processResults timestamp rs)) = None
   <-> forall r c,
         In r (HTMLReport.results (HTMLReport.processResults timestamp rs)) ->
         HTMLReport.overallScore_js r = Some c -> (c <= 0)%Z)
  /\ (forall b,
        HTMLReport.s_bestUser
          (HTMLReport.summary (HTMLReport.processResults timestamp rs))
          = Some b ->
        exists m l1 l2,
          HTMLReport.results (HTMLReport.processResults timestamp rs)
            = l1 ++ b :: l2
          /\ HTMLReport.overallScore_js b = Some m
          /\ (0 < m)%Z
          /\ (forall r c, In r l1 -> HTMLReport.overallScore_js r = Some c ->
                          (c < m)%Z)
          /\ (forall r c, In r l2 -> HTMLReport.overallScore_js r = Some c ->
                          (c <= m)%Z)).
Proof.
  cbn [HTMLReport.processResults HTMLReport.summary HTMLReport.s_bestUser
       HTMLReport.results].
  set (successful :=
         filter (fun r => negb (truthy (Comprehensive.error_of r))) rs).
  unfold HTMLReport.bestUser.
  destruct (html_best_fold successful None (or_introl eq_refl))
    as [[Hres Hall]|(b & m & l1 & l2 & Hres & Hl & Hb & Hm & H1 & H2)].
  - rewrite Hres. split.
    + split; [intros _; exact Hall | reflexivity].
    + intros b Hb. discriminate.
  - rewrite Hres. cbn [HTMLReport.best_threshold] in Hm. split.
    + split; [discriminate|]. intros H.
      assert (m <= 0)%Z; [|lia].
      apply (H b m); [|exact Hb]. rewrite Hl. apply in_elt.
    + intros b' Hb'. injection Hb' as <-. exists m, l1, l2. auto.
Qed.

Lemma html_best_user_witness :
  exists m l1 l2,
    HTMLReport.results
      (HTMLReport.processResults "t" MoreExamples.five_results)
      = l1 ++ MoreExamples.scored "standard_user" 64 :: l2
    /\ HTMLReport.overallScore_js (MoreExamples.scored "standard_user" 64)
       = Some m
    /\ (0 < m)%Z
    /\ (forall r c, In r l1 -> HTMLReport.overallScore_js r = Some c ->
                    (c < m)%Z)
    /\ (forall r c, In r l2 -> HTMLReport.overallScore_js r = Some c ->
                    (c <= m)%Z).
Proof.
  destruct (html_best_user "t" MoreExamples.five_results) as (_ & H).
  apply H. reflexivity.
Defined.

(** processResults reports no worst user exactly when no successful result
    has an overall score below 100.  When no successful result has an
    overall score of exactly 0, the worst user is the earliest successful
    result with the lowest overall score.  A running worst user with a score
    of 0 counts as 100: the next result below 100 replaces it, although its
    score is not lower. *)
Theorem html_worst_user timestamp rs :
  (HTMLReport.s_worstUser
     (HTMLReport.summary (HTMLReport.processResults timestamp rs)) = None
   <-> forall r c,
         In r (HTMLReport.results (HTMLReport.processResults timestamp rs)) ->
         HTMLReport.overallScore_js r = Some c -> (100 <= c)%Z)
  /\ ((forall r,
         In r (HTMLReport.results (HTMLReport.processResults timestamp rs)) ->
         HTMLReport.overallScore_js r <> Some 0%Z) ->
      forall w,
        HTMLReport.s_worstUser
          (HTMLReport.summary (HTMLReport.processResults timestamp rs))
          = Some w ->
        exists m l1 l2,
          HTMLReport.results (HTMLReport.processResults timestamp rs)
            = l1 ++ w :: l2
          /\ HTMLReport.overallScore_js w = Some m
          /\ (m < 100)%Z
          /\ (forall r c, In r l1 -> HTMLReport.overallScore_js r = Some c ->
                          (m < c)%Z)
          /\ (forall r c, In r l2 -> HTMLReport.overallScore_js r = Some c ->
                          (m <= c)%Z))
  /\ (forall w r c,
        HTMLReport.s_worstUser
          (HTMLReport.summary (HTMLReport.processResults timestamp rs))
          = Some w ->
        HTMLReport.overallScore_js w = Some 0%Z ->
        HTMLReport.overallScore_js r = Some c ->
        (c < 100)%Z ->
        HTMLReport.s_worstUser
          (HTMLReport.summary (HTMLReport.processResults timestamp (rs ++ [r])))
          = Some r).
Proof.
  cbn [HTMLReport.processResults HTMLReport.summary HTMLReport.s_worstUser
       HTMLReport.results].
  set (successful :=
         filter (fun r => negb (truthy (Comprehensive.error_of r))) rs).
  unfold HTMLReport.worstUser.
  split; [apply html_worst_none|]. split.
  - intros Hnz w Hw.
    destruct (html_worst_fold successful None Hnz (or_introl eq_refl))
      as [[Hres Hall]|(w' & m & l1 & l2 & Hres & Hl & Hw' & Hm & H1 & H2)].
    + rewrite Hres in Hw. discriminate.
    + rewrite Hres in Hw. injection Hw as <-.
      cbn [HTMLReport.worst_threshold] in Hm. exists m, l1, l2. auto.
  - intros w r c Hw Hw0 Hr Hc.
    rewrite filter_app. fold successful.
    rewrite fold_left_app, Hw.
    assert (Hkeep : filter
              (fun r => negb (truthy (Comprehensive.error_of r))) [r] = [r]).
    { destruct r; [reflexivity | discriminate]. }
    rewrite Hkeep. cbn [fold_left HTMLReport.worst_threshold].
    rewrite Hr, Hw0. cbn [Z.eqb].
    destruct (Z.ltb_spec c 100); [reflexivity | lia].
Qed.

Lemma html_worst_user_witness :
  exists m l1 l2,
    HTMLReport.results
      (HTMLReport.processResults "t" MoreExamples.five_results)
      = l1 ++ MoreExamples.scored "problem_user" 58 :: l2
    /\ HTMLReport.overallScore_js (MoreExamples.scored "problem_user" 58)
       = Some m
    /\ (m < 100)%Z
    /\ (forall r c, In r l1 -> HTMLReport.overallScore_js r = Some c ->
                    (m < c)%Z)
    /\ (forall r c, In r l2 -> HTMLReport.overallScore_js r = Some c ->
                    (m <= c)%Z).
Proof.
  destruct (html_worst_user "t" MoreExamples.five_results) as (_ & H & _).
  apply H.
  - intros r Hr. cbn in Hr.
    repeat (destruct Hr as [<-|Hr]; [discriminate|]). destruct Hr.
  - reflexivity.
Defined.

Lemma html_partition (rs : list Comprehensive.RunResult) :
  Permutation rs
    (filter (fun r => negb (truthy (Comprehensive.error_of r))) rs
     ++ filter (fun r => truthy (Comprehensive.error_of r)) rs).
Proof.
  induction rs as [|x rs IH]; cbn [filter]; [constructor|].
  destruct (truthy (Comprehensive.error_of x)); cbn [negb app].
  - now apply Permutation_cons_app.
  - now constructor.
Qed.

Lemma sum_overallScore_NaN l : forall acc,
  fold_left
    (fun sum r =>
       match sum, HTMLReport.overallScore_js r with
       | Some s, Some c => Some (s + c)%Z
       | _, _ => None
       end) l acc = None
  <-> acc = None
      \/ exists r, In r l /\ HTMLReport.overallScore_js r = None.
Proof.
  induction l as [|x l IH]; intros acc; cbn [fold_left].
  - split; [auto | intros [H|(r & [] & _)]; exact H].
  - rewrite IH. split.
    + intros [H|(r & Hr & Hs)].
      * destruct acc as [s|]; [|now left].
        destruct (HTMLReport.overallScore_js x) eqn:Ex; [discriminate|].
        right. exists x. split; [now left | exact Ex].
      * right. exists r. split; [now right | exact Hs].
    + intros [->|(r & [<-|Hr] & Hs)].
      * now left.
      * left. rewrite Hs. now destruct acc.
      * right. eauto.
Qed.

Lemma truthy_error_of r :
  truthy (Comprehensive.error_of r) = true
  <-> exists userType c s, r = Comprehensive.Errored userType (String c s).
Proof.
  destruct r as [a|u [|c s]]; cbn; split; try discriminate; eauto.
  - intros (u' & c & s & H). discriminate.
  - intros (u' & c & s & H). discriminate.
Qed.

(** processResults splits the results into the successful and the failed
    ones without losing or duplicating any: the failed ones are those with a
    non-empty error message, and the three counts of the summary add up.
    [principleAverages] has the ten principles in declaration order.
    Without a successful result nothing throws: the overall average and the
    ten principle averages are 0 and there is no best and no worst user.
    The overall average is NaN exactly when a result with an empty error
    message is among the results. *)
Theorem html_summary_counts timestamp rs :
  let data := HTMLReport.processResults timestamp rs in
  Permutation rs (HTMLReport.results data ++ HTMLReport.failedResults data)
  /\ HTMLReport.totalUsers (HTMLReport.summary data)
     = (HTMLReport.successfulAnalyses (HTMLReport.summary data)
        + HTMLReport.failedAnalyses (HTMLReport.summary data))%nat
  /\ (forall r,
        In r (HTMLReport.failedResults data)
        <-> In r rs
            /\ exists userType c s,
                 r = Comprehensive.Errored userType (String c s))
  /\ Object_keys (HTMLReport.rd_principleAverages data) = principleNames
  /\ (HTMLReport.results data = [] ->
      HTMLReport.s_overallAverage (HTMLReport.summary data) = Some 0%Z
      /\ HTMLReport.s_bestUser (HTMLReport.summary data) = None
      /\ HTMLReport.s_worstUser (HTMLReport.summary data) = None
      /\ forall p, In p principleNames ->
           get_field p (HTMLReport.rd_principleAverages data) = Some 0%Z)
  /\ (HTMLReport.s_overallAverage (HTMLReport.summary data) = None
      <-> exists userType, In (Comprehensive.Errored userType "") rs).
Proof.
  cbv zeta.
  cbn [HTMLReport.processResults HTMLReport.summary HTMLReport.results
       HTMLReport.failedResults HTMLReport.totalUsers
       HTMLReport.successfulAnalyses HTMLReport.failedAnalyses
       HTMLReport.rd_principleAverages HTMLReport.s_overallAverage
       HTMLReport.s_bestUser HTMLReport.s_worstUser].
  set (successful :=
         filter (fun r => negb (truthy (Comprehensive.error_of r))) rs).
  split; [apply html_partition|].
  split.
  { rewrite <- length_app. apply Permutation_length, html_partition. }
  split.
  { intros r. rewrite filter_In, truthy_error_of. reflexivity. }
  split; [reflexivity|].
  split.
  { intros ->. split; [reflexivity|]. split; [reflexivity|].
    split; [reflexivity|]. intros p Hp. cbn in Hp.
    repeat (destruct Hp as [<-|Hp]; [reflexivity|]). destruct Hp. }
  unfold HTMLReport.overallAverage, HTMLReport.sum_overallScore.
  assert (Hnan : (exists r, In r successful
                            /\ HTMLReport.overallScore_js r = None)
                 <-> exists userType,
                       In (Comprehensive.Errored userType "") rs).
  { split.
    - intros (r & Hr & Hs). apply filter_In in Hr as [Hr He].
      destruct r as [a|u [|c s]]; try discriminate. now exists u.
    - intros (u & Hu). exists (Comprehensive.Errored u "").
      split; [|reflexivity]. apply filter_In. split; [exact Hu | reflexivity]. }
  rewrite <- Hnan.
  pose proof (sum_overallScore_NaN successful (Some 0%Z)) as Hsum.
  destruct (Nat.ltb_spec 0 (List.length successful)) as [Hlen|Hlen].
  - destruct (fold_left _ successful (Some 0%Z)) as [total|].
    + split; [discriminate|]. intros H.
      destruct Hsum as [_ Hsum]. specialize (Hsum (or_intror H)).
      discriminate.
    + split; [|reflexivity]. intros _.
      destruct Hsum as [Hsum _]. destruct (Hsum eq_refl) as [H|H];
        [discriminate | exact H].
  - split; [discriminate|]. intros (r & Hr & _).
    destruct successful; [destruct Hr | cbn in Hlen; lia].
Qed.

Lemma html_summary_counts_witness :
  HTMLReport.s_overallAverage
    (HTMLReport.summary
       (HTMLReport.processResults "t"
          [Comprehensive.Errored "locked_out_user" "Login failed"]))
    = Some 0%Z
  /\ HTMLReport.s_bestUser
       (HTMLReport.summary
          (HTMLReport.processResults "t"
             [Comprehensive.Errored "locked_out_user" "Login failed"]))
     = None
  /\ HTMLReport.s_worstUser
       (HTMLReport.summary
          (HTMLReport.processResults "t"
             [Comprehensive.Errored "locked_out_user" "Login failed"]))
     = None
  /\ forall p, In p principleNames ->
       get_field p
         (HTMLReport.rd_principleAverages
            (HTMLReport.processResults "t"
               [Comprehensive.Errored "locked_out_user" "Login failed"]))
       = Some 0%Z.
Proof.
  destruct (html_summary_counts "t"
              [Comprehensive.Errored "locked_out_user" "Login failed"])
    as (_ & _ & _ & _ & H & _).
  apply H. reflexivity.
Defined.

(** ** The summary helpers of the complete-analysis suite *)

Lemma lt_comp a b c : a == b -> lt a c = lt b c.
Proof.
  intros H. destruct (lt a c) eqn:Ea, (lt b c) eqn:Eb; try reflexivity.
  - apply lt_true_iff in Ea. apply lt_false_iff in Eb. lra.
  - apply lt_false_iff in Ea. apply lt_true_iff in Eb. lra.
Qed.

Lemma Resolved_inj {A} (a b : A) : Resolved a = Resolved b -> a = b.
Proof. congruence. Qed.

Lemma flat_map_keys {V B} (F : string -> option V -> list B) (o : obj V) :
  NoDup (Object_keys o) ->
  flat_map (fun p => F p (get_field p o)) (Object_keys o)
  = flat_map (fun e => F (fst e) (Some (snd e))) o.
Proof.
  induction o as [|[k v] o IH]; intros Hnd; [reflexivity|].
  cbn [Object_keys map fst flat_map snd] in *.
  apply NoDup_cons_iff in Hnd as [Hk Hnd].
  cbn [get_field]. rewrite String.eqb_refl. f_equal.
  rewrite <- (IH Hnd). unfold Object_keys.
  rewrite !flat_map_concat_map. f_equal. apply map_ext_in.
  intros p Hp. cbn [get_field].
  destruct (String.eqb_spec p k) as [->|_]; [contradiction | reflexivity].
Qed.

Lemma Forall2_flat_map {A B C} (R : B -> C -> Prop)
    (f : A -> list B) (g : A -> list C) l :
  (forall e, Forall2 R (f e) (g e)) ->
  Forall2 R (flat_map f l) (flat_map g l).
Proof.
  intros H. induction l as [|x l IH]; cbn [flat_map]; [constructor|].
  apply Forall2_app; [apply H | exact IH].
Qed.

Lemma Forall2_map_eq {A B C} (R : A -> B -> Prop) (f : A -> C) (g : B -> C)
    l1 l2 :
  Forall2 R l1 l2 ->
  (forall x y, R x y -> f x = g y) ->
  map f l1 = map g l2.
Proof.
  intros H Hfg. induction H as [|x y l1 l2 Hxy _ IH]; [reflexivity|].
  cbn [map]. now rewrite (Hfg x y Hxy), IH.
Qed.

Lemma set_field_fresh {V} k (v : V) o :
  ~ In k (Object_keys o) -> set_field k v o = o ++ [(k, v)].
Proof.
  induction o as [|[k' v'] o IH]; intros H; cbn [set_field app];
    [reflexivity|].
  cbn [Object_keys map fst In] in H.
  destruct (String.eqb_spec k k') as [->|_]; [tauto|].
  f_equal. apply IH. unfold Object_keys. tauto.
Qed.

Lemma get_field_map_keys {V} (g : string -> V) names p :
  In p names -> get_field p (map (fun q => (q, g q)) names) = Some (g p).
Proof.
  induction names as [|q names IH]; cbn [map get_field]; [contradiction|].
  destruct (String.eqb_spec p q) as [->|Hne]; [reflexivity|].
  intros [H|H]; [congruence | now apply IH].
Qed.

Lemma issue_of_cases p avg i :
  In i (SuiteHelpers.issue_of p (Some avg)) ->
  SuiteHelpers.i_principle i = p
  /\ SuiteHelpers.averageScore i = Math_round avg
  /\ avg < 60
  /\ (SuiteHelpers.severity i = Critical <-> avg < 40)
  /\ (SuiteHelpers.severity i = High <-> 40 <= avg).
Proof.
  unfold SuiteHelpers.issue_of.
  destruct (lt avg 40) eqn:E40.
  - apply lt_true_iff in E40. intros [<-|[]]. cbn.
    repeat split; intros; try discriminate; try lra; auto.
  - apply lt_false_iff in E40. destruct (lt avg 60) eqn:E60; [|intros []].
    apply lt_true_iff in E60. intros [<-|[]]. cbn.
    repeat split; intros; try discriminate; try lra; auto.
Qed.

Lemma issue_of_below p avg :
  avg < 60 -> exists i, In i (SuiteHelpers.issue_of p (Some avg)).
Proof.
  intros H. unfold SuiteHelpers.issue_of.
  destruct (lt avg 40); [eexists; now left|].
  destruct (lt avg 60) eqn:E; [eexists; now left|].
  apply lt_false_iff in E. lra.
Qed.

Lemma issue_of_selection (avgf : string -> option number) names :
  map SuiteHelpers.i_principle
    (flat_map (fun p => SuiteHelpers.issue_of p (avgf p)) names)
  = filter
      (fun p =>
         match avgf p with
         | Some avg => lt avg 60
         | None => false
         end)
      names.
Proof.
  induction names as [|p names IH]; cbn [flat_map filter map];
    [reflexivity|].
  rewrite map_app, IH. unfold SuiteHelpers.issue_of.
  destruct (avgf p) as [avg|]; [|reflexivity].
  destruct (lt avg 40) eqn:E40.
  - assert (E60 : lt avg 60 = true).
    { apply lt_true_iff. apply lt_true_iff in E40. lra. }
    rewrite E60. reflexivity.
  - destruct (lt avg 60); reflexivity.
Qed.

Section SuiteArithmetic.

Variables add div : number -> number -> number.

Lemma average_fold p assessments : forall acc,
  fold_left
    (fun acc r =>
       sum <- acc ;;
       v <- SuiteHelpers.principleScore_js p r ;;
       Resolved
         match sum, v with
         | Some s, Some x => Some (add s x)
         | _, _ => None
         end)
    (map Comprehensive.Completed assessments) (Resolved acc)
  = Resolved
      (fold_left
         (fun sum a =>
            match sum, get_field p (Comprehensive.principleScores a) with
            | Some s, Some x => Some (add s x)
            | _, _ => None
            end)
         assessments acc).
Proof.
  induction assessments as [|a l IH]; intros acc; cbn [map fold_left];
    [reflexivity|].
  cbn [bind SuiteHelpers.principleScore_js]. apply IH.
Qed.

Lemma absent_fold p assessments : forall acc,
  (acc = None
   \/ exists a, In a assessments
                /\ get_field p (Comprehensive.principleScores a) = None) ->
  fold_left
    (fun sum a =>
       match sum, get_field p (Comprehensive.principleScores a) with
       | Some s, Some x => Some (add s x)
       | _, _ => None
       end)
    assessments acc = None.
Proof.
  induction assessments as [|a l IH]; intros acc H; cbn [fold_left].
  - destruct H as [H|(a & [] & _)]. exact H.
  - apply IH. destruct H as [->|(a' & [<-|Ha'] & E)].
    + now left.
    + left. rewrite E. now destruct acc.
    + right. eauto.
Qed.

Lemma average_absent p assessments a :
  In a assessments ->
  get_field p (Comprehensive.principleScores a) = None ->
  SuiteHelpers.average add div p (map Comprehensive.Completed assessments)
    = Resolved None.
Proof.
  intros Ha E. unfold SuiteHelpers.average.
  rewrite average_fold, absent_fold by (right; eauto). reflexivity.
Qed.

Lemma average_completed p assessments :
  exists avg,
    SuiteHelpers.average add div p (map Comprehensive.Completed assessments)
      = Resolved avg.
Proof.
  unfold SuiteHelpers.average. rewrite average_fold.
  match goal with
  | |- context [fold_left ?f assessments ?init] =>
      destruct (fold_left f assessments init)
  end; cbn [bind]; eauto.
Qed.

Lemma average_errored p results userType error :
  In (Comprehensive.Errored userType error) results ->
  rejects (SuiteHelpers.average add div p results).
Proof.
  intros Hin. unfold SuiteHelpers.average.
  assert (H : forall l acc,
            (rejects acc
             \/ In (Comprehensive.Errored userType error) l) ->
            rejects
              (fold_left
                 (fun acc r =>
                    sum <- acc ;;
                    v <- SuiteHelpers.principleScore_js p r ;;
                    Resolved
                      match sum, v with
                      | Some s, Some x => Some (add s x)
                      | _, _ => None
                      end) l acc)).
  { induction l as [|x l IH]; intros acc Hacc; cbn [fold_left].
    - destruct Hacc as [Hacc|[]]. exact Hacc.
    - apply IH. destruct Hacc as [(m & ->)|[->|Hl]].
      + left. eexists. reflexivity.
      + left. destruct acc; eexists; reflexivity.
      + now right. }
  destruct (H results (Resolved (Some 0)) (or_intror Hin)) as (m & ->).
  eexists. reflexivity.
Qed.

Lemma average_single p a :
  SuiteHelpers.average add div p [Comprehensive.Completed a]
  = Resolved
      (option_map (fun x => div (add 0 x) (num 1))
         (get_field p (Comprehensive.principleScores a))).
Proof.
  unfold SuiteHelpers.average.
  cbn [fold_left bind SuiteHelpers.principleScore_js].
  destruct (get_field p (Comprehensive.principleScores a)); reflexivity.
Qed.

Lemma issues_fold results (avgf : string -> option number) names :
  (forall p, In p names ->
             SuiteHelpers.average add div p results = Resolved (avgf p)) ->
  forall acc,
    fold_left
      (fun acc principle =>
         issues <- acc ;;
         avg <- SuiteHelpers.average add div principle results ;;
         Resolved (issues ++ SuiteHelpers.issue_of principle avg))
      names (Resolved acc)
    = Resolved
        (acc ++ flat_map (fun p => SuiteHelpers.issue_of p (avgf p)) names).
Proof.
  induction names as [|p names IH]; intros H acc; cbn [fold_left flat_map].
  - now rewrite app_nil_r.
  - cbn [bind]. rewrite (H p (or_introl eq_refl)). cbn [bind].
    rewrite IH by (intros q Hq; apply H; now right).
    now rewrite app_assoc.
Qed.

Lemma issues_fold_rejected results names message :
  fold_left
    (fun acc principle =>
       issues <- acc ;;
       avg <- SuiteHelpers.average add div principle results ;;
       Resolved (issues ++ SuiteHelpers.issue_of principle avg))
    names (Rejected message)
  = Rejected message.
Proof. induction names as [|p names IH]; cbn [fold_left bind]; auto. Qed.

Lemma issues_fold_errored results names acc userType error :
  names <> [] ->
  In (Comprehensive.Errored userType error) results ->
  rejects
    (fold_left
       (fun acc principle =>
          issues <- acc ;;
          avg <- SuiteHelpers.average add div principle results ;;
          Resolved (issues ++ SuiteHelpers.issue_of principle avg))
       names acc).
Proof.
  intros Hne Hin. destruct names as [|p names]; [congruence|].
  cbn [fold_left].
  destruct (average_errored p results _ _ Hin) as (m & ->).
  destruct acc; cbn [bind]; rewrite issues_fold_rejected; eexists;
    reflexivity.
Qed.

Lemma identifyCriticalIssues_completed assessments :
  SuiteHelpers.identifyCriticalIssues add div
    (map Comprehensive.Completed assessments)
  = Resolved
      (flat_map
         (fun p =>
            SuiteHelpers.issue_of p
              (or_else
                 (SuiteHelpers.average add div p
                    (map Comprehensive.Completed assessments)) None))
         principleNames).
Proof.
  unfold SuiteHelpers.identifyCriticalIssues.
  rewrite (issues_fold _
             (fun p =>
                or_else
                  (SuiteHelpers.average add div p
                     (map Comprehensive.Completed assessments)) None)).
  - reflexivity.
  - intros p _. destruct (average_completed p assessments) as (avg & ->).
    reflexivity.
Qed.

Lemma breakdown_fold results (avgf : string -> option number) names :
  (forall p, In p names ->
             SuiteHelpers.average add div p results = Resolved (avgf p)) ->
  NoDup names ->
  forall acc,
    (forall p, In p names -> ~ In p (Object_keys acc)) ->
    fold_left
      (fun acc principle =>
         breakdown <- acc ;;
         avg <- SuiteHelpers.average add div principle results ;;
         Resolved
           (set_field principle (option_map Math_round avg) breakdown))
      names (Resolved acc)
    = Resolved
        (acc ++ map (fun p => (p, option_map Math_round (avgf p))) names).
Proof.
  induction names as [|p names IH]; intros H Hnd acc Hacc;
    cbn [fold_left map].
  - now rewrite app_nil_r.
  - apply NoDup_cons_iff in Hnd as [Hp Hnd].
    cbn [bind]. rewrite (H p (or_introl eq_refl)). cbn [bind].
    rewrite set_field_fresh by (apply Hacc; now left).
    rewrite IH; [now rewrite <- app_assoc | | exact Hnd |].
    + intros q Hq. apply H. now right.
    + intros q Hq. unfold Object_keys. rewrite map_app, in_app_iff.
      intros [Hin|[<-|[]]]; [|contradiction].
      apply (Hacc q); [now right | exact Hin].
Qed.

Lemma breakdown_fold_rejected results names message :
  fold_left
    (fun acc principle =>
       breakdown <- acc ;;
       avg <- SuiteHelpers.average add div principle results ;;
       Resolved
         (set_field principle (option_map Math_round avg) breakdown))
    names (Rejected message)
  = Rejected message.
Proof. induction names as [|p names IH]; cbn [fold_left bind]; auto. Qed.

Lemma breakdown_fold_errored results names acc userType error :
  names <> [] ->
  In (Comprehensive.Errored userType error) results ->
  rejects
    (fold_left
       (fun acc principle =>
          breakdown <- acc ;;
          avg <- SuiteHelpers.average add div principle results ;;
          Resolved
            (set_field principle (option_map Math_round avg) breakdown))
       names acc).
Proof.
  intros Hne Hin. destruct names as [|p names]; [congruence|].
  cbn [fold_left].
  destruct (average_errored p results _ _ Hin) as (m & ->).
  destruct acc; cbn [bind]; rewrite breakdown_fold_rejected; eexists;
    reflexivity.
Qed.

(** identifyCriticalIssues, whatever the rounding of the double-precision
    sums and quotients.  On results that all carry principleScores it
    returns issues for exactly the principles whose computed average is
    below 60 (a NaN average is not), in declaration order and once each.
    An issue is Critical exactly when that average is below 40 and High
    otherwise; its averageScore is the average rounded, so at most 60, and
    at most 40 for a Critical one.  On an empty array it returns no issue.
    It throws when a result has no principleScores.  A principle that one
    of the results does not record is never reported. *)
Theorem critical_issues_follow_averages :
  (forall assessments,
     exists issues,
       SuiteHelpers.identifyCriticalIssues add div
         (map Comprehensive.Completed assessments) = Resolved issues
       /\ (forall p,
             In p (map SuiteHelpers.i_principle issues)
             <-> In p principleNames
                 /\ exists avg,
                      SuiteHelpers.average add div p
                        (map Comprehensive.Completed assessments)
                        = Resolved (Some avg)
                      /\ avg < 60)
       /\ (exists reported,
             map SuiteHelpers.i_principle issues
             = filter reported principleNames)
       /\ forall i, In i issues ->
            exists avg,
              SuiteHelpers.average add div (SuiteHelpers.i_principle i)
                (map Comprehensive.Completed assessments)
                = Resolved (Some avg)
              /\ SuiteHelpers.averageScore i = Math_round avg
              /\ (SuiteHelpers.severity i = Critical <-> avg < 40)
              /\ (SuiteHelpers.severity i = High <-> 40 <= avg)
              /\ (SuiteHelpers.averageScore i <= 60)%Z
              /\ (SuiteHelpers.severity i = Critical ->
                  (SuiteHelpers.averageScore i <= 40)%Z))
  /\ SuiteHelpers.identifyCriticalIssues add div [] = Resolved []
  /\ (forall results userType error,
        In (Comprehensive.Errored userType error) results ->
        rejects (SuiteHelpers.identifyCriticalIssues add div results))
  /\ (forall assessments a p issues,
        In a assessments ->
        get_field p (Comprehensive.principleScores a) = None ->
        SuiteHelpers.identifyCriticalIssues add div
          (map Comprehensive.Completed assessments) = Resolved issues ->
        ~ In p (map SuiteHelpers.i_principle issues)).
Proof.
  split; [|split; [reflexivity|split]].
  - intros assessments.
    rewrite identifyCriticalIssues_completed. eexists. split; [reflexivity|].
    set (results := map Comprehensive.Completed assessments).
    set (avgf := fun p => or_else (SuiteHelpers.average add div p results)
                            None).
    assert (Hres : forall p, SuiteHelpers.average add div p results
                             = Resolved (avgf p)).
    { intros p. unfold avgf, results.
      destruct (average_completed p assessments) as (avg & ->).
      reflexivity. }
    split; [|split].
    + intros p. rewrite in_map_iff. split.
      * intros (i & Hpi & Hi). apply in_flat_map in Hi as (q & Hq & Hi).
        change (In i (SuiteHelpers.issue_of q (avgf q))) in Hi.
        destruct (avgf q) as [avg|] eqn:Eq; [|destruct Hi].
        apply issue_of_cases in Hi as (Hpr & _ & H60 & _).
        assert (Hqp : q = p) by congruence. clear Hpr Hpi. subst q.
        split; [exact Hq|]. exists avg. rewrite Hres, Eq. auto.
      * intros (Hp & avg & E & H60).
        destruct (issue_of_below p avg H60) as (i & Hi).
        exists i. split.
        { now apply issue_of_cases in Hi as (Hpr & _). }
        apply in_flat_map. exists p. split; [exact Hp|].
        change (In i (SuiteHelpers.issue_of p (avgf p))).
        rewrite Hres in E. apply Resolved_inj in E.
        rewrite E. exact Hi.
    + eexists. apply issue_of_selection.
    + intros i Hi. apply in_flat_map in Hi as (p & Hp & Hi).
      change (In i (SuiteHelpers.issue_of p (avgf p))) in Hi.
      destruct (avgf p) as [avg|] eqn:Ep; [|destruct Hi].
      apply issue_of_cases in Hi as (Hpr & Hsc & H60 & Hcr & Hhi).
      exists avg. rewrite Hpr, Hres, Ep, Hsc.
      split; [reflexivity|]. split; [reflexivity|].
      split; [exact Hcr|]. split; [exact Hhi|]. split.
      * apply Math_round_le. change (num 60) with 60. lra.
      * intros Hc. apply Hcr in Hc. apply Math_round_le.
        change (num 40) with 40. lra.
  - intros results userType error Hin.
    unfold SuiteHelpers.identifyCriticalIssues.
    eapply issues_fold_errored; [discriminate | exact Hin].
  - intros assessments a p issues Ha E Hrun.
    rewrite identifyCriticalIssues_completed in Hrun.
    apply Resolved_inj in Hrun. subst issues.
    rewrite in_map_iff. intros (i & Hpi & Hi).
    apply in_flat_map in Hi as (q & Hq & Hi).
    destruct (or_else _ None) as [avg|] eqn:Eq in Hi; [|destruct Hi].
    apply issue_of_cases in Hi as (Hpr & _).
    rewrite <- Hpr, Hpi in Eq.
    rewrite (average_absent p assessments a Ha E) in Eq. discriminate.
Qed.

(** For a single completed analysis the critical issues of the saved summary
    and the recommendations of the analysis name the same principles in the
    same order.  An issue is Critical exactly when the recommendation is;
    an issue of severity High stands for a recommendation of priority High
    or Medium.  The issue shows the score rounded.  Of the double-precision
    arithmetic this uses only that adding a number to 0 and dividing a
    number by 1 give that number. *)
Theorem issues_agree_with_recommendations this page userType a this' :
  (forall x, add 0 x == x) ->
  (forall x, div x 1 == x) ->
  Object_keys (Comprehensive.principles this) = principleNames ->
  Comprehensive.runCompleteAnalysis this page userType
    = (Comprehensive.Completed a, this') ->
  exists issues,
    SuiteHelpers.identifyCriticalIssues add div [Comprehensive.Completed a]
      = Resolved issues
    /\ Forall2
         (fun i r =>
            SuiteHelpers.i_principle i = Comprehensive.principle r
            /\ SuiteHelpers.averageScore i
               = Math_round (Comprehensive.score r)
            /\ (SuiteHelpers.severity i = Critical
                <-> Comprehensive.priority r = Critical)
            /\ (SuiteHelpers.severity i = High
                <-> Comprehensive.priority r <> Critical))
         issues (Comprehensive.a_aiRecommendations a).
Proof.
  intros Hadd Hdiv Hk Hrun.
  assert (Hsingle : forall x, div (add 0 x) (num 1) == x).
  { intros x. change (num 1) with 1. rewrite Hdiv. apply Hadd. }
  destruct (run_completed _ _ _ _ _ Hrun) as (Hp & _ & Hrec & _).
  assert (Hkeys : Object_keys (Comprehensive.principleScores a)
                  = principleNames)
    by (rewrite Hp; now apply analyze_principles_names).
  unfold SuiteHelpers.identifyCriticalIssues.
  rewrite (issues_fold _
             (fun p =>
                option_map (fun x => div (add 0 x) (num 1))
                  (get_field p (Comprehensive.principleScores a))))
    by (intros p _; apply average_single).
  eexists. split; [reflexivity|].
  rewrite Hrec. unfold Comprehensive.generateAIRecommendations, Object_entries.
  cbn [app].
  assert (Hnd : NoDup (Object_keys (Comprehensive.principleScores a)))
    by (rewrite Hkeys; exact principleNames_NoDup).
  rewrite <- Hkeys.
  pose proof (flat_map_keys
                (fun p v =>
                   SuiteHelpers.issue_of p
                     (option_map (fun x => div (add 0 x) (num 1)) v))
                _ Hnd) as Hfk.
  cbv beta in Hfk.
  refine (eq_ind_r (fun l => Forall2 _ l _) _ Hfk). clear Hfk.
  apply Forall2_flat_map. intros [p v].
  cbn [fst snd option_map Comprehensive.recommend_entry].
  unfold SuiteHelpers.issue_of, Comprehensive.priority_of.
  rewrite !(lt_comp _ _ _ (Hsingle v)).
  destruct (lt v 40) eqn:E40.
  - assert (E60 : lt v 60 = true).
    { apply lt_true_iff. apply lt_true_iff in E40. lra. }
    rewrite E60. constructor; [|constructor].
    cbn [SuiteHelpers.i_principle SuiteHelpers.averageScore
         SuiteHelpers.severity Comprehensive.principle Comprehensive.score
         Comprehensive.priority].
    split; [reflexivity|].
    split; [apply Math_round_comp, Hsingle|].
    split; [tauto|]. split; [discriminate | congruence].
  - destruct (lt v 60) eqn:E60; [|constructor].
    constructor; [|constructor].
    cbn [SuiteHelpers.i_principle SuiteHelpers.averageScore
         SuiteHelpers.severity Comprehensive.principle Comprehensive.score
         Comprehensive.priority].
    split; [reflexivity|].
    split; [apply Math_round_comp, Hsingle|].
    destruct (lt v 50); split; split; intros; try discriminate;
      try reflexivity; congruence.
Qed.

(** calculatePrincipleBreakdown, whatever the rounding of the
    double-precision sums and quotients.  On a non-empty array of results
    that all carry principleScores it gives, for the ten principles in
    declaration order, the computed average rounded (NaN staying NaN).  It
    agrees with identifyCriticalIssues: every issue shows the breakdown value
    of its principle, and every principle whose breakdown value is below 60
    is reported as an issue.  On an empty array the breakdown is the empty
    object; a result without principleScores makes the function throw. *)
Theorem breakdown_matches_issues :
  (forall assessments,
     assessments <> [] ->
     exists breakdown issues,
       SuiteHelpers.calculatePrincipleBreakdown add div
         (map Comprehensive.Completed assessments) = Resolved breakdown
       /\ SuiteHelpers.identifyCriticalIssues add div
            (map Comprehensive.Completed assessments) = Resolved issues
       /\ Object_keys breakdown = principleNames
       /\ (forall p, In p principleNames ->
             exists avg,
               SuiteHelpers.average add div p
                 (map Comprehensive.Completed assessments) = Resolved avg
               /\ get_field p breakdown = Some (option_map Math_round avg))
       /\ (forall i, In i issues ->
             get_field (SuiteHelpers.i_principle i) breakdown
             = Some (Some (SuiteHelpers.averageScore i)))
       /\ (forall p n,
             get_field p breakdown = Some (Some n) -> (n < 60)%Z ->
             In p (map SuiteHelpers.i_principle issues)))
  /\ SuiteHelpers.calculatePrincipleBreakdown add div [] = Resolved []
  /\ (forall results userType error,
        In (Comprehensive.Errored userType error) results ->
        rejects (SuiteHelpers.calculatePrincipleBreakdown add div results)).
Proof.
  split; [|split; [reflexivity|]].
  - intros assessments Hne.
    set (results := map Comprehensive.Completed assessments).
    set (avgf := fun p => or_else (SuiteHelpers.average add div p results)
                            None).
    assert (Hres : forall p, SuiteHelpers.average add div p results
                             = Resolved (avgf p)).
    { intros p. unfold avgf, results.
      destruct (average_completed p assessments) as (avg & ->).
      reflexivity. }
    exists (map (fun p => (p, option_map Math_round (avgf p))) principleNames),
      (flat_map (fun p => SuiteHelpers.issue_of p (avgf p)) principleNames).
    assert (Hfield : forall p, In p principleNames ->
              get_field p
                (map (fun p => (p, option_map Math_round (avgf p)))
                   principleNames)
              = Some (option_map Math_round (avgf p)))
      by (intros p Hp; now rewrite get_field_map_keys).
    split.
    { unfold SuiteHelpers.calculatePrincipleBreakdown, results.
      rewrite length_map.
      destruct assessments as [|a l]; [congruence|].
      cbn [List.length Nat.eqb].
      rewrite (breakdown_fold _ avgf).
      - reflexivity.
      - intros p _. apply Hres.
      - exact principleNames_NoDup.
      - intros p _ []. }
    split.
    { unfold SuiteHelpers.identifyCriticalIssues.
      rewrite (issues_fold _ avgf) by (intros p _; apply Hres).
      reflexivity. }
    split.
    { unfold Object_keys. rewrite map_map. cbn [fst]. apply map_id. }
    split.
    { intros p Hp. exists (avgf p). split; [apply Hres | now apply Hfield]. }
    split.
    + intros i Hi. apply in_flat_map in Hi as (p & Hp & Hi).
      destruct (avgf p) as [avg|] eqn:Ep; [|destruct Hi].
      apply issue_of_cases in Hi as (Hpr & Hsc & _).
      rewrite Hpr, Hsc, (Hfield p Hp), Ep. reflexivity.
    + intros p n Hget Hn.
      assert (Hp : In p principleNames).
      { apply get_field_Some_In in Hget.
        apply in_map_iff in Hget as (q & Hq & Hin).
        injection Hq as <- _. exact Hin. }
      rewrite (Hfield p Hp) in Hget.
      destruct (avgf p) as [avg|] eqn:Ep; [|discriminate].
      cbn [option_map] in Hget. injection Hget as <-.
      assert (H60 : avg < 60).
      { destruct (Math_round_nearest avg) as [Hlo _].
        assert (Hz : num (Math_round avg) <= 59).
        { change 59 with (num 59). unfold num. rewrite <- Zle_Qle. lia. }
        lra. }
      destruct (issue_of_below p avg H60) as (i & Hi).
      apply in_map_iff. exists i. split.
      { now apply issue_of_cases in Hi as (Hpr & _). }
      apply in_flat_map. exists p. split; [exact Hp|]. now rewrite Ep.
  - intros results userType error Hin.
    unfold SuiteHelpers.calculatePrincipleBreakdown.
    destruct results as [|r results]; [destruct Hin|].
    cbn [List.length Nat.eqb].
    eapply breakdown_fold_errored; [discriminate | exact Hin].
Qed.

End SuiteArithmetic.

Lemma critical_issues_follow_averages_witness :
  ~ In "similarity"%string
      (map SuiteHelpers.i_principle
         (or_else
            (SuiteHelpers.identifyCriticalIssues Qplus Qdiv
               (map Comprehensive.Completed
                  [ MoreExamples.assessment_of "standard_user"
                      Examples.nine_scores ]))
            [])).
Proof.
  destruct (critical_issues_follow_averages Qplus Qdiv) as (_ & _ & _ & H).
  eapply (H [ MoreExamples.assessment_of "standard_user"
                Examples.nine_scores ]
            (MoreExamples.assessment_of "standard_user" Examples.nine_scores)
            "similarity"%string).
  - now left.
  - reflexivity.
  - reflexivity.
Defined.

Lemma Qdiv_by_one x : x / 1 == x.
Proof. field. Qed.

Lemma issues_agree_with_recommendations_witness :
  exists a issues,
    fst (Comprehensive.runCompleteAnalysis (Comprehensive.new_analyzer "t")
           Examples.inventory "standard_user")
      = Comprehensive.Completed a
    /\ SuiteHelpers.identifyCriticalIssues Qplus Qdiv
         [Comprehensive.Completed a]
       = Resolved issues
    /\ map SuiteHelpers.i_principle issues
       = map Comprehensive.principle (Comprehensive.a_aiRecommendations a).
Proof.
  eexists.
  destruct (issues_agree_with_recommendations Qplus Qdiv
              (Comprehensive.new_analyzer "t") Examples.inventory
              "standard_user" _ _
              Qplus_0_l Qdiv_by_one eq_refl eq_refl)
    as (issues & Hi & Hf).
  exists issues. split; [reflexivity|]. split; [exact Hi|].
  eapply Forall2_map_eq; [exact Hf|]. intros i r (Hpr & _). exact Hpr.
Defined.

Lemma breakdown_matches_issues_witness :
  exists breakdown issues,
    SuiteHelpers.calculatePrincipleBreakdown Qplus Qdiv
      (map Comprehensive.Completed MoreExamples.two_assessments)
      = Resolved breakdown
    /\ SuiteHelpers.identifyCriticalIssues Qplus Qdiv
         (map Comprehensive.Completed MoreExamples.two_assessments)
       = Resolved issues
    /\ forall i, In i issues ->
         get_field (SuiteHelpers.i_principle i) breakdown
         = Some (Some (SuiteHelpers.averageScore i)).
Proof.
  destruct (breakdown_matches_issues Qplus Qdiv) as (H & _).
  destruct (H MoreExamples.two_assessments)
    as (breakdown & issues & Hb & Hi & _ & _ & Hagree & _).
  - discriminate.
  - exists breakdown, issues. auto.
Defined.

(** ** The readiness line of the AI report *)

(** generateAIReport never reports readiness for results of the AI scorer:
    when every successful result is a completed assessment of a
    constructor-made scorer, the average score lies between 21 and 44 and
    the readiness line reads Not Ready. *)
Theorem ai_report_is_never_ready (successfulResults : list AI.Assessment) :
  successfulResults <> [] ->
  (forall a, In a successfulResults ->
     exists now history page userType this',
       AI.runAIAssessment (AI.after_runs (AI.new_scorer now) history)
         page userType = (AI.Completed a, this')) ->
  (21 <= ReportSummary.averageScore AI.overallScore successfulResults
   <= 44)%Z
  /\ ReportSummary.readiness
       (ReportSummary.averageScore AI.overallScore successfulResults)
     = "Not Ready"%string.
Proof.
  intros Hne Hall.
  assert (Hrange :
            (21 <= ReportSummary.averageScore AI.overallScore successfulResults
             <= 44)%Z).
  { apply averageScore_between; [exact Hne|].
    intros a Ha.
    destruct (Hall a Ha) as (now & history & page & userType & this' & Hrun).
    exact (ai_overall_range _ _ _ _ _ _ Hrun). }
  split; [exact Hrange|].
  unfold ReportSummary.readiness.
  destruct (Z.gtb_spec
              (ReportSummary.averageScore AI.overallScore successfulResults)
              75); [lia|].
  destruct (Z.gtb_spec
              (ReportSummary.averageScore AI.overallScore successfulResults)
              60); [lia | reflexivity].
Qed.

Lemma ai_report_is_never_ready_witness :
  exists a,
    fst (AI.runAIAssessment (AI.new_scorer "t") Examples.ai_inventory
           "standard_user") = AI.Completed a
    /\ ReportSummary.readiness
         (ReportSummary.averageScore AI.overallScore [a])
       = "Not Ready"%string.
Proof.
  eexists. split; [reflexivity|].
  eapply ai_report_is_never_ready; [discriminate|].
  intros a [<-|[]].
  exists "t"%string, [], Examples.ai_inventory, "standard_user"%string.
  eexists. reflexivity.
Defined.

(** ** Retrying an interaction *)

Section Retry.

Import AITestUtils.

Variables (locator : Locator) (action : string) (M : number).

Lemma retry_success : forall remaining n delayed k,
  (n <= k < n + remaining)%nat ->
  (exists u, interact locator action k = Resolved u) ->
  (forall j, (n <= j < k)%nat ->
             rejects (interact locator action j)
             /\ ~ num (Z.of_nat j) == M) ->
  retry locator action M remaining n delayed
  = mkOutcome (Resolved tt) k (delayed + (k - n)).
Proof.
  induction remaining as [|r IH]; intros n delayed k Hk Hok Hfail;
    [lia|].
  cbn [retry].
  destruct (Nat.eq_dec n k) as [->|Hne].
  - destruct Hok as (u & ->). f_equal. lia.
  - destruct (Hfail n) as ((m & ->) & Hm); [lia|].
    destruct (Qeq_bool (num (Z.of_nat n)) M) eqn:E;
      [apply Qeq_bool_iff in E; contradiction|].
    rewrite (IH (S n) (S delayed) k); [f_equal; lia | lia | exact Hok |].
    intros j Hj. apply Hfail. lia.
Qed.

Lemma retry_exhausted : forall remaining n delayed,
  (forall j, (n <= j < n + remaining)%nat ->
             rejects (interact locator action j)
             /\ ~ num (Z.of_nat j) == M) ->
  retry locator action M remaining n delayed
  = mkOutcome (Resolved tt) (n + remaining - 1) (delayed + remaining).
Proof.
  induction remaining as [|r IH]; intros n delayed Hfail; cbn [retry].
  - f_equal; lia.
  - destruct (Hfail n) as ((m & ->) & Hm); [lia|].
    destruct (Qeq_bool (num (Z.of_nat n)) M) eqn:E;
      [apply Qeq_bool_iff in E; contradiction|].
    rewrite (IH (S n) (S delayed)); [f_equal; lia|].
    intros j Hj. apply Hfail. lia.
Qed.

Lemma retry_failed : forall remaining n delayed k message,
  (n <= k < n + remaining)%nat ->
  interact locator action k = Rejected message ->
  num (Z.of_nat k) == M ->
  (forall j, (n <= j < k)%nat ->
             rejects (interact locator action j)
             /\ ~ num (Z.of_nat j) == M) ->
  retry locator action M remaining n delayed
  = mkOutcome
      (Rejected
         ("Failed to " ++ action ++ " after " ++ show k ++ " attempts: "
          ++ message))
      k (delayed + (k - n)).
Proof.
  induction remaining as [|r IH]; intros n delayed k message Hk Hrej HM Hfail;
    [lia|].
  cbn [retry].
  destruct (Nat.eq_dec n k) as [->|Hne].
  - rewrite Hrej. apply Qeq_bool_iff in HM. rewrite HM. f_equal. lia.
  - destruct (Hfail n) as ((m & ->) & Hm); [lia|].
    destruct (Qeq_bool (num (Z.of_nat n)) M) eqn:E;
      [apply Qeq_bool_iff in E; contradiction|].
    rewrite (IH (S n) (S delayed) k message);
      [f_equal; lia | lia | exact Hrej | exact HM |].
    intros j Hj. apply Hfail. lia.
Qed.

End Retry.

Lemma below_floor (M : number) (j : nat) :
  (j < Z.to_nat (Math_floor M))%nat -> ~ num (Z.of_nat j) == M.
Proof.
  intros Hj HM. unfold Math_floor in Hj.
  pose proof (Qfloor_le M) as Hfl.
  assert (Hlt : (Z.of_nat j < Qfloor M)%Z) by lia.
  rewrite Zlt_Qlt in Hlt. unfold num in HM. lra.
Qed.

(** smartInteract makes its attempts in order, numbered from 1 up to the
    largest integer not above maxRetries, and waits once between two
    attempts.  The first attempt that succeeds ends the call.  When every
    attempt fails, the call throws only if maxRetries is a whole number: the
    error names the action, the number of attempts and the last failure.
    Otherwise the loop runs out and the call resolves although nothing
    succeeded. *)
Theorem smartInteract_retries locator action options :
  let M := AITestUtils.maxRetries options in
  let N := Z.to_nat (Math_floor M) in
  (forall k,
     (1 <= k <= N)%nat ->
     (exists u, AITestUtils.interact locator action k = Resolved u) ->
     (forall j, (1 <= j < k)%nat ->
                rejects (AITestUtils.interact locator action j)) ->
     AITestUtils.smartInteract locator action options
     = AITestUtils.mkOutcome (Resolved tt) k (k - 1))
  /\ ((forall j, (1 <= j <= N)%nat ->
                 rejects (AITestUtils.interact locator action j)) ->
      (forall message,
         (1 <= N)%nat -> M == num (Z.of_nat N) ->
         AITestUtils.interact locator action N = Rejected message ->
         AITestUtils.smartInteract locator action options
         = AITestUtils.mkOutcome
             (Rejected
                ("Failed to " ++ action ++ " after " ++ AITestUtils.show N
                 ++ " attempts: " ++ message))
             N (N - 1))
      /\ (~ ((1 <= N)%nat /\ M == num (Z.of_nat N)) ->
          AITestUtils.smartInteract locator action options
          = AITestUtils.mkOutcome (Resolved tt) N N)).
Proof.
  intros M N. unfold AITestUtils.smartInteract. fold M. fold N.
  split; [|split].
  - intros k Hk Hok Hfail.
    rewrite (retry_success locator action M N 1 0 k);
      [reflexivity | lia | exact Hok |].
    intros j Hj. split; [apply Hfail; lia|].
    apply below_floor. fold M. fold N. lia.
  - intros message HN HM Hrej.
    rewrite (retry_failed locator action M N 1 0 N message);
      [reflexivity | lia | exact Hrej | now symmetry |].
    intros j Hj. split; [apply H; lia|].
    apply below_floor. fold M. fold N. lia.
  - intros Hnot.
    rewrite (retry_exhausted locator action M N 1 0);
      [f_equal; lia|].
    intros j Hj. split; [apply H; lia|].
    destruct (Nat.eq_dec j N) as [->|Hne].
    + intros HM. apply Hnot. split; [lia | now symmetry].
    + apply below_floor. fold M. fold N. lia.
Qed.

Lemma smartInteract_retries_witness :
  AITestUtils.smartInteract (MoreExamples.clickable_from 3) "click"
    (AITestUtils.mkOptions None None)
  = AITestUtils.mkOutcome (Resolved tt) 3 2.
Proof.
  destruct (smartInteract_retries (MoreExamples.clickable_from 3) "click"
              (AITestUtils.mkOptions None None)) as (H & _).
  apply (H 3%nat).
  - vm_compute. lia.
  - eexists. reflexivity.
  - intros j Hj. assert (Hj' : j = 1%nat \/ j = 2%nat) by lia.
    destruct Hj' as [->| ->]; eexists; reflexivity.
Defined.

(** Edge cases of smartInteract.  A retries option of 0 or none means three
    attempts.  With a maxRetries below 1, such as a negative retries
    option, the call resolves without touching the locator.  An unknown
    action is not rejected at once: it is attempted maxRetries times, the
    locator being awaited each time, before the error is thrown. *)
Theorem smartInteract_edge_cases locator action :
  (forall d,
     AITestUtils.maxRetries (AITestUtils.mkOptions None d) == 3
     /\ AITestUtils.maxRetries (AITestUtils.mkOptions (Some 0) d) == 3)
  /\ (forall options,
        AITestUtils.maxRetries options < 1 ->
        AITestUtils.smartInteract locator action options
        = AITestUtils.mkOutcome (Resolved tt) 0 0)
  /\ (forall d,
        ~ In action ["click"; "fill"; "select"; "check"; "uncheck"]%string ->
        (forall n, exists u, AITestUtils.waitFor locator n = Resolved u) ->
        AITestUtils.smartInteract locator action
          (AITestUtils.mkOptions None d)
        = AITestUtils.mkOutcome
            (Rejected
               ("Failed to " ++ action
                ++ " after 3 attempts: Unknown action: " ++ action))
            3 2).
Proof.
  split; [|split].
  - intros d. split; reflexivity.
  - intros options HM. unfold AITestUtils.smartInteract.
    assert (HN : Z.to_nat (Math_floor (AITestUtils.maxRetries options))
                 = 0%nat).
    { unfold Math_floor.
      assert (Qfloor (AITestUtils.maxRetries options) < 1)%Z; [|lia].
      rewrite Zlt_Qlt.
      pose proof (Qfloor_le (AITestUtils.maxRetries options)) as Hfl.
      change (inject_Z 1) with 1. lra. }
    rewrite HN. reflexivity.
  - intros d Hunknown Hwait.
    assert (Hbody : forall n,
              AITestUtils.interact locator action n
              = Rejected ("Unknown action: " ++ action)).
    { intros n. unfold AITestUtils.interact.
      destruct (Hwait n) as (u & ->). cbn [bind].
      repeat match goal with
      | |- context [String.eqb action ?s] =>
          destruct (String.eqb_spec action s) as [E|_];
            [exfalso; apply Hunknown; subst action; cbn; tauto|]
      end.
      reflexivity. }
    unfold AITestUtils.smartInteract.
    cbn [AITestUtils.maxRetries AITestUtils.retries].
    change (Z.to_nat (Math_floor 3)) with 3%nat.
    rewrite (retry_failed locator action 3 3 1 0 3
               ("Unknown action: " ++ action));
      [reflexivity | lia | apply Hbody | reflexivity |].
    intros j Hj. split; [rewrite Hbody; eexists; reflexivity|].
    assert (Hj' : j = 1%nat \/ j = 2%nat) by lia.
    destruct Hj' as [->| ->]; vm_compute; discriminate.
Qed.

Lemma smartInteract_edge_cases_witness :
  AITestUtils.smartInteract (MoreExamples.clickable_from 1) "hover"
    (AITestUtils.mkOptions None None)
  = AITestUtils.mkOutcome
      (Rejected "Failed to hover after 3 attempts: Unknown action: hover")
      3 2.
Proof.
  destruct (smartInteract_edge_cases (MoreExamples.clickable_from 1) "hover")
    as (_ & _ & H).
  apply (H None).
  - cbn. intuition discriminate.
  - intros n. eexists. reflexivity.
Defined.

(** ** The scorecard of the TestabilityScorer *)

Lemma ge_true_iff a b : ge a b = true <-> b <= a.
Proof. unfold ge. apply Qle_bool_iff. Qed.

Lemma ge_false_iff a b : ge a b = false <-> a < b.
Proof.
  unfold ge. split.
  - intros H. apply Qnot_le_lt. intros C. apply Qle_bool_iff in C. congruence.
  - intros H. destruct (Qle_bool b a) eqn:E; [|reflexivity].
    apply Qle_bool_iff in E. lra.
Qed.

Ltac compare_all :=
  repeat match goal with
  | |- context [lt ?a ?b] =>
      let E := fresh "E" in
      destruct (lt a b) eqn:E;
      [apply lt_true_iff in E | apply lt_false_iff in E]
  | |- context [ge ?a ?b] =>
      let E := fresh "E" in
      destruct (ge a b) eqn:E;
      [apply ge_true_iff in E | apply ge_false_iff in E]
  end.

Lemma scorecard_entry (p : string) (s : number) :
  ((if ge s 90%Q then 1%nat else 0%nat)
   + (if ge s 70%Q && lt s 90%Q then 1%nat else 0%nat)
   + (if ge s 50%Q && lt s 70%Q then 1%nat else 0%nat)
   + (if ge s 30%Q && lt s 50%Q then 1%nat else 0%nat)
   + (if lt s 30%Q then 1%nat else 0%nat) = 1)%nat
  /\ (List.length (TestabilityScorer.recommend_entry (p, s))
      = (if ge s 50%Q && lt s 70%Q then 1%nat else 0%nat)
        + (if ge s 30%Q && lt s 50%Q then 1%nat else 0%nat)
        + (if lt s 30%Q then 1%nat else 0%nat))%nat
  /\ (List.length
        (filter
           (fun r => Priority_eqb (TestabilityScorer.priority r) High)
           (TestabilityScorer.recommend_entry (p, s)))
      = (if ge s 30%Q && lt s 50%Q then 1%nat else 0%nat)
        + (if lt s 30%Q then 1%nat else 0%nat))%nat.
Proof.
  unfold TestabilityScorer.recommend_entry.
  compare_all; cbn; repeat split; try reflexivity; exfalso; lra.
Qed.

Lemma length_filter_cons {T} (f : T -> bool) x l :
  List.length (filter f (x :: l))
  = ((if f x then 1 else 0) + List.length (filter f l))%nat.
Proof. cbn [filter]. destruct (f x); reflexivity. Qed.

(** The five counts of the scorecard partition the principle scores: every
    score is counted in exactly one line, a negative one as Very Poor and one
    above 100 as Excellent.  The recommendations generated from the same
    scores are as many as the Average, Poor and Very Poor scores together,
    the High ones as many as the Poor and Very Poor scores.  The report
    replaces the recommendation block by the no-recommendation line exactly
    when every score is Excellent or Good. *)
Theorem scorecard_counts_partition (scores : obj number) :
  let counts := Scorecard.analysis scores in
  let recs := TestabilityScorer.generateRecommendations scores in
  (Scorecard.excellent counts + Scorecard.good counts
   + Scorecard.average counts + Scorecard.poor counts
   + Scorecard.veryPoor counts
   = List.length (Object_values scores))%nat
  /\ (List.length recs
      = Scorecard.average counts + Scorecard.poor counts
        + Scorecard.veryPoor counts)%nat
  /\ (List.length
        (filter (fun r => Priority_eqb (TestabilityScorer.priority r) High)
           recs)
      = Scorecard.poor counts + Scorecard.veryPoor counts)%nat
  /\ (Scorecard.lists_recommendations recs = false
      <-> (Scorecard.excellent counts + Scorecard.good counts
           = List.length (Object_values scores))%nat).
Proof.
  cbv zeta.
  assert (H : (Scorecard.excellent (Scorecard.analysis scores)
               + Scorecard.good (Scorecard.analysis scores)
               + Scorecard.average (Scorecard.analysis scores)
               + Scorecard.poor (Scorecard.analysis scores)
               + Scorecard.veryPoor (Scorecard.analysis scores)
               = List.length (Object_values scores))%nat
              /\ (List.length (TestabilityScorer.generateRecommendations scores)
                  = Scorecard.average (Scorecard.analysis scores)
                    + Scorecard.poor (Scorecard.analysis scores)
                    + Scorecard.veryPoor (Scorecard.analysis scores))%nat
              /\ (List.length
                    (filter
                       (fun r =>
                          Priority_eqb (TestabilityScorer.priority r) High)
                       (TestabilityScorer.generateRecommendations scores))
                  = Scorecard.poor (Scorecard.analysis scores)
                    + Scorecard.veryPoor (Scorecard.analysis scores))%nat).
  { unfold Scorecard.analysis, TestabilityScorer.generateRecommendations,
      Object_entries, Object_values.
    cbn [Scorecard.excellent Scorecard.good Scorecard.average Scorecard.poor
         Scorecard.veryPoor].
    induction scores as [|[p s] o (IH1 & IH2 & IH3)];
      [repeat split; reflexivity|].
    cbn [map snd flat_map]. rewrite !length_filter_cons.
    rewrite filter_app, !length_app. cbn [List.length].
    destruct (scorecard_entry p s) as (E1 & E2 & E3).
    rewrite E2, E3, IH2, IH3. repeat split; lia. }
  destruct H as (H1 & H2 & H3).
  split; [exact H1|]. split; [exact H2|]. split; [exact H3|].
  unfold Scorecard.lists_recommendations.
  destruct (Nat.ltb_spec 0
              (List.length
                 (TestabilityScorer.generateRecommendations scores)));
    split; intros; try discriminate; try reflexivity; lia.
Qed.

(** ** Classifying a data-test element *)

Lemma lower_ascii_idempotent c :
  AI.lower_ascii (AI.lower_ascii c) = AI.lower_ascii c.
Proof.
  destruct c as [[] [] [] [] [] [] [] []]; reflexivity.
Qed.

Lemma toLowerCase_idempotent s :
  AI.toLowerCase (AI.toLowerCase s) = AI.toLowerCase s.
Proof.
  induction s as [|c s IH]; cbn [AI.toLowerCase]; [reflexivity|].
  now rewrite lower_ascii_idempotent, IH.
Qed.

(** classifyElementCategory on a test id of ASCII characters.  The answer is
    one of seven names, or, when no keyword occurs and the tag name is one
    that [tagCategories] inherits from Object.prototype (constructor, for
    one), the inherited member instead of a name.  The test id is looked at
    without regard to letter case and the role never.  The first category in
    declaration order with a keyword in the test id wins: an id with a
    navigation keyword is a navigation element whatever else it contains,
    and an id containing submit is never an action, although submit is
    listed among the action keywords.  The answer is unknown only when no
    keyword occurs and the tag is neither one of the six listed ones nor an
    inherited name. *)
Theorem classification_is_by_first_keyword testId tagName role :
  is_ascii testId = true ->
  ((exists name,
      AI.classifyElementCategory testId tagName role = Text name
      /\ In name
           [ "navigation"; "form"; "action"; "display"; "feedback";
             "control"; "unknown" ]%string)
   \/ (AI.classifyElementCategory testId tagName role = Inherited tagName
       /\ In tagName Object_prototype
       /\ forall category keywords keyword,
            In (category, keywords) AI.categories -> In keyword keywords ->
            AI.includes (AI.toLowerCase testId) keyword = false))
  /\ AI.classifyElementCategory (AI.toLowerCase testId) tagName role
     = AI.classifyElementCategory testId tagName role
  /\ (forall role', AI.classifyElementCategory testId tagName role'
                    = AI.classifyElementCategory testId tagName role)
  /\ (forall keyword,
        In keyword ["menu"; "nav"; "link"; "burger"]%string ->
        AI.includes (AI.toLowerCase testId) keyword = true ->
        AI.classifyElementCategory testId tagName role = Text "navigation")
  /\ (AI.includes (AI.toLowerCase testId) "submit" = true ->
      AI.classifyElementCategory testId tagName role <> Text "action")
  /\ (AI.classifyElementCategory testId tagName role = Text "unknown" ->
      (forall category keywords keyword,
         In (category, keywords) AI.categories -> In keyword keywords ->
         AI.includes (AI.toLowerCase testId) keyword = false)
      /\ ~ In tagName ["button"; "input"; "select"; "a"; "img"; "div"]%string
      /\ ~ In tagName Object_prototype).
Proof.
  intros _.
  assert (Hnone : find
            (fun entry =>
               existsb (AI.includes (AI.toLowerCase testId)) (snd entry))
            AI.categories = None ->
          forall category keywords keyword,
            In (category, keywords) AI.categories -> In keyword keywords ->
            AI.includes (AI.toLowerCase testId) keyword = false).
  { intros E category keywords keyword Hc Hk.
    pose proof (find_none _ _ E _ Hc) as Hn. cbn [snd] in Hn.
    destruct (AI.includes (AI.toLowerCase testId) keyword) eqn:Ei;
      [|reflexivity].
    assert (existsb (AI.includes (AI.toLowerCase testId)) keywords = true)
      by (apply existsb_exists; eauto).
    congruence. }
  split; [|split; [|split; [|split; [|split]]]].
  - unfold AI.classifyElementCategory in *. cbv zeta in *.
    destruct (find _ AI.categories) as [[category keywords]|] eqn:E.
    + left. exists category. split; [reflexivity|].
      apply find_some in E as [Hin _]. cbn in Hin.
      repeat (destruct Hin as [Hin|Hin];
              [injection Hin as <- _; cbn; tauto|]).
      destruct Hin.
    + unfold lookup_or.
      destruct (get_field tagName AI.tagCategories) as [[|c t]|] eqn:Et.
      * left. exists "unknown"%string. split; [reflexivity | cbn; tauto].
      * left. exists (String c t). split; [reflexivity|].
        apply get_field_Some_In in Et. cbn in Et.
        repeat (destruct Et as [Et|Et]; [inversion Et; cbn; tauto|]).
        destruct Et.
      * destruct (existsb (String.eqb tagName) Object_prototype) eqn:Ep.
        { right. split; [reflexivity|]. split; [|now apply Hnone].
          apply existsb_exists in Ep as (k & Hk & Ek).
          apply String.eqb_eq in Ek. now subst k. }
        { left. exists "unknown"%string. split; [reflexivity | cbn; tauto]. }
  - unfold AI.classifyElementCategory. cbv zeta.
    now rewrite toLowerCase_idempotent.
  - reflexivity.
  - intros keyword Hk Hinc. unfold AI.classifyElementCategory. cbv zeta.
    unfold AI.categories. cbn [find snd existsb].
    cbn in Hk.
    repeat (destruct Hk as [<-|Hk];
            [rewrite Hinc; rewrite ?orb_true_r; reflexivity|]).
    destruct Hk.
  - intros Hinc. unfold AI.classifyElementCategory. cbv zeta.
    unfold AI.categories. cbn [find snd existsb].
    destruct (_ || _) in |- *; [discriminate|].
    rewrite Hinc. rewrite ?orb_true_r. cbn. discriminate.
  - intros Hu. unfold AI.classifyElementCategory in Hu. cbv zeta in Hu.
    destruct (find _ AI.categories) as [[category keywords]|] eqn:E.
    + apply find_some in E as [Hin _]. cbn in Hin.
      injection Hu as ->.
      repeat (destruct Hin as [Hin|Hin]; [discriminate|]). destruct Hin.
    + split; [now apply Hnone|]. unfold lookup_or in Hu. split.
      * intros Htag. cbn in Htag.
        repeat (destruct Htag as [<-|Htag]; [vm_compute in Hu; discriminate|]).
        destruct Htag.
      * intros Hp.
        destruct (get_field tagName AI.tagCategories) as [[|c t]|] eqn:Et.
        { apply get_field_Some_In in Et. cbn in Et.
          repeat (destruct Et as [Et|Et]; [discriminate|]). destruct Et. }
        { apply get_field_Some_In in Et. cbn in Et, Hp.
          repeat (destruct Et as [Et|Et];
                  [inversion Et; subst tagName;
                   repeat (destruct Hp as [Hp|Hp]; [discriminate|]);
                   destruct Hp|]).
          destruct Et. }
        { assert (Ep : existsb (String.eqb tagName) Object_prototype = true).
          { apply existsb_exists. exists tagName.
            split; [exact Hp | apply String.eqb_refl]. }
          rewrite Ep in Hu. discriminate. }
Qed.

Lemma classification_is_by_first_keyword_witness :
  AI.classifyElementCategory "Login-Link" "button" "none"
  = Text "navigation".
Proof.
  destruct (classification_is_by_first_keyword "Login-Link" "button" "none")
    as (_ & _ & _ & H & _).
  - reflexivity.
  - apply (H "link"%string).
    + cbn. tauto.
    + reflexivity.
Defined.
